(** * netclient: the synchronization engine and the peer proxy layer

    A shallow embedding of [functions/mqhandlers.go] (the MQTT handlers of
    the synchronization engine and the fallback reconciler) and of
    [nm-proxy/peer/peer.go] (adding a peer to the proxy and rewriting
    endpoints), with the parts of Go's [strings] and [net] packages these
    two files call.

    Conventions.
    - A Go [string] is a [string]; a Go [[]byte] holding an address is a
      [list byte]; a Go [int] is a [Z]; a pointer that may be [nil] is
      an [option].
    - A handler is a computation in the monad [M]: it reads and writes
      the configuration state, appends the calls it makes to its
      collaborators to a trace of [Event]s, and ends by returning, by
      panicking, or with the process gone.
    - What a collaborator answers (decryption, JSON decoding, the tunnel
      driver, the daemon, DNS) is read from a [World] record. *)

From Stdlib Require Import ZArith NArith List String Ascii Bool Lia.
From Stdlib.Strings Require Import Byte.
From stdpp Require Import base option gmap strings list.

Local Open Scope string_scope.
Local Open Scope list_scope.
Local Open Scope Z_scope.

(** A call that may fail: Go's [(value, error)] pair.  An [error] is
    kept by its message. *)
Inductive result (A : Type) : Type :=
| Ok (a : A)
| Err (msg : string).
Arguments Ok {A} a.
Arguments Err {A} msg.

(** * Go's [strings] package *)

Module strings.

(** [s[n:]] *)
Fixpoint drop (n : nat) (s : string) : string :=
  match n, s with
  | O, _ => s
  | S n', String _ s' => drop n' s'
  | S _, EmptyString => EmptyString
  end.

(** [s[:n]] *)
Fixpoint take (n : nat) (s : string) : string :=
  match n, s with
  | O, _ => EmptyString
  | S n', String c s' => String c (take n' s')
  | S _, EmptyString => EmptyString
  end.

(** [strings.HasPrefix(s, prefix)] *)
Fixpoint HasPrefix (s prefix : string) : bool :=
  match prefix, s with
  | EmptyString, _ => true
  | String p prefix', String c s' => Ascii.eqb p c && HasPrefix s' prefix'
  | String _ _, EmptyString => false
  end.

(** [strings.Index(s, substr)]: the index of the first instance of
    [substr] in [s]; Go's [-1] is [None]. *)
Fixpoint Index (s substr : string) : option nat :=
  if HasPrefix s substr then Some O
  else match s with
       | EmptyString => None
       | String _ s' => S <$> Index s' substr
       end.

(** [strings.Contains(s, substr)]: [Index(s, substr) >= 0]. *)
Definition Contains (s substr : string) : bool :=
  bool_decide (is_Some (Index s substr)).

Fixpoint count_from (fuel : nat) (s substr : string) : nat :=
  match fuel with
  | O => O
  | S fuel' =>
      match Index s substr with
      | None => O
      | Some i => S (count_from fuel' (drop (i + String.length substr) s) substr)
      end
  end.

(** [strings.Count(s, substr)]: the number of non-overlapping instances
    of [substr] in [s]; for the empty [substr], one more than the
    length of [s] (counted in bytes here; no caller passes it). *)
Definition Count (s substr : string) : nat :=
  match substr with
  | EmptyString => S (String.length s)
  | _ => count_from (String.length s) s substr
  end.

Fixpoint split_from (fuel : nat) (s sep : string) : list string :=
  match fuel with
  | O => [s]
  | S fuel' =>
      match Index s sep with
      | None => [s]
      | Some m => take m s :: split_from fuel' (drop (m + String.length sep) s) sep
      end
  end.

(** [strings.Split(s, sep)] for a non-empty [sep] ([genSplit] with
    [n = -1]): the substrings between the instances of [sep], found
    left to right with [Index].  The empty [sep], which explodes [s]
    into its characters, is answered the same way here. *)
Definition Split (s sep : string) : list string :=
  match sep with
  | EmptyString => (fun c => String c EmptyString) <$> list_ascii_of_string s
  | _ => split_from (String.length s) s sep
  end.

(** [strings.Join(elems, sep)] *)
Fixpoint Join (elems : list string) (sep : string) : string :=
  match elems with
  | [] => EmptyString
  | [a] => a
  | a :: rest => a +:+ sep +:+ Join rest sep
  end.

(** The segments of a text between slashes, by recursion on the text:
    what [Split s "/"] computes with [Index]. *)
Fixpoint segments (s : string) : list string :=
  match s with
  | EmptyString => [EmptyString]
  | String c s' =>
      if Ascii.eqb c "/" then EmptyString :: segments s'
      else match segments s' with
           | h :: t => String c h :: t
           | [] => [String c EmptyString]
           end
  end.

(** The number of slashes of a text. *)
Fixpoint slashes (s : string) : nat :=
  match s with
  | EmptyString => O
  | String c s' => if Ascii.eqb c "/" then S (slashes s') else slashes s'
  end.

End strings.

(** * Go's [net] package: addresses *)

Module net.

(** [net.IP]: a slice of bytes, 4 long for IPv4 and 16 long for IPv6 (an
    IPv4 address may be kept in either form).  The [nil] slice is the
    empty list. *)
Definition IP : Type := list byte.

Definition IPv4len : nat := 4.
Definition IPv6len : nat := 16.

(** [p[i]] as a number; every use below is within bounds. *)
Definition at_ (p : list byte) (i : nat) : N := Byte.to_N (nth i p x00).

Definition v4InV6Prefix : list byte := [x00; x00; x00; x00; x00; x00; x00; x00; x00; x00; xff; xff].

Definition isZeros (p : list byte) : bool := forallb (fun b => N.eqb (Byte.to_N b) 0) p.

(** [bytealg.Equal(p, q)] *)
Fixpoint bytesEqual (p q : list byte) : bool :=
  match p, q with
  | [], [] => true
  | a :: p', b :: q' => Byte.eqb a b && bytesEqual p' q'
  | _, _ => false
  end.

(** [net.IPv4(a, b, c, d)]: the 16-byte form of a.b.c.d. *)
Definition IPv4 (a b c d : byte) : IP := v4InV6Prefix ++ [a; b; c; d].

(** [ip.To4()]; Go's [nil] result is [None]. *)
Definition To4 (ip : IP) : option IP :=
  if Nat.eqb (length ip) IPv4len then Some ip
  else if Nat.eqb (length ip) IPv6len && isZeros (take 10 ip)
          && N.eqb (at_ ip 10) 0xff && N.eqb (at_ ip 11) 0xff
       then Some (drop 12 ip)
       else None.

(** [ip.To16()] *)
Definition To16 (ip : IP) : option IP :=
  if Nat.eqb (length ip) IPv4len
  then Some (IPv4 (nth 0 ip x00) (nth 1 ip x00) (nth 2 ip x00) (nth 3 ip x00))
  else if Nat.eqb (length ip) IPv6len then Some ip else None.

(** [ip.Equal(x)]: an IPv4 address and the same address in IPv6 form
    are equal. *)
Definition Equal (ip x : IP) : bool :=
  if Nat.eqb (length ip) (length x) then bytesEqual ip x
  else if Nat.eqb (length ip) IPv4len && Nat.eqb (length x) IPv6len
       then bytesEqual (take 12 x) v4InV6Prefix && bytesEqual ip (drop 12 x)
  else if Nat.eqb (length ip) IPv6len && Nat.eqb (length x) IPv4len
       then bytesEqual (take 12 ip) v4InV6Prefix && bytesEqual (drop 12 ip) x
  else false.

(** [ip.IsPrivate()]: 10.0.0.0/8, 172.16.0.0/12, 192.168.0.0/16 and
    fc00::/7. *)
Definition IsPrivate (ip : IP) : bool :=
  match To4 ip with
  | Some ip4 =>
      N.eqb (at_ ip4 0) 10
      || (N.eqb (at_ ip4 0) 172 && N.eqb (N.land (at_ ip4 1) 0xf0) 16)
      || (N.eqb (at_ ip4 0) 192 && N.eqb (at_ ip4 1) 168)
  | None => Nat.eqb (length ip) IPv6len && N.eqb (N.land (at_ ip 0) 0xfe) 0xfc
  end.

Definition IPv6loopback : IP :=
  [x00; x00; x00; x00; x00; x00; x00; x00; x00; x00; x00; x00; x00; x00; x00; x01].

(** [ip.IsLoopback()]: 127.0.0.0/8 and ::1. *)
Definition IsLoopback (ip : IP) : bool :=
  match To4 ip with
  | Some ip4 => N.eqb (at_ ip4 0) 127
  | None => Equal ip IPv6loopback
  end.

(** [ip.IsMulticast()]: 224.0.0.0/4 and ff00::/8. *)
Definition IsMulticast (ip : IP) : bool :=
  match To4 ip with
  | Some ip4 => N.eqb (N.land (at_ ip4 0) 0xf0) 0xe0
  | None => Nat.eqb (length ip) IPv6len && N.eqb (at_ ip 0) 0xff
  end.

(** [ip.IsLinkLocalUnicast()]: 169.254.0.0/16 and fe80::/10. *)
Definition IsLinkLocalUnicast (ip : IP) : bool :=
  match To4 ip with
  | Some ip4 => N.eqb (at_ ip4 0) 169 && N.eqb (at_ ip4 1) 254
  | None =>
      Nat.eqb (length ip) IPv6len && N.eqb (at_ ip 0) 0xfe
      && N.eqb (N.land (at_ ip 1) 0xc0) 0x80
  end.

(** [net.IPNet]: a network number and its mask. *)
Record IPNet : Type := { IPNet_IP : IP; Mask : list byte }.

(** [networkNumberAndMask(n)]; the [nil, nil] answer is [None]. *)
Definition networkNumberAndMask (n : IPNet) : option (IP * list byte) :=
  let pick (ip : IP) :=
    let m := Mask n in
    if Nat.eqb (length m) IPv4len
    then (if Nat.eqb (length ip) IPv4len then Some (ip, m) else None)
    else if Nat.eqb (length m) IPv6len
    then (if Nat.eqb (length ip) IPv4len then Some (ip, drop 12 m) else Some (ip, m))
    else None in
  match To4 (IPNet_IP n) with
  | Some ip4 => pick ip4
  | None =>
      if Nat.eqb (length (IPNet_IP n)) IPv6len then pick (IPNet_IP n) else None
  end.

Fixpoint maskedEqual (nn m ip : list byte) : bool :=
  match nn, m, ip with
  | a :: nn', k :: m', b :: ip' =>
      N.eqb (N.land (Byte.to_N a) (Byte.to_N k)) (N.land (Byte.to_N b) (Byte.to_N k))
      && maskedEqual nn' m' ip'
  | _, _, _ => true
  end.

(** [n.Contains(ip)]: the lengths must agree, and the address and the
    network number agree under the mask. *)
Definition Contains (n : IPNet) (ip : IP) : bool :=
  let nn_m := default ([], []) (networkNumberAndMask n) in
  let ip' := default ip (To4 ip) in
  if Nat.eqb (length ip') (length nn_m.1) then maskedEqual nn_m.1 nn_m.2 ip' else false.

(** [net.UDPAddr] (the zone is left out). *)
Record UDPAddr : Type := { UDPAddr_IP : IP; Port : Z }.

(** ** Printing addresses: [ip.String()] and [fmt.Sprintf("%s:%d", ip, port)] *)

Definition digitChar (n : N) : ascii := ascii_of_N (48 + n).

Fixpoint digits (fuel : nat) (n : N) (acc : string) : string :=
  match fuel with
  | O => acc
  | S fuel' =>
      let acc' := String (digitChar (n mod 10)) acc in
      if N.eqb (n / 10) 0 then acc' else digits fuel' (n / 10) acc'
  end.

(** The decimal text of an unsigned number ([strconv.Itoa], [%d]). *)
Definition uitoa (n : N) : string := digits (S (N.to_nat (N.log2 n))) n EmptyString.

(** The decimal text of an [int]. *)
Definition itoa (z : Z) : string :=
  if z <? 0 then String "-" (uitoa (Z.to_N (- z))) else uitoa (Z.to_N z).

Definition hexDigit (n : N) : ascii :=
  nth (N.to_nat n) (list_ascii_of_string "0123456789abcdef") "0"%char.

(** [hexString(b)]: two lower-case hexadecimal digits per byte. *)
Fixpoint hexString (b : list byte) : string :=
  match b with
  | [] => EmptyString
  | x :: b' =>
      String (hexDigit (N.shiftr (Byte.to_N x) 4))
        (String (hexDigit (N.land (Byte.to_N x) 0xf)) (hexString b'))
  end.

(** [appendHex(dst, i)] for a 16-bit [i]: the hexadecimal digits of [i]
    without leading zeros, ["0"] for zero. *)
Definition appendHex (i : N) : string :=
  if N.eqb i 0 then "0"
  else
    string_of_list_ascii
      (flat_map
         (fun j => let v := N.shiftr i (4 * j) in
                   if N.ltb 0 v then [hexDigit (N.land v 0xf)] else [])
         [3; 2; 1; 0]%N).

(** The eight 16-bit groups of a 16-byte address. *)
Fixpoint v6u16 (p : list byte) : list N :=
  match p with
  | hi :: lo :: p' => N.lor (N.shiftl (Byte.to_N hi) 8) (Byte.to_N lo) :: v6u16 p'
  | _ => []
  end.

Fixpoint zeroRun (gs : list N) : nat :=
  match gs with
  | g :: gs' => if N.eqb g 0 then S (zeroRun gs') else O
  | [] => O
  end.

(** The leftmost longest run of two or more zero groups, as
    [(zeroStart, zeroEnd)]; [(255, 255)] when there is none. *)
Fixpoint longestZeroRun (i : nat) (gs : list N) (best : nat * nat) : nat * nat :=
  match gs with
  | [] => best
  | _ :: gs' =>
      let l := zeroRun gs in
      let best' :=
        if Nat.leb 2 l && Nat.ltb (best.2 - best.1) l then (i, (i + l)%nat) else best in
      longestZeroRun (S i) gs' best'
  end.

Fixpoint print6 (fuel i : nat) (gs : list N) (zero : nat * nat) : string :=
  match fuel with
  | O => EmptyString
  | S fuel' =>
      if Nat.leb 8 i then EmptyString
      else if Nat.eqb i zero.1 then
        String ":" (String ":"
          (if Nat.leb 8 zero.2 then EmptyString
           else appendHex (nth zero.2 gs 0%N) +:+ print6 fuel' (S zero.2) gs zero))
      else
        (if Nat.ltb 0 i then ":" else EmptyString)
        +:+ appendHex (nth i gs 0%N) +:+ print6 fuel' (S i) gs zero
  end.

(** The text of a 16-byte address that is no IPv4 address
    ([netip.Addr.string6]): groups in hexadecimal, the longest run of
    zero groups written [::]. *)
Definition string6 (ip : IP) : string :=
  let gs := v6u16 ip in
  print6 8 0 gs (longestZeroRun 0 gs (255, 255)%nat).

(** The dotted text of a 4-byte address. *)
Definition string4 (p4 : list byte) : string :=
  uitoa (at_ p4 0) +:+ "." +:+ uitoa (at_ p4 1) +:+ "." +:+ uitoa (at_ p4 2)
  +:+ "." +:+ uitoa (at_ p4 3).

(** [ip.String()] *)
Definition IP_String (ip : IP) : string :=
  if Nat.eqb (length ip) 0 then "<nil>"
  else if negb (Nat.eqb (length ip) IPv4len) && negb (Nat.eqb (length ip) IPv6len)
  then String "?" (hexString ip)
  else match To4 ip with
       | Some p4 => string4 p4
       | None => string6 ip
       end.

(** [fmt.Sprintf("%s:%d", ip, port)] *)
Definition Sprintf_s_d (ip : IP) (port : Z) : string :=
  IP_String ip +:+ ":" +:+ itoa port.

(** ** Resolving addresses: [net.ResolveUDPAddr("udp", address)] *)

(** What the host's resolver answers: a port for a service name and an
    address for a host name.  Only names that are no literals reach it. *)
Record Resolver : Type := {
  lookupPort : string -> result Z;
  lookupIP : string -> result IP
}.

Fixpoint IndexByte (s : string) (c : ascii) : option nat :=
  match s with
  | EmptyString => None
  | String a s' => if Ascii.eqb a c then Some O else S <$> IndexByte s' c
  end.

Fixpoint LastIndexByte (s : string) (c : ascii) : option nat :=
  match s with
  | EmptyString => None
  | String a s' =>
      match LastIndexByte s' c with
      | Some i => Some (S i)
      | None => if Ascii.eqb a c then Some O else None
      end
  end.

Definition byteAt (s : string) (i : nat) : option ascii := String.get i s.

(** [net.SplitHostPort(hostport)]: the port follows the last colon; a
    host with a colon of its own must stand in brackets. *)
Definition SplitHostPort (hostport : string) : result (string * string) :=
  match LastIndexByte hostport ":" with
  | None => Err "missing port in address"
  | Some i =>
      let finish (host : string) (j k : nat) :=
        if bool_decide (is_Some (IndexByte (strings.drop j hostport) "[")) then
          Err "unexpected '[' in address"
        else if bool_decide (is_Some (IndexByte (strings.drop k hostport) "]")) then
          Err "unexpected ']' in address"
        else Ok (host, strings.drop (S i) hostport) in
      if strings.HasPrefix hostport "[" then
        match IndexByte hostport "]" with
        | None => Err "missing ']' in address"
        | Some end_ =>
            if Nat.eqb (S end_) (String.length hostport) then Err "missing port in address"
            else if Nat.eqb (S end_) i then
              finish (strings.take (end_ - 1) (strings.drop 1 hostport)) 1%nat (S end_)
            else if bool_decide (byteAt hostport (S end_) = Some ":"%char) then
              Err "too many colons in address"
            else Err "missing port in address"
        end
      else
        let host := strings.take i hostport in
        if bool_decide (is_Some (IndexByte host ":")) then Err "too many colons in address"
        else finish host O O
  end.

Definition isDigit (c : ascii) : bool :=
  N.leb 48 (N_of_ascii c) && N.leb (N_of_ascii c) 57.

(** [dtoi(s)]: the number written by the leading digits of [s], how
    many they are, and whether there is one (below [0xFFFFFF]). *)
Fixpoint dtoi_from (n : N) (i : nat) (s : string) : N * nat * bool :=
  match s with
  | String c s' =>
      if isDigit c then
        let n' := (n * 10 + (N_of_ascii c - 48))%N in
        if N.leb 0xFFFFFF n' then (0xFFFFFF%N, i, false) else dtoi_from n' (S i) s'
      else (n, i, negb (Nat.eqb i 0))
  | EmptyString => (n, i, negb (Nat.eqb i 0))
  end.

Definition dtoi (s : string) : N * nat * bool := dtoi_from 0 0 s.

(** [parseIPv4(s)]: four decimal fields of at most 255 with dots
    between them, none with a leading zero; the answer is in 16-byte
    form.  [nil] is [None]. *)
Fixpoint parseIPv4_fields (fields : nat) (first : bool) (s : string) : option (list byte) :=
  match fields with
  | O => if bool_decide (s = EmptyString) then Some [] else None
  | S fields' =>
      match s with
      | EmptyString => None
      | String c0 rest0 =>
          let after_dot :=
            if first then Some s
            else if Ascii.eqb c0 "." then Some rest0 else None in
          s1 ← after_dot;
          let '(n, c, ok) := dtoi s1 in
          if negb ok || N.ltb 0xFF n then None
          else if Nat.ltb 1 c && strings.HasPrefix s1 "0" then None
          else
            b ← Byte.of_N n;
            tl ← parseIPv4_fields fields' false (strings.drop c s1);
            Some (b :: tl)
      end
  end.

Definition parseIPv4 (s : string) : option IP :=
  p ← parseIPv4_fields 4 true s;
  Some (v4InV6Prefix ++ p).

(** The port of [host:port]: a decimal number with an optional sign is
    taken by its value, anything else is a service name for the
    resolver; a port outside 0..65535 is invalid ([LookupPort]). *)
Definition allDigits (s : string) : bool :=
  forallb isDigit (list_ascii_of_string s).

Definition decimalValue (s : string) : Z :=
  fold_left (fun n c => n * 10 + (Z.of_N (N_of_ascii c) - 48)) (list_ascii_of_string s) 0.

(** The value of a text of digits read after the number [a]: what
    [decimalValue] folds. *)
Fixpoint valueFrom (a : Z) (s : string) : Z :=
  match s with
  | EmptyString => a
  | String c s' => valueFrom (a * 10 + (Z.of_N (N_of_ascii c) - 48)) s'
  end.

Definition parsePort (r : Resolver) (service : string) : result Z :=
  let checked (port : Z) :=
    if (0 <=? port) && (port <=? 65535) then Ok port else Err "invalid port" in
  match service with
  | EmptyString => Ok 0
  | String sign digits_ =>
      let '(neg, body) :=
        if Ascii.eqb sign "+" then (false, digits_)
        else if Ascii.eqb sign "-" then (true, digits_)
        else (false, service) in
      if allDigits body then checked (if neg then - decimalValue body else decimalValue body)
      else match lookupPort r service with
           | Ok port => checked port
           | Err e => Err e
           end
  end.

(** The bytes a domain name may hold (letters, digits, [_], [-], [.]);
    [isDomainName] refuses a name with any other, and the resolver
    reports such a name as not found. *)
Definition isDomainNameByte (c : ascii) : bool :=
  let n := N_of_ascii c in
  (N.leb 97 n && N.leb n 122) || (N.leb 65 n && N.leb n 90) || isDigit c
  || N.eqb n 95 || N.eqb n 45 || N.eqb n 46.

Definition hasDomainNameBytes (s : string) : bool :=
  forallb isDomainNameByte (list_ascii_of_string s).

(** [net.ResolveUDPAddr("udp", address)]: split host and port, read the
    port, and read the host as a literal IPv4 address or else ask the
    resolver.  An IPv6 literal can only come in brackets; it is handed
    to the resolver like a name (no caller here writes brackets). *)
Definition ResolveUDPAddr (r : Resolver) (address : string) : result UDPAddr :=
  match SplitHostPort address with
  | Err e => Err e
  | Ok (host, port) =>
      match parsePort r port with
      | Err e => Err e
      | Ok portnum =>
          if bool_decide (host = EmptyString) then Ok {| UDPAddr_IP := []; Port := portnum |}
          else match parseIPv4 host with
               | Some ip => Ok {| UDPAddr_IP := ip; Port := portnum |}
               | None =>
                   if bool_decide (is_Some (IndexByte host ":")) || hasDomainNameBytes host then
                     match lookupIP r host with
                     | Ok ip => Ok {| UDPAddr_IP := ip; Port := portnum |}
                     | Err e => Err e
                     end
                   else Err "no such host"
               end
      end
  end.

End net.

(** * [wgtypes]: the tunnel driver's peer configuration *)

Module wgtypes.

(** [wgtypes.Key] is a 32-byte array; both files use a key only as a
    value and through [String()], its base64 text.  A key is kept by
    that text. *)
Definition Key : Type := string.
Definition Key_String (k : Key) : string := k.

(** [time.Duration]: nanoseconds. *)
Definition Duration : Type := Z.
Definition Second : Duration := 1000000000.

(** [wgtypes.PeerConfig], with the fields the two files read or write.
    [Endpoint] and [PersistentKeepaliveInterval] are pointers. *)
Record PeerConfig : Type := {
  PublicKey : Key;
  Endpoint : option net.UDPAddr;
  PersistentKeepaliveInterval : option Duration;
  AllowedIPs : list net.IPNet
}.

Definition with_Endpoint (e : option net.UDPAddr) (p : PeerConfig) : PeerConfig :=
  {| PublicKey := PublicKey p; Endpoint := e;
     PersistentKeepaliveInterval := PersistentKeepaliveInterval p;
     AllowedIPs := AllowedIPs p |}.

Definition with_PersistentKeepaliveInterval (d : option Duration) (p : PeerConfig) : PeerConfig :=
  {| PublicKey := PublicKey p; Endpoint := Endpoint p;
     PersistentKeepaliveInterval := d;
     AllowedIPs := AllowedIPs p |}.

End wgtypes.

(** * [nm-proxy]: models, the proxy registry, and [peer.go] *)

Module nmproxy.
Import wgtypes.

(** [wg.WGIface]: the owning interface, by its name and device key. *)
Record WGIface : Type := { Name : string; Device_PublicKey : Key }.

(** A live local socket ([net.Conn]), by an identifier. *)
Definition LocalConnHandle : Type := nat.

(** [models.ProxyConfig].  [PeerConf] is the caller's [*PeerConfig]; the
    record keeps the value it points to when the peer is added. *)
Record ProxyConfig : Type := {
  LocalKey : Key;
  RemoteKey : Key;
  WgInterface : WGIface;
  IsExtClient : bool;
  PeerConf : PeerConfig;
  PersistentKeepalive : option Duration;
  Network : string;
  PeerEndpoint : option net.UDPAddr;
  LocalConnAddr : option net.UDPAddr
}.

(** [models.Conn]: the connection of one peer.  Its lock and its
    [StopConn] and [ResetConn] closures (the proxy's [Close] and
    [Reset]) carry no data and are left out. *)
Record Conn : Type := {
  Conn_Key : Key;
  IsRelayed : bool;
  RelayedEndpoint : option net.UDPAddr;
  Conn_IsAttachedExtClient : bool;
  Config : ProxyConfig;
  Conn_LocalConn : option LocalConnHandle
}.

(** [models.RemotePeer]: the entry of the hash-keyed index. *)
Record RemotePeer : Type := {
  Interface : string;
  PeerKey : string;
  RemotePeer_IsExtClient : bool;
  RemotePeer_Endpoint : option net.UDPAddr;
  RemotePeer_IsAttachedExtClient : bool;
  RemotePeer_LocalConn : option LocalConnHandle
}.

(** [proxy.Proxy]: the configuration and, once started, the local
    socket. *)
Record Proxy : Type := { Proxy_Config : ProxyConfig; Proxy_LocalConn : option LocalConnHandle }.

(** Modelled from the spec: [proxy.NewProxy] is not among the source
    files.  A new proxy holds the configuration it is given and no
    socket yet. *)
Definition NewProxy (c : ProxyConfig) : Proxy :=
  {| Proxy_Config := c; Proxy_LocalConn := None |}.

(** What the proxy package and the host answer to [AddNewPeer]. *)
Record ProxyEnv : Type := {
  (** [models.NmProxyPort], the proxy's well-known port. *)
  NmProxyPort : Z;
  resolver : net.Resolver;
  (** Modelled from the spec: [Proxy.Start] is not among the source
      files.  It starts the UDP relay and listener of the peer; it
      fails with the socket or bind error, or leaves the proxy with
      its local socket and that socket's address. *)
  Start : ProxyConfig -> result (LocalConnHandle * net.UDPAddr);
  (** [models.ConvPeerKeyToHash]: the hash a key's text is indexed by. *)
  ConvPeerKeyToHash : string -> string
}.

(** Modelled from the spec: the registry ([config.GetGlobalCfg()]) is not
    among the source files.  It holds the proxy-enabled flag, the
    connections keyed by network and peer identity, the remote peers
    keyed by the hash of the peer's key, and the records of the
    attached external clients. *)
Record GlobalCfg : Type := {
  ProxyStatus : bool;
  networkPeerMap : gmap (string * string) Conn;
  peerHashMap : gmap string RemotePeer;
  extClients : list RemotePeer
}.

(** Modelled from the spec: [SavePeer(network, conn)] inserts or replaces
    the entry of the peer, keyed by the network and the peer's
    identity. *)
Definition SavePeer (network : string) (connConf : Conn) (g : GlobalCfg) : GlobalCfg :=
  {| ProxyStatus := ProxyStatus g;
     networkPeerMap := <[(network, Key_String (Conn_Key connConf)) := connConf]> (networkPeerMap g);
     peerHashMap := peerHashMap g;
     extClients := extClients g |}.

(** Modelled from the spec: [GetPeer(network, identity)] answers the
    connection and whether it was found. *)
Definition GetPeer (network peerPubKey : string) (g : GlobalCfg) : option Conn :=
  networkPeerMap g !! (network, peerPubKey).

(** Modelled from the spec: [SavePeerByHash(peer)] inserts or replaces
    the entry of the secondary index, keyed by the hash of the peer's
    key. *)
Definition SavePeerByHash (env : ProxyEnv) (rPeer : RemotePeer) (g : GlobalCfg) : GlobalCfg :=
  {| ProxyStatus := ProxyStatus g;
     networkPeerMap := networkPeerMap g;
     peerHashMap := <[ConvPeerKeyToHash env (PeerKey rPeer) := rPeer]> (peerHashMap g);
     extClients := extClients g |}.

Definition GetPeerByHash (env : ProxyEnv) (peerKey : string) (g : GlobalCfg) : option RemotePeer :=
  peerHashMap g !! ConvPeerKeyToHash env peerKey.

(** Modelled from the spec: [SaveExtClientInfo(peer)] records the
    metadata of an attached external client. *)
Definition SaveExtClientInfo (rPeer : RemotePeer) (g : GlobalCfg) : GlobalCfg :=
  {| ProxyStatus := ProxyStatus g;
     networkPeerMap := networkPeerMap g;
     peerHashMap := peerHashMap g;
     extClients := rPeer :: extClients g |}.

Definition with_PeerEndpoint (e : option net.UDPAddr) (c : ProxyConfig) : ProxyConfig :=
  {| LocalKey := LocalKey c; RemoteKey := RemoteKey c; WgInterface := WgInterface c;
     IsExtClient := IsExtClient c; PeerConf := PeerConf c;
     PersistentKeepalive := PersistentKeepalive c; Network := Network c;
     PeerEndpoint := e; LocalConnAddr := LocalConnAddr c |}.

Definition with_LocalConnAddr (a : option net.UDPAddr) (c : ProxyConfig) : ProxyConfig :=
  {| LocalKey := LocalKey c; RemoteKey := RemoteKey c; WgInterface := WgInterface c;
     IsExtClient := IsExtClient c; PeerConf := PeerConf c;
     PersistentKeepalive := PersistentKeepalive c; Network := Network c;
     PeerEndpoint := PeerEndpoint c; LocalConnAddr := a |}.

(** How a call ends: it returns its [error] ([None] for [nil]), or it
    panics. *)
Inductive Exit : Type :=
| Returned (err : option string)
| Panicked (why : string).

(** A run of [AddNewPeer]: how it ended, the caller's peer
    configuration (the function writes through the pointer) and the
    registry afterwards. *)
Record AddNewPeerRun : Type := {
  exit : Exit;
  peer_after : PeerConfig;
  cfg_after : GlobalCfg
}.

End nmproxy.

(** * [nm-proxy/peer/peer.go] *)

Module peer.
Import wgtypes nmproxy.

(** [AddNewPeer(wgInterface, network, peer, peerAddr, isRelayed,
    isExtClient, isAttachedExtClient, relayTo)], run on the registry
    [g].  [peer.Endpoint] is a pointer: reading its port or its
    address when it is [nil] panics. *)
Definition AddNewPeer (env : ProxyEnv) (g : GlobalCfg)
    (wgInterface : WGIface) (network : string) (peer : PeerConfig) (peerAddr : string)
    (isRelayed isExtClient isAttachedExtClient : bool)
    (relayTo : option net.UDPAddr) : AddNewPeerRun :=
  (* if peer.PersistentKeepaliveInterval == nil { d := time.Second * 25; ... = &d } *)
  let peer :=
    match PersistentKeepaliveInterval peer with
    | None => with_PersistentKeepaliveInterval (Some (Second * 25)) peer
    | Some _ => peer
    end in
  let c :=
    {| LocalKey := Device_PublicKey wgInterface;
       RemoteKey := PublicKey peer;
       WgInterface := wgInterface;
       IsExtClient := isExtClient;
       PeerConf := peer;
       PersistentKeepalive := PersistentKeepaliveInterval peer;
       Network := network;
       PeerEndpoint := None;
       LocalConnAddr := None |} in
  let p := NewProxy c in
  let stop (e : Exit) := {| exit := e; peer_after := peer; cfg_after := g |} in
  match Endpoint peer with
  | None => stop (Panicked "invalid memory address or nil pointer dereference")
  | Some endpoint =>
      (* peerPort := models.NmProxyPort
         if isExtClient && isAttachedExtClient { peerPort = peer.Endpoint.Port } *)
      let peerPort :=
        if isExtClient && isAttachedExtClient then net.Port endpoint else NmProxyPort env in
      (* peerEndpointIP := peer.Endpoint.IP *)
      let peerEndpointIP := net.UDPAddr_IP endpoint in
      let relayed : result net.IP :=
        if isRelayed then
          match relayTo with
          | None => Err "relay endpoint is nil"
          | Some relay => Ok (net.UDPAddr_IP relay)
          end
        else Ok peerEndpointIP in
      match relayed with
      | Err e => stop (Returned (Some e))
      | Ok peerEndpointIP =>
          match net.ResolveUDPAddr (resolver env) (net.Sprintf_s_d peerEndpointIP peerPort) with
          | Err e => stop (Returned (Some e))
          | Ok peerEndpoint =>
              (* p.Config.PeerEndpoint = peerEndpoint *)
              let p :=
                {| Proxy_Config := with_PeerEndpoint (Some peerEndpoint) (Proxy_Config p);
                   Proxy_LocalConn := Proxy_LocalConn p |} in
              (* err = p.Start() *)
              match Start env (Proxy_Config p) with
              | Err e => stop (Returned (Some e))
              | Ok (localConn, localAddr) =>
                  let p :=
                    {| Proxy_Config := with_LocalConnAddr (Some localAddr) (Proxy_Config p);
                       Proxy_LocalConn := Some localConn |} in
                  let connConf :=
                    {| Conn_Key := PublicKey peer;
                       IsRelayed := isRelayed;
                       RelayedEndpoint := relayTo;
                       Conn_IsAttachedExtClient := isAttachedExtClient;
                       Config := Proxy_Config p;
                       Conn_LocalConn := Proxy_LocalConn p |} in
                  let rPeer :=
                    {| Interface := Name wgInterface;
                       PeerKey := Key_String (PublicKey peer);
                       RemotePeer_IsExtClient := isExtClient;
                       RemotePeer_Endpoint := Some peerEndpoint;
                       RemotePeer_IsAttachedExtClient := isAttachedExtClient;
                       RemotePeer_LocalConn := Proxy_LocalConn p |} in
                  let g := SavePeer network connConf g in
                  let g := SavePeerByHash env rPeer g in
                  let g := if isAttachedExtClient then SaveExtClientInfo rPeer g else g in
                  {| exit := Returned None; peer_after := peer; cfg_after := g |}
              end
          end
      end
  end.

(** [SetPeersEndpointToProxy(network, peers)]: the slice is rewritten
    in place and returned; the registry is only read. *)
Definition SetPeersEndpointToProxy (g : GlobalCfg) (network : string)
    (peers : list PeerConfig) : list PeerConfig :=
  if negb (ProxyStatus g) then peers
  else
    (fun p =>
       match GetPeer network (Key_String (PublicKey p)) g with
       | Some proxyPeer => with_Endpoint (LocalConnAddr (Config proxyPeer)) p
       | None => p
       end) <$> peers.

End peer.

(** * [netmaker/models]: the messages of the control channel *)

Module models.
Import wgtypes.

(** The action of a node update ([NODE_DELETE], [NODE_FORCE_UPDATE],
    [NODE_NOOP]); any other text is [NODE_ACTION]. *)
Inductive NodeAction : Type :=
| NODE_DELETE
| NODE_FORCE_UPDATE
| NODE_NOOP
| NODE_ACTION (name : string).

(** The fields of [models.CommonNode] that the handlers read
    ([Node_Server] is the field [Server]). *)
Record Node : Type := {
  ID : string;
  Network : string;
  Node_Server : string;
  Action : NodeAction
}.

Definition with_Action (a : NodeAction) (n : Node) : Node :=
  {| ID := ID n; Network := Network n; Node_Server := Node_Server n; Action := a |}.

(** The action of a host update; any other text is [HostAction]. *)
Inductive HostMqAction : Type :=
| Upgrade
| JoinHostToNetwork
| DeleteHost
| UpdateHost
| RequestAck
| SignalHost
| UpdateKeys
| RequestPull
| Acknowledgement
| HostAction (name : string).

(** [models.Iface]: an interface a peer's host advertises. *)
Record Iface : Type := { Iface_Name : string; Address : net.IPNet }.

(** [models.HostInfo]: what the server tells about a peer's host. *)
Record HostInfo : Type := {
  Interfaces : list Iface;
  ListenPort : Z;
  IsStatic : bool
}.

(** [models.HostInfoMap]: host information by the peer's public key. *)
Abbreviation HostInfoMap := (gmap string HostInfo).

(** Payloads the handlers only pass on are kept by their encoded text. *)
Definition EgressInfo : Type := string.
Definition EgressNetworkRoutes : Type := string.
Definition Host : Type := string.
Definition Signal : Type := string.

Record FwUpdate : Type := { IsEgressGw : bool; FwUpdate_EgressInfo : EgressInfo }.

(** [models.HostPeerUpdate]: a peer-list update. *)
Record HostPeerUpdate : Type := {
  ServerVersion : string;
  Peers : list PeerConfig;
  ReplacePeers : bool;
  EgressRoutes : list EgressNetworkRoutes;
  HostNetworkInfo : HostInfoMap;
  HostPeerUpdate_FwUpdate : FwUpdate
}.

(** [models.HostUpdate]: a host update. *)
Record HostUpdate : Type := {
  HostUpdate_Action : HostMqAction;
  HostUpdate_Host : Host;
  HostUpdate_Node : Node;
  HostUpdate_Signal : Signal
}.

(** [models.HostPull]: the snapshot a pull answers with
    ([ServerConfig.Version] is the server's version). *)
Record HostPull : Type := {
  ServerConfig_Version : string;
  HostPull_Peers : list PeerConfig;
  HostPull_EgressRoutes : list EgressNetworkRoutes;
  HostPull_HostNetworkInfo : HostInfoMap;
  HostPull_FwUpdate : FwUpdate
}.

End models.

(** * [netclient/config]: the configuration the handlers share *)

Module config.
Import models.

(** [config.Server]: what the client keeps about a coordinator. *)
Record Server : Type := {
  Server_Name : string;
  Version : string;
  IsPro : bool;
  Broker : string;
  Server_Nodes : gmap string bool
}.

Definition zeroServer : Server :=
  {| Server_Name := ""; Version := ""; IsPro := false; Broker := ""; Server_Nodes := ∅ |}.

Definition zeroNode : Node :=
  {| ID := ""; Network := ""; Node_Server := ""; Action := NODE_ACTION "" |}.

(** The state of the package and of the message cache. *)
Record Config : Type := {
  Nodes : gmap string Node;
  Servers : gmap string Server;
  CurrServer : string;
  ClientVersion : string;
  AutoUpdate : bool;
  messageCache : gmap (string * string) string
}.

Definition with_Nodes (f : gmap string Node -> gmap string Node) (c : Config) : Config :=
  {| Nodes := f (Nodes c); Servers := Servers c; CurrServer := CurrServer c;
     ClientVersion := ClientVersion c; AutoUpdate := AutoUpdate c;
     messageCache := messageCache c |}.

Definition with_Servers (f : gmap string Server -> gmap string Server) (c : Config) : Config :=
  {| Nodes := Nodes c; Servers := f (Servers c); CurrServer := CurrServer c;
     ClientVersion := ClientVersion c; AutoUpdate := AutoUpdate c;
     messageCache := messageCache c |}.

Definition with_messageCache
    (f : gmap (string * string) string -> gmap (string * string) string) (c : Config) : Config :=
  {| Nodes := Nodes c; Servers := Servers c; CurrServer := CurrServer c;
     ClientVersion := ClientVersion c; AutoUpdate := AutoUpdate c;
     messageCache := f (messageCache c) |}.

(** Modelled from the spec: the package [config] is not among the source
    files.  [GetNode] answers the node of a network, the zero node when
    there is none. *)
Definition GetNode (network : string) (c : Config) : Node :=
  default zeroNode (Nodes c !! network).

(** [config.Servers[name]]: the zero server when there is none. *)
Definition Servers_at (name : string) (c : Config) : Server :=
  default zeroServer (Servers c !! name).

(** Modelled from the spec: [GetServer] answers the record of a
    coordinator, [nil] when there is none.  [config.Servers] is a map of
    records, not of pointers (line 36 reads a record by value, and line
    224 writes one back with [UpdateServer]): the pointer [GetServer]
    answers is to a copy of the record, and a write through it
    ([server.Version = ...], lines 148 and 460) changes that copy and
    not the map. *)
Definition GetServer (name : string) (c : Config) : option Server :=
  Servers c !! name.

(** [server.Version = version] on a record the handler holds. *)
Definition with_Version (version : string) (s : Server) : Server :=
  {| Server_Name := Server_Name s; Version := version; IsPro := IsPro s;
     Broker := Broker s; Server_Nodes := Server_Nodes s |}.

(** Modelled from the spec: [UpdateNodeMap], [DeleteNode], [UpdateServer]
    and [DeleteServer] insert, replace or remove one entry. *)
Definition UpdateNodeMap (network : string) (n : Node) : Config -> Config :=
  with_Nodes <[network := n]>.

Definition DeleteNode (network : string) : Config -> Config :=
  with_Nodes (delete network).

Definition UpdateServer (name : string) (s : Server) : Config -> Config :=
  with_Servers <[name := s]>.

Definition DeleteServer (name : string) : Config -> Config :=
  with_Servers (delete name).

(** The class of node updates in the message cache. *)
Definition lastNodeUpdate : string := "lnu".

(** Modelled from the spec: the message cache ([read] and [insert]) is
    not among the source files.  It keeps the last payload by network
    and class; [read] answers the empty text when none is kept. *)
Definition read (network which : string) (c : Config) : string :=
  default "" (messageCache c !! (network, which)).

Definition insert (network which cache : string) : Config -> Config :=
  with_messageCache <[(network, which) := cache]>.

End config.

(** * [functions/mqhandlers.go] *)

Module functions.
Import wgtypes models config.

(** ** Calls to collaborators *)

Inductive Level : Type := Info | Warn | Error.

(** A call a handler makes to a collaborator, with the arguments that
    tell the calls apart.  Names follow the callee. *)
Inductive Event : Type :=
| slog (level : Level) (msg : string)
| unsubscribeNode (node : Node)
| unsubscribeHost (server : string)
| setSubscriptions (node : Node)
| LeaveNetwork (network : string) (isDaemon : bool)
| config_WriteNodeConfig
| config_WriteServerConfig
| config_WriteNetclientConfig
| config_UpdateHostPeers (peers : list PeerConfig)
| config_UpdateHost (host : Host)
| config_DeleteServerHostPeerCfg
| wireguard_NewNCIface (nodes : gmap string Node)
| wireguard_GetInterface
| nc_Configure
| nc_Close
| nc_Create
| wireguard_SetPeers (replace : bool)
| wireguard_SetEgressRoutes (routes : list EgressNetworkRoutes)
| firewall_SetEgressRoutes (server : string) (info : EgressInfo)
| firewall_DeleteEgressGwRoutes (server : string)
| go_handleEndpointDetection (peers : list PeerConfig) (peerInfo : HostInfoMap)
| time_Sleep (d : Duration)
| publishSignal (node : Node)
| PublishHostUpdate (server : string) (action : HostMqAction)
| clearRetainedMsg (topic : string)
| UseVersion (version : string) (rebootDaemon : bool)
| daemon_HardRestart
| daemon_Restart
| peerConnTicker_Reset
| processPeerSignal (signal : Signal)
| UpdateKeys_call
| Pull (restart : bool)
| Mqclient_Disconnect
| setupMQTT (server : Server)
| mqFallbackTicker_Stop.

(** What [daemon.HardRestart()] does to the caller: the process is
    replaced and the call never returns, or the call returns its
    [error]. *)
Inductive RestartAnswer : Type :=
| NoReturn
| Back (err : option string).

(** The state of the MQTT client: [nil], or what [IsConnectionOpen] and
    [IsConnected] answer. *)
Record MqStatus : Type := { IsConnectionOpen : bool; IsConnected : bool }.

(** What the collaborators answer during one handler run.  [None] is a
    [nil] error. *)
Record World : Type := {
  decryptMsg : string -> string -> result string;
  unmarshalNode : string -> result Node;
  unmarshalHostPeerUpdate : string -> result HostPeerUpdate;
  unmarshalHostUpdate : string -> result HostUpdate;
  IfaceDelta : Node -> Node -> bool;
  LeaveNetwork_err : string -> option string;
  WriteNodeConfig_err : option string;
  WriteNetclientConfig_err : option string;
  Configure_err : option string;
  SetPeers_err : bool -> option string;
  publishSignal_err : option string;
  PublishHostUpdate_err : string -> HostMqAction -> option string;
  versionLessThan : string -> string -> result bool;
  UseVersion_err : string -> option string;
  HardRestart : RestartAnswer;
  Restart_err : option string;
  UpdateHost_flags : Host -> bool * bool * bool;
  peerConnTicker : bool;
  EndpointDetectedAlready : string -> bool;
  IsBridgeNetwork : string -> bool;
  Mqclient : option MqStatus;
  Pull_answer : bool -> result (HostPull * bool * bool);
  setupMQTT_err : Server -> option string
}.

(** ** The handler monad *)

(** How a handler ends before its last statement: a [return], a panic,
    or the end of the process. *)
Inductive Ending : Type :=
| Done
| Panic (why : string)
| ProcessGone.

Inductive Step (A : Type) : Type :=
| Next (a : A)
| Stop (e : Ending).
Arguments Next {A} a.
Arguments Stop {A} e.

(** A computation reads and writes the configuration and lists the
    calls it makes, in order. *)
Definition M (A : Type) : Type := Config -> Step A * Config * list Event.

#[global] Instance M_ret : MRet M := fun A a c => (Next a, c, []).

#[global] Instance M_bind : MBind M := fun A B k m c =>
  match m c with
  | (Next a, c', t) => let '(r, c'', t') := k a c' in (r, c'', t ++ t')
  | (Stop e, c', t) => (Stop e, c', t)
  end.

Definition emit (e : Event) : M unit := fun c => (Next tt, c, [e]).
Definition gets {A : Type} (f : Config -> A) : M A := fun c => (Next (f c), c, []).
Definition modify (f : Config -> Config) : M unit := fun c => (Next tt, f c, []).
Definition stop {A : Type} (e : Ending) : M A := fun c => (Stop e, c, []).

(** Go's [return] in a handler. *)
Definition return_ {A : Type} : M A := stop Done.

(** [if c { body }] *)
Definition when (c : bool) (body : M unit) : M unit := if c then body else mret tt.

(** How a run ended, the configuration it left and the calls it made. *)
Definition ending_of (r : Step unit * Config * list Event) : Ending :=
  match r.1.1 with Next _ => Done | Stop e => e end.
Definition config_of (r : Step unit * Config * list Event) : Config := r.1.2.
Definition calls_of (r : Step unit * Config * list Event) : list Event := r.2.

(** Calls that are not log lines. *)
Definition is_log (e : Event) : bool := match e with slog _ _ => true | _ => false end.
Definition effects (t : list Event) : list Event := filter (fun e => is_log e = false) t.

(** ** Topics *)

(** [a[i]]: an index out of range panics. *)
Definition index {A : Type} (a : list A) (i : nat) : M A :=
  match a !! i with
  | Some x => mret x
  | None => stop (Panic "index out of range")
  end.

(** [parseNetworkFromTopic(topic)]: [strings.Split(topic, "/")[2]] *)
Definition parseNetworkFromTopic (topic : string) : M string :=
  index (strings.Split topic "/") 2.

(** [parseServerFromTopic(topic)]: [strings.Split(topic, "/")[3]] *)
Definition parseServerFromTopic (topic : string) : M string :=
  index (strings.Split topic "/") 3.

(** ** Endpoint detection *)

(** [getAllAllowedIPs(peers)] *)
Definition getAllAllowedIPs (peers : list PeerConfig) : list net.IPNet :=
  flat_map AllowedIPs peers.

(** [isAddressInPeers(ip, cidrs)] *)
Definition isAddressInPeers (ip : net.IP) (cidrs : list net.IPNet) : bool :=
  existsb (fun currCidr => net.Contains currCidr ip) cidrs.

(** A probe task: [networking.FindBestEndpoint(peerIP, peerPubKey,
    listenPort)] started with [go]. *)
Record Probe : Type := {
  probe_peerIP : string;
  probe_peerPubKey : string;
  probe_listenPort : Z
}.

(** The probes started for one interface of a peer's host. *)
Definition probeIface (w : World) (currentCidrs : list net.IPNet)
    (peerPubKey : string) (peerInfo : HostInfo) (peerIface : Iface) : list Probe :=
  let peerIP := net.IPNet_IP (Address peerIface) in
  if bool_decide (peerIP = []) then []
  else if IsBridgeNetwork w (Iface_Name peerIface) then []
  else if strings.Contains (net.IP_String peerIP) "127.0.0."
          || net.IsMulticast peerIP
          || (net.IsLinkLocalUnicast peerIP
              && Nat.leb 2 (strings.Count (net.IP_String peerIP) ":"))
          || isAddressInPeers peerIP currentCidrs
       then []
  else if net.IsPrivate peerIP
       then [{| probe_peerIP := net.IP_String peerIP;
                probe_peerPubKey := peerPubKey;
                probe_listenPort := ListenPort peerInfo |}]
  else [].

(** The probes started for one peer. *)
Definition probePeer (w : World) (currentCidrs : list net.IPNet)
    (peerInfo : HostInfoMap) (peer : PeerConfig) : list Probe :=
  let peerPubKey := Key_String (PublicKey peer) in
  if EndpointDetectedAlready w peerPubKey then []
  else match peerInfo !! peerPubKey with
       | Some info =>
           if IsStatic info then []
           else flat_map (probeIface w currentCidrs peerPubKey info) (Interfaces info)
       | None => []
       end.

(** [handleEndpointDetection(peers, peerInfo)]: the probe tasks it
    starts, in the order of the two loops. *)
Definition handleEndpointDetection (w : World) (peers : list PeerConfig)
    (peerInfo : HostInfoMap) : list Probe :=
  let currentCidrs := getAllAllowedIPs peers in
  flat_map (probePeer w currentCidrs peerInfo) peers.

(** [handleFwUpdate(server, payload)] *)
Definition handleFwUpdate (server : string) (payload : FwUpdate) : M unit :=
  if IsEgressGw payload
  then emit (firewall_SetEgressRoutes server (FwUpdate_EgressInfo payload))
  else emit (firewall_DeleteEgressGwRoutes server).

(** ** The handlers *)

(** An MQTT message. *)
Record Message : Type := { Topic : string; Payload : string }.

(** A call of a function of this file: its [return] ends the callee,
    not the caller. *)
Definition call (m : M unit) : M unit := fun c =>
  match m c with
  | (Stop Done, c', t) => (Next tt, c', t)
  | r => r
  end.

(** [for _, x := range l { body }] *)
Fixpoint for_each {A : Type} (l : list A) (body : A -> M unit) : M unit :=
  match l with
  | [] => mret tt
  | x :: l' => body x;; for_each l' body
  end.

(** [daemon.HardRestart()]: the call comes back with its error, or not
    at all. *)
Definition daemon_HardRestart_call (w : World) : M (option string) :=
  emit daemon_HardRestart;;
  match HardRestart w with
  | NoReturn => stop ProcessGone
  | Back err => mret err
  end.

(** [NodeUpdate(client, msg)]: the handler of node updates. *)
Definition NodeUpdate (w : World) (msg : Message) : M unit :=
  network ← parseNetworkFromTopic (Topic msg);
  emit (slog Info "processing node update for network");;
  node ← gets (GetNode network);
  server ← gets (Servers_at (Node_Server node));
  match decryptMsg w (Server_Name server) (Payload msg) with
  | Err _ => emit (slog Error "error decrypting message");; return_
  | Ok data =>
  match unmarshalNode w data with
  | Err _ => emit (slog Error "error unmarshalling node update data");; return_
  | Ok serverNode =>
  let newNode := serverNode in
  (* see if cache hit, if so skip *)
  currentMessage ← gets (read (Network newNode) lastNodeUpdate);
  if bool_decide (currentMessage = data) then
    emit (slog Info "cache hit on node update ... skipping");; return_
  else
  modify (insert (Network newNode) lastNodeUpdate data);;
  emit (slog Info "received node update");;
  (* check if interface needs to delta *)
  let ifaceDelta := IfaceDelta w node newNode in
  ifaceDelta ←
    match Action newNode with
    | NODE_DELETE =>
        emit (slog Info "received delete request for");;
        emit (unsubscribeNode newNode);;
        emit (LeaveNetwork (Network newNode) true);;
        match LeaveNetwork_err w (Network newNode) with
        | Some err =>
            if negb (strings.Contains "rpc error" err) then
              emit (slog Error
                "failed to leave network, please check that local files for network were removed");;
              return_
            else mret tt
        | None => mret tt
        end;;
        emit (slog Info "node was deleted");;
        return_
    | NODE_FORCE_UPDATE => mret true
    | NODE_NOOP => mret ifaceDelta
    | NODE_ACTION _ => mret ifaceDelta
    end;
  (* Save new config *)
  let newNode := with_Action NODE_NOOP newNode in
  modify (UpdateNodeMap network newNode);;
  emit config_WriteNodeConfig;;
  when (bool_decide (is_Some (WriteNodeConfig_err w)))
    (emit (slog Warn "failed to write node config"));;
  nodes ← gets Nodes;
  emit (wireguard_NewNCIface nodes);;
  emit nc_Configure;;
  match Configure_err w with
  | Some _ => emit (slog Error "could not configure netmaker interface");; return_
  | None =>
  emit (time_Sleep Second);;
  when ifaceDelta
    (emit (publishSignal newNode);;
     match publishSignal_err w with
     | Some _ =>
         emit (slog Warn "could not notify server to update peers after interface change")
     | None => emit (slog Info "signalled finished interface update to server")
     end)
  end
  end
  end.

(** [HostPeerUpdate(client, msg)]: the handler of peer-list updates. *)
Definition HostPeerUpdate (w : World) (msg : Message) : M unit :=
  nodes ← gets Nodes;
  if bool_decide (size nodes = 0%nat) then
    emit (slog Info "skipping unwanted peer update, no nodes exist");; return_
  else
  serverName ← parseServerFromTopic (Topic msg);
  server ← gets (GetServer serverName);
  match server with
  | None => emit (slog Error "server not found in config");; return_
  | Some server =>
  emit (slog Info "processing peer update for server");;
  match decryptMsg w serverName (Payload msg) with
  | Err _ => emit (slog Error "error decrypting message");; return_
  | Ok data =>
  match unmarshalHostPeerUpdate w data with
  | Err _ => emit (slog Error "error unmarshalling peer data");; return_
  | Ok peerUpdate =>
  when (IsPro server && peerConnTicker w) (emit peerConnTicker_Reset);;
  (* if peerUpdate.ServerVersion != config.Version { ... } *)
  clientVersion ← gets ClientVersion;
  when (negb (bool_decide (ServerVersion peerUpdate = clientVersion)))
    (emit (slog Warn "server/client version mismatch");;
     match versionLessThan w clientVersion (ServerVersion peerUpdate) with
     | Err _ => emit (slog Error "error checking version less than");; return_
     | Ok vlt =>
         autoUpdate ← gets AutoUpdate;
         when (vlt && autoUpdate)
           (emit (slog Info "updating client to server's version");;
            emit (UseVersion (ServerVersion peerUpdate) false);;
            match UseVersion_err w (ServerVersion peerUpdate) with
            | Some _ => emit (slog Error "error updating client to server's version")
            | None =>
                emit (slog Info "updated client to server's version");;
                _ ← daemon_HardRestart_call w;
                mret tt
            end)
     end);;
  (* server.Version = ...: [server] is the handler's copy of the record *)
  server ←
    (if negb (bool_decide (ServerVersion peerUpdate = Version server)) then
       emit (slog Info "updating server version");;
       let server := with_Version (ServerVersion peerUpdate) server in
       emit config_WriteServerConfig;;
       mret server
     else mret server);
  emit (config_UpdateHostPeers (Peers peerUpdate));;
  emit config_WriteNetclientConfig;;
  emit (wireguard_SetPeers (ReplacePeers peerUpdate));;
  when (Nat.ltb 0 (length (EgressRoutes peerUpdate)))
    (emit (wireguard_SetEgressRoutes (EgressRoutes peerUpdate)));;
  emit (go_handleEndpointDetection (Peers peerUpdate) (HostNetworkInfo peerUpdate));;
  call (handleFwUpdate serverName (HostPeerUpdate_FwUpdate peerUpdate))
  end
  end
  end.

(** [deleteHostCfg(client, server)].  Go ranges over the node map in
    no fixed order; the model takes the order of [map_to_list]. *)
Definition deleteHostCfg (server : string) : M unit :=
  emit config_DeleteServerHostPeerCfg;;
  nodes ← gets Nodes;
  for_each (map_to_list nodes) (fun kn =>
    when (bool_decide (Node_Server kn.2 = server))
      (emit (unsubscribeNode kn.2);;
       modify (DeleteNode kn.1)));;
  modify (DeleteServer server).

(** The tunnel interface is closed, made again, configured, and the
    peers are set (lines 281 to 291). *)
Definition resetInterface_steps (w : World) (after : M unit) : M unit :=
  emit wireguard_GetInterface;;
  emit nc_Close;;
  nodes ← gets Nodes;
  emit (wireguard_NewNCIface nodes);;
  emit nc_Create;;
  emit nc_Configure;;
  match Configure_err w with
  | Some _ => emit (slog Error "could not configure netmaker interface");; return_
  | None => emit (wireguard_SetPeers false);; after
  end.

(** [HostUpdate(client, msg)]: the handler of host updates.  The
    [switch] answers the flags [resetInterface], [restartDaemon] and
    [clearMsg]. *)
Definition HostUpdate (w : World) (msg : Message) : M unit :=
  serverName ← parseServerFromTopic (Topic msg);
  server ← gets (GetServer serverName);
  match server with
  | None => emit (slog Error "server not found in config");; return_
  | Some server =>
  if Nat.eqb (String.length (Payload msg)) 0 then return_ else
  match decryptMsg w serverName (Payload msg) with
  | Err _ => emit (slog Error "error decrypting message");; return_
  | Ok data =>
  match unmarshalHostUpdate w data with
  | Err _ => emit (slog Error "error unmarshalling host update data");; return_
  | Ok hostUpdate =>
  emit (slog Info "processing host update");;
  flags ←
    match HostUpdate_Action hostUpdate return M (bool * bool * bool) with
    | Upgrade =>
        emit (clearRetainedMsg (Topic msg));;
        cv ← gets ClientVersion;
        let sv := Version server in
        emit (slog Info "checking if need to upgrade client to server's version");;
        proceed ←
          match versionLessThan w cv sv with
          | Ok vlt =>
              (* an assertive result: if the client is up-to-date, nothing else to do *)
              if negb vlt then
                emit (slog Info "no need to upgrade client, version is up-to-date");;
                mret false
              else mret true
          | Err _ =>
              (* a dubious result: assume that we need to upgrade client *)
              emit (slog Warn "error checking version less than, but will proceed with upgrade");;
              mret true
          end;
        when proceed
          (emit (slog Info "upgrading client to server's version");;
           emit (UseVersion sv false);;
           match UseVersion_err w sv with
           | Some _ => emit (slog Error "error upgrading client to server's version")
           | None =>
               emit (slog Info "upgraded client to server's version, restarting");;
               err ← daemon_HardRestart_call w;
               when (bool_decide (is_Some err))
                 (emit (slog Error "failed to hard restart daemon"))
           end);;
        mret (false, false, false)
    | JoinHostToNetwork =>
        let nodeCfg := HostUpdate_Node hostUpdate in
        modify (UpdateNodeMap (Network nodeCfg) nodeCfg);;
        server ← gets (GetServer serverName);
        match server with
        | None => return_
        | Some server =>
            let server :=
              {| Server_Name := Server_Name server; Version := Version server;
                 IsPro := IsPro server; Broker := Broker server;
                 Server_Nodes := <[Network nodeCfg := true]> (Server_Nodes server) |} in
            modify (UpdateServer serverName server);;
            emit config_WriteNodeConfig;;
            emit config_WriteServerConfig;;
            emit (slog Info "added node to network");;
            emit (clearRetainedMsg (Topic msg));;
            emit (PublishHostUpdate serverName Acknowledgement);;
            when (bool_decide (is_Some (PublishHostUpdate_err w serverName Acknowledgement)))
              (emit (slog Error "failed to response with ACK to server"));;
            emit (setSubscriptions nodeCfg);;
            mret (true, false, false)
        end
    | DeleteHost =>
        emit (clearRetainedMsg (Topic msg));;
        emit (unsubscribeHost serverName);;
        call (deleteHostCfg serverName);;
        emit config_WriteNodeConfig;;
        emit config_WriteServerConfig;;
        mret (false, true, false)
    | UpdateHost =>
        emit (config_UpdateHost (HostUpdate_Host hostUpdate));;
        let '(resetInterface, restartDaemon, sendHostUpdate) :=
          UpdateHost_flags w (HostUpdate_Host hostUpdate) in
        currServer ← gets CurrServer;
        when sendHostUpdate
          (emit (PublishHostUpdate currServer UpdateHost);;
           when (bool_decide (is_Some (PublishHostUpdate_err w currServer UpdateHost)))
             (emit (slog Error "could not publish host update")));;
        mret (resetInterface, restartDaemon, true)
    | RequestAck =>
        emit (clearRetainedMsg (Topic msg));;
        emit (PublishHostUpdate serverName Acknowledgement);;
        when (bool_decide (is_Some (PublishHostUpdate_err w serverName Acknowledgement)))
          (emit (slog Error "failed to response with ACK to server"));;
        mret (false, false, false)
    | SignalHost =>
        emit (clearRetainedMsg (Topic msg));;
        emit (processPeerSignal (HostUpdate_Signal hostUpdate));;
        mret (false, false, false)
    | UpdateKeys =>
        emit (clearRetainedMsg (Topic msg));;
        emit UpdateKeys_call;;
        mret (false, false, false)
    | RequestPull =>
        emit (clearRetainedMsg (Topic msg));;
        emit (Pull true);;
        mret (false, false, false)
    | Acknowledgement | HostAction _ =>
        emit (slog Error "unknown host action");; return_
    end;
  let resetInterface : bool := flags.1.1 in
  let restartDaemon : bool := flags.1.2 in
  let clearMsg : bool := flags.2 in
  emit config_WriteNetclientConfig;;
  match WriteNetclientConfig_err w with
  | Some _ => emit (slog Error "failed to write host config");; return_
  | None =>
  if restartDaemon then
    when clearMsg (emit (clearRetainedMsg (Topic msg)));;
    emit daemon_Restart;;
    when (bool_decide (is_Some (Restart_err w))) (emit (slog Error "failed to restart daemon"));;
    return_
  else
  when resetInterface
    (resetInterface_steps w
       (when (bool_decide (is_Some (SetPeers_err w false)))
          (emit (slog Error "failed to set peers"))))
  end
  end
  end
  end.

(** [mqFallbackPull(pullResponse, resetInterface, replacePeers)] *)
Definition mqFallbackPull (w : World) (pullResponse : HostPull)
    (resetInterface replacePeers : bool) : M unit :=
  serverName ← gets CurrServer;
  server ← gets (GetServer serverName);
  match server with
  | None => emit (slog Error "server not found in config");; return_
  | Some server =>
  clientVersion ← gets ClientVersion;
  when (negb (bool_decide (ServerConfig_Version pullResponse = clientVersion)))
    (emit (slog Warn "server/client version mismatch");;
     match versionLessThan w clientVersion (ServerConfig_Version pullResponse) with
     | Err _ => emit (slog Error "error checking version less than");; return_
     | Ok vlt =>
         autoUpdate ← gets AutoUpdate;
         when (vlt && autoUpdate)
           (emit (slog Info "updating client to server's version");;
            emit (UseVersion (ServerConfig_Version pullResponse) false);;
            match UseVersion_err w (ServerConfig_Version pullResponse) with
            | Some _ => emit (slog Error "error updating client to server's version")
            | None =>
                emit (slog Info "updated client to server's version");;
                _ ← daemon_HardRestart_call w;
                mret tt
            end)
     end);;
  (* server.Version = ...: [server] is the handler's copy of the record *)
  server ←
    (if negb (bool_decide (ServerConfig_Version pullResponse = Version server)) then
       emit (slog Info "updating server version");;
       let server := with_Version (ServerConfig_Version pullResponse) server in
       emit config_WriteServerConfig;;
       mret server
     else mret server);
  emit (config_UpdateHostPeers (HostPull_Peers pullResponse));;
  emit config_WriteNetclientConfig;;
  emit (wireguard_SetPeers replacePeers);;
  when (Nat.ltb 0 (length (HostPull_EgressRoutes pullResponse)))
    (emit (wireguard_SetEgressRoutes (HostPull_EgressRoutes pullResponse)));;
  emit (go_handleEndpointDetection (HostPull_Peers pullResponse)
          (HostPull_HostNetworkInfo pullResponse));;
  call (handleFwUpdate serverName (HostPull_FwUpdate pullResponse));;
  when resetInterface
    (resetInterface_steps w (emit (slog Info "mqfallback reset interface")))
  end.

(** Whether the control channel reports connected:
    [Mqclient != nil && Mqclient.IsConnectionOpen() && Mqclient.IsConnected()]. *)
Definition mqConnected (w : World) : bool :=
  match Mqclient w with
  | Some m => IsConnectionOpen m && IsConnected m
  | None => false
  end.

(** One tick of [mqFallback]: the body of [case <-mqFallbackTicker.C].
    Its [continue] is the [return_] of the tick. *)
Definition mqFallbackTick (w : World) : M unit :=
  currServer ← gets CurrServer;
  if mqConnected w || bool_decide (currServer = "") then return_ else
  (* Call netclient http config pull *)
  emit (slog Info "### mqfallback routine execute");;
  emit (Pull false);;
  match Pull_answer w false with
  | Err _ => emit (slog Error "pull failed")
  | Ok (response, resetInterface, replacePeers) =>
      call (mqFallbackPull w response resetInterface replacePeers);;
      currServer ← gets CurrServer;
      server ← gets (GetServer currServer);
      match server with
      | None => return_
      | Some server =>
          emit (slog Info "re-attempt mqtt connection after pull");;
          when (bool_decide (is_Some (Mqclient w))) (emit Mqclient_Disconnect);;
          emit (setupMQTT server);;
          when (bool_decide (is_Some (setupMQTT_err w server)))
            (emit (slog Error "unable to connect to broker"))
      end
  end.

(** What wakes the [select] of [mqFallback]. *)
Inductive Wake : Type :=
| ctx_Done
| mqFallbackTicker_C.

(** [mqFallback(ctx, wg)] over the wake-ups it sees, each tick with the
    answers of its own world. *)
Fixpoint mqFallback (wakes : list (Wake * World)) : M unit :=
  match wakes with
  | [] => mret tt
  | (ctx_Done, _) :: _ =>
      emit mqFallbackTicker_Stop;;
      emit (slog Info "mqfallback routine stop");;
      return_
  | (mqFallbackTicker_C, w) :: wakes' =>
      call (mqFallbackTick w);;
      mqFallback wakes'
  end.

End functions.

(** * What the claims speak of *)

Module claims.
Import wgtypes models config functions.

(** The port of the peer, in the words of the specification: the
    proxy's well-known port, or the peer's own advertised port when the
    peer is an externally-attached client (an external client that is
    attached). *)
Definition spec_peerPort (env : nmproxy.ProxyEnv) (endpoint : net.UDPAddr)
    (isExtClient isAttachedExtClient : bool) : Z :=
  if isExtClient && isAttachedExtClient then net.Port endpoint
  else nmproxy.NmProxyPort env.

(** The address of the endpoint, in the words of the specification:
    the relay target's when the peer is marked relayed (none when no
    relay target is given), the peer's own advertised one otherwise. *)
Definition spec_endpointIP (endpoint : net.UDPAddr) (isRelayed : bool)
    (relayTo : option net.UDPAddr) : option net.IP :=
  if isRelayed then net.UDPAddr_IP <$> relayTo else Some (net.UDPAddr_IP endpoint).

(** A node update arrives: the topic names the network, the payload
    decrypts (under the name of the server of that network's node) to
    [data], and [data] decodes to [newNode]. *)
Definition nodeUpdateArrives (w : World) (msg : Message) (c : Config)
    (network data : string) (newNode : Node) : Prop :=
  strings.Split (Topic msg) "/" !! 2%nat = Some network
  /\ decryptMsg w (Server_Name (Servers_at (Node_Server (GetNode network c)) c)) (Payload msg)
     = Ok data
  /\ unmarshalNode w data = Ok newNode.

(** A peer-list update arrives: there are nodes, the topic names a known
    server, and the payload decrypts and decodes to [peerUpdate]. *)
Definition peerUpdateArrives (w : World) (msg : Message) (c : Config)
    (serverName : string) (server : Server) (peerUpdate : models.HostPeerUpdate) : Prop :=
  size (Nodes c) <> 0%nat
  /\ strings.Split (Topic msg) "/" !! 3%nat = Some serverName
  /\ GetServer serverName c = Some server
  /\ exists data, decryptMsg w serverName (Payload msg) = Ok data
                  /\ unmarshalHostPeerUpdate w data = Ok peerUpdate.

(** A host update arrives: the topic names a known server, and the
    payload is not empty and decrypts and decodes to [hostUpdate]. *)
Definition hostUpdateArrives (w : World) (msg : Message) (c : Config)
    (serverName : string) (server : Server) (hostUpdate : models.HostUpdate) : Prop :=
  strings.Split (Topic msg) "/" !! 3%nat = Some serverName
  /\ GetServer serverName c = Some server
  /\ String.length (Payload msg) <> 0%nat
  /\ exists data, decryptMsg w serverName (Payload msg) = Ok data
                  /\ unmarshalHostUpdate w data = Ok hostUpdate.

(** The version check of the specification, for a server that declares
    [version]: nothing when it is the client's version; otherwise a
    warning and a comparison, which when inconclusive is logged and
    ends the message; when the server is newer and auto-update is on,
    an upgrade and, when that succeeds, a hard restart of the daemon.
    The answer is the calls made and how the message ends there, if it
    does. *)
Definition spec_version_check (w : World) (c : Config) (version : string)
    : list Event * option Ending :=
  if bool_decide (version = ClientVersion c) then ([], None)
  else
    match versionLessThan w (ClientVersion c) version with
    | Err _ =>
        ([slog Warn "server/client version mismatch";
          slog Error "error checking version less than"], Some Done)
    | Ok vlt =>
        if vlt && AutoUpdate c then
          match UseVersion_err w version with
          | Some _ =>
              ([slog Warn "server/client version mismatch";
                slog Info "updating client to server's version";
                UseVersion version false;
                slog Error "error updating client to server's version"], None)
          | None =>
              ([slog Warn "server/client version mismatch";
                slog Info "updating client to server's version";
                UseVersion version false;
                slog Info "updated client to server's version";
                daemon_HardRestart],
               match HardRestart w with NoReturn => Some ProcessGone | Back _ => None end)
          end
        else ([slog Warn "server/client version mismatch"], None)
    end.

(** The merge-and-apply sequence of the specification: version persist
    (when the declared version is not the stored one), peer merge,
    config write, peer-set application, egress routes (when there are
    any), asynchronous endpoint detection, firewall update. *)
Definition spec_merge_and_apply (serverName : string) (server : Server) (version : string)
    (peers : list PeerConfig) (replacePeers : bool) (routes : list EgressNetworkRoutes)
    (info : HostInfoMap) (fw : FwUpdate) : list Event :=
  (if bool_decide (version = Version server) then []
   else [slog Info "updating server version"; config_WriteServerConfig])
  ++ [config_UpdateHostPeers peers; config_WriteNetclientConfig; wireguard_SetPeers replacePeers]
  ++ (if Nat.ltb 0 (length routes) then [wireguard_SetEgressRoutes routes] else [])
  ++ [go_handleEndpointDetection peers info;
      if IsEgressGw fw then firewall_SetEgressRoutes serverName (FwUpdate_EgressInfo fw)
      else firewall_DeleteEgressGwRoutes serverName].

(** The interface reset a pull may ask for: close, make again,
    configure, set the peers; a configure error ends it. *)
Definition spec_interface_reset (w : World) (c : Config) : list Event :=
  [wireguard_GetInterface; nc_Close; wireguard_NewNCIface (Nodes c); nc_Create; nc_Configure]
  ++ match Configure_err w with
     | Some _ => [slog Error "could not configure netmaker interface"]
     | None => [wireguard_SetPeers false; slog Info "mqfallback reset interface"]
     end.

(** The calls that try to bring the control channel back. *)
Definition spec_reconnect (w : World) (server : Server) : list Event :=
  [slog Info "re-attempt mqtt connection after pull"]
  ++ (if bool_decide (is_Some (Mqclient w)) then [Mqclient_Disconnect] else [])
  ++ [setupMQTT server]
  ++ (if bool_decide (is_Some (setupMQTT_err w server))
      then [slog Error "unable to connect to broker"] else []).

(** The peer-list update that carries what a pull answered. *)
Definition peerUpdate_of_pull (pullResponse : HostPull) (replacePeers : bool)
    : models.HostPeerUpdate :=
  {| ServerVersion := ServerConfig_Version pullResponse;
     Peers := HostPull_Peers pullResponse;
     ReplacePeers := replacePeers;
     EgressRoutes := HostPull_EgressRoutes pullResponse;
     HostNetworkInfo := HostPull_HostNetworkInfo pullResponse;
     HostPeerUpdate_FwUpdate := HostPull_FwUpdate pullResponse |}.

(** The calls that upgrade the client: the version upgrade and the hard
    restart of the daemon. *)
Definition is_upgrade (e : Event) : bool :=
  match e with
  | UseVersion _ _ | daemon_HardRestart => true
  | _ => false
  end.
Definition upgrade_calls (t : list Event) : list Event :=
  filter (fun e => is_upgrade e = true) t.

(** The run makes no call, log lines apart, after the hard restart of
    the daemon. *)
Definition ends_at_hard_restart (t : list Event) : Prop :=
  exists before, effects t = before ++ [daemon_HardRestart].

(** The run tries to bring the control channel back. *)
Definition reconnects (t : list Event) : Prop :=
  exists server, In (setupMQTT server) t.

(** A run that panics on an index out of range before any call. *)
Definition out_of_range {A : Type} (c : Config) : Step A * Config * list Event :=
  (Stop (Panic "index out of range"), c, []).

(** The number of pulls among some calls. *)
Definition is_Pull (e : Event) : bool := match e with Pull _ => true | _ => false end.
Definition pulls (t : list Event) : nat := length (filter (fun e => is_Pull e = true) t).

End claims.

(** * Concrete inputs *)

Module examples.
Import wgtypes models config functions.

Definition node1 : Node :=
  {| ID := "n1"; Network := "net1"; Node_Server := "srv"; Action := NODE_NOOP |}.

Definition srv : Server :=
  {| Server_Name := "srv"; Version := "v0.20.0"; IsPro := false; Broker := "broker.srv";
     Server_Nodes := {["net1" := true]} |}.

(** A client at version v0.20.0 with one node on one server. *)
Definition cfg0 : Config :=
  {| Nodes := {["net1" := node1]}; Servers := {["srv" := srv]}; CurrServer := "srv";
     ClientVersion := "v0.20.0"; AutoUpdate := true; messageCache := ∅ |}.

Definition noFwUpdate : FwUpdate := {| IsEgressGw := false; FwUpdate_EgressInfo := "" |}.

(** A peer-list update of a server at [version], with no peers. *)
Definition peerUpdate1 (version : string) : models.HostPeerUpdate :=
  {| ServerVersion := version; Peers := []; ReplacePeers := true; EgressRoutes := [];
     HostNetworkInfo := ∅; HostPeerUpdate_FwUpdate := noFwUpdate |}.

Definition pull1 (version : string) : HostPull :=
  {| ServerConfig_Version := version; HostPull_Peers := []; HostPull_EgressRoutes := [];
     HostPull_HostNetworkInfo := ∅; HostPull_FwUpdate := noFwUpdate |}.

(** A world in which every call succeeds, but for the answers given:
    the node and the updates the payloads decode to, the error of
    leaving a network, the version comparison, the hard restart, the
    MQTT client and the pull. *)
Definition world (node : Node) (peerUpdate : models.HostPeerUpdate)
    (hostUpdate : models.HostUpdate) (leave : option string) (vlt : result bool)
    (restart : RestartAnswer) (mq : option MqStatus)
    (pull : result (HostPull * bool * bool)) : World :=
  {| decryptMsg := fun _ payload => Ok payload;
     unmarshalNode := fun _ => Ok node;
     unmarshalHostPeerUpdate := fun _ => Ok peerUpdate;
     unmarshalHostUpdate := fun _ => Ok hostUpdate;
     IfaceDelta := fun _ _ => false;
     LeaveNetwork_err := fun _ => leave;
     WriteNodeConfig_err := None;
     WriteNetclientConfig_err := None;
     Configure_err := None;
     SetPeers_err := fun _ => None;
     publishSignal_err := None;
     PublishHostUpdate_err := fun _ _ => None;
     versionLessThan := fun _ _ => vlt;
     UseVersion_err := fun _ => None;
     HardRestart := restart;
     Restart_err := None;
     UpdateHost_flags := fun _ => (false, false, false);
     peerConnTicker := false;
     EndpointDetectedAlready := fun _ => false;
     IsBridgeNetwork := fun _ => false;
     Mqclient := mq;
     Pull_answer := fun _ => pull;
     setupMQTT_err := fun _ => None |}.

Definition hostUpdate1 (action : HostMqAction) : models.HostUpdate :=
  {| HostUpdate_Action := action; HostUpdate_Host := ""; HostUpdate_Node := node1;
     HostUpdate_Signal := "" |}.

(** The world of a quiet day: versions compare as equal. *)
Definition world0 : World :=
  world node1 (peerUpdate1 "v0.20.0") (hostUpdate1 RequestAck) None (Ok false)
    NoReturn None (Err "no pull").

(** A node update with the action [delete] whose leave fails with
    [err]. *)
Definition deleteWorld (err : string) : World :=
  world (with_Action NODE_DELETE node1) (peerUpdate1 "v0.20.0") (hostUpdate1 RequestAck)
    (Some err) (Ok false) NoReturn None (Err "no pull").

(** A server at v0.21.0, known to be newer, whose peer-list update
    reaches a client with auto-update on; the hard restart answers
    [restart]. *)
Definition upgradeWorld (restart : RestartAnswer) : World :=
  world node1 (peerUpdate1 "v0.21.0") (hostUpdate1 Upgrade) None (Ok true)
    restart None (Err "no pull").

(** A server whose version does not compare with the client's. *)
Definition customBuildWorld : World :=
  world node1 (peerUpdate1 "custom-build") (hostUpdate1 Upgrade) None
    (Err "Invalid Semantic Version") (Back None) None (Err "no pull").

(** The control channel is down and the pull succeeds. *)
Definition fallbackWorld : World :=
  world node1 (peerUpdate1 "v0.20.0") (hostUpdate1 RequestAck) None (Ok false)
    NoReturn None (Ok (pull1 "v0.20.0", false, true)).

(** The current server has no record. *)
Definition cfgNoRecord : Config :=
  {| Nodes := {["net1" := node1]}; Servers := ∅; CurrServer := "srv";
     ClientVersion := "v0.20.0"; AutoUpdate := true; messageCache := ∅ |}.


(** A peer whose host advertises a private address (10.1.2.3), the
    loopback address, a multicast address, a link-local IPv6 address, a
    routed address (10.99.0.7, inside the peer's allowed range
    10.99.0.0/24) and a public address. *)
Definition mask24 : list byte := [xff; xff; xff; x00].
Definition ipnet (ip : net.IP) (mask : list byte) : net.IPNet :=
  {| net.IPNet_IP := ip; net.Mask := mask |}.
Definition linkLocal6 : net.IP :=
  [xfe; x80; x00; x00; x00; x00; x00; x00; x00; x00; x00; x00; x00; x00; x00; x01].

Definition peerA : PeerConfig :=
  {| PublicKey := "peerA="; Endpoint := None; PersistentKeepaliveInterval := None;
     AllowedIPs := [ipnet [x0a; x63; x00; x00] mask24] |}.

Definition hostA : HostInfo :=
  {| Interfaces :=
       [ {| Iface_Name := "eth0"; Address := ipnet [x0a; x01; x02; x03] mask24 |};
         {| Iface_Name := "lo"; Address := ipnet [x7f; x00; x00; x01] [xff; x00; x00; x00] |};
         {| Iface_Name := "mc"; Address := ipnet [xe0; x00; x00; x01] mask24 |};
         {| Iface_Name := "eth1"; Address := ipnet linkLocal6 [] |};
         {| Iface_Name := "wg0"; Address := ipnet [x0a; x63; x00; x07] mask24 |};
         {| Iface_Name := "wan"; Address := ipnet [x08; x08; x08; x08] mask24 |} ];
     ListenPort := 51821;
     IsStatic := false |}.

(** A proxy environment: the well-known port 51722, no resolver
    answers, and a proxy that starts on 127.0.0.1:[port] unless [fails]. *)
Definition localAddr (port : Z) : net.UDPAddr :=
  {| net.UDPAddr_IP := [x7f; x00; x00; x01]; net.Port := port |}.

Definition proxyEnv (fails : bool) : nmproxy.ProxyEnv :=
  {| nmproxy.NmProxyPort := 51722;
     nmproxy.resolver :=
       {| net.lookupPort := fun _ => Err "unknown port";
          net.lookupIP := fun _ => Err "no such host" |};
     nmproxy.Start := fun _ =>
       if fails then Err "listen udp: address already in use" else Ok (7%nat, localAddr 40001);
     nmproxy.ConvPeerKeyToHash := fun key => "md5:" +:+ key |}.

Definition emptyRegistry (enabled : bool) : nmproxy.GlobalCfg :=
  {| nmproxy.ProxyStatus := enabled; nmproxy.networkPeerMap := ∅;
     nmproxy.peerHashMap := ∅; nmproxy.extClients := [] |}.

Definition wg0 : nmproxy.WGIface :=
  {| nmproxy.Name := "netmaker"; nmproxy.Device_PublicKey := "local=" |}.

(** A peer that advertises 203.0.113.9:51820, and a relay at
    198.51.100.1:51821. *)
Definition peerB : PeerConfig :=
  {| PublicKey := "peerB=";
     Endpoint := Some {| net.UDPAddr_IP := [xcb; x00; x71; x09]; net.Port := 51820 |};
     PersistentKeepaliveInterval := None;
     AllowedIPs := [] |}.

Definition relayAddr : net.UDPAddr :=
  {| net.UDPAddr_IP := [xc6; x33; x64; x01]; net.Port := 51821 |}.

Definition nodeMsg : Message := {| Topic := "node/update/net1/n1"; Payload := "payload" |}.
Definition peersMsg : Message := {| Topic := "peers/host/h1/srv"; Payload := "payload" |}.
Definition hostMsg : Message := {| Topic := "host/update/h1/srv"; Payload := "payload" |}.

End examples.

(** * What the further properties speak of *)

Module properties.
Import wgtypes models config functions.

(** A host update that cannot be read: the server of the topic has no
    record, the payload is empty, does not decrypt or does not decode,
    or the action is none the handler knows. *)
Inductive hostUpdateUnreadable (w : World) (msg : Message) (c : Config) : Prop :=
| host_server_unknown (serverName : string) :
    strings.Split (Topic msg) "/" !! 3%nat = Some serverName ->
    GetServer serverName c = None ->
    hostUpdateUnreadable w msg c
| host_payload_empty (serverName : string) :
    strings.Split (Topic msg) "/" !! 3%nat = Some serverName ->
    Payload msg = "" ->
    hostUpdateUnreadable w msg c
| host_payload_sealed (serverName e : string) :
    strings.Split (Topic msg) "/" !! 3%nat = Some serverName ->
    decryptMsg w serverName (Payload msg) = Err e ->
    hostUpdateUnreadable w msg c
| host_payload_garbled (serverName data e : string) :
    strings.Split (Topic msg) "/" !! 3%nat = Some serverName ->
    decryptMsg w serverName (Payload msg) = Ok data ->
    unmarshalHostUpdate w data = Err e ->
    hostUpdateUnreadable w msg c
| host_action_unknown (serverName data : string) (hostUpdate : models.HostUpdate) :
    strings.Split (Topic msg) "/" !! 3%nat = Some serverName ->
    decryptMsg w serverName (Payload msg) = Ok data ->
    unmarshalHostUpdate w data = Ok hostUpdate ->
    (HostUpdate_Action hostUpdate = Acknowledgement
     \/ exists name, HostUpdate_Action hostUpdate = HostAction name) ->
    hostUpdateUnreadable w msg c.

(** A peer-list update that is not wanted or cannot be read: there are
    no nodes (whatever the topic), or the server of the topic has no
    record, or the payload does not decrypt or does not decode. *)
Inductive peerUpdateUnreadable (w : World) (msg : Message) (c : Config) : Prop :=
| peers_no_nodes :
    size (Nodes c) = 0%nat ->
    peerUpdateUnreadable w msg c
| peers_server_unknown (serverName : string) :
    strings.Split (Topic msg) "/" !! 3%nat = Some serverName ->
    GetServer serverName c = None ->
    peerUpdateUnreadable w msg c
| peers_payload_sealed (serverName e : string) :
    strings.Split (Topic msg) "/" !! 3%nat = Some serverName ->
    decryptMsg w serverName (Payload msg) = Err e ->
    peerUpdateUnreadable w msg c
| peers_payload_garbled (serverName data e : string) :
    strings.Split (Topic msg) "/" !! 3%nat = Some serverName ->
    decryptMsg w serverName (Payload msg) = Ok data ->
    unmarshalHostPeerUpdate w data = Err e ->
    peerUpdateUnreadable w msg c.

(** A node update that cannot be read: the payload does not decrypt
    under the name of the server of the network's node, or does not
    decode. *)
Inductive nodeUpdateUnreadable (w : World) (msg : Message) (c : Config) : Prop :=
| node_payload_sealed (network e : string) :
    strings.Split (Topic msg) "/" !! 2%nat = Some network ->
    decryptMsg w (Server_Name (Servers_at (Node_Server (GetNode network c)) c)) (Payload msg)
    = Err e ->
    nodeUpdateUnreadable w msg c
| node_payload_garbled (network data e : string) :
    strings.Split (Topic msg) "/" !! 2%nat = Some network ->
    decryptMsg w (Server_Name (Servers_at (Node_Server (GetNode network c)) c)) (Payload msg)
    = Ok data ->
    unmarshalNode w data = Err e ->
    nodeUpdateUnreadable w msg c.

(** A run that returned, left the configuration [c] and made no call
    but to the log. *)
Definition dropped (c : Config) (r : Step unit * Config * list Event) : Prop :=
  ending_of r = Done /\ config_of r = c /\ effects (calls_of r) = [].

(** The run asks the daemon to restart. *)
Definition restarts_daemon (t : list Event) : bool :=
  existsb (fun e => match e with daemon_Restart => true | _ => false end) t.

(** The run closes the tunnel interface to make it again. *)
Definition resets_interface (t : list Event) : bool :=
  existsb (fun e => match e with nc_Close => true | _ => false end) t.

(** How often a run clears a retained message, of any topic and of the
    topic [topic]. *)
Fixpoint clears_any (t : list Event) : nat :=
  match t with
  | [] => O
  | clearRetainedMsg _ :: t' => S (clears_any t')
  | _ :: t' => clears_any t'
  end.

Fixpoint clears (topic : string) (t : list Event) : nat :=
  match t with
  | [] => O
  | clearRetainedMsg x :: t' => if String.eqb x topic then S (clears topic t') else clears topic t'
  | _ :: t' => clears topic t'
  end.

(** The ticks [mqFallback] sees before its context is done. *)
Fixpoint ticks (wakes : list (Wake * World)) : nat :=
  match wakes with
  | (mqFallbackTicker_C, _) :: wakes' => S (ticks wakes')
  | _ => O
  end.

(** A host update with the action [action] that carries [node]. *)
Definition hostUpdate2 (action : HostMqAction) (node : Node) : models.HostUpdate :=
  {| HostUpdate_Action := action; HostUpdate_Host := ""; HostUpdate_Node := node;
     HostUpdate_Signal := "" |}.

(** A world in which every call succeeds and a host update decodes to
    that one. *)
Definition hostWorld (action : HostMqAction) (node : Node) : World :=
  examples.world examples.node1 (examples.peerUpdate1 "v0.20.0") (hostUpdate2 action node)
    None (Ok false) NoReturn None (Err "no pull").

(** A node of a second network of the same server. *)
Definition node2 : Node :=
  {| ID := "n2"; Network := "net2"; Node_Server := "srv"; Action := NODE_NOOP |}.


End properties.

(** * Properties of the [strings] functions *)

Section StringLemmas.

Import strings.

Lemma HasPrefix_empty (s : string) : HasPrefix s EmptyString = true.
Proof. destruct s; reflexivity. Qed.

Lemma Index_slash_cons (c : ascii) (s : string) :
  Index (String c s) "/" = if Ascii.eqb c "/" then Some O else S <$> Index s "/".
Proof.
  cbn [Index HasPrefix]. rewrite HasPrefix_empty, (Ascii.eqb_sym "/"%char c).
  destruct (Ascii.eqb c "/"); reflexivity.
Qed.

Lemma segments_no_slash (s : string) : Index s "/" = None -> segments s = [s].
Proof.
  induction s as [|c s IH]; [reflexivity|].
  rewrite Index_slash_cons. cbn [segments].
  destruct (Ascii.eqb c "/"); [discriminate|].
  destruct (Index s "/"); [discriminate|]. intros _. rewrite IH; reflexivity.
Qed.

Lemma segments_at_slash (s : string) (m : nat) :
  Index s "/" = Some m -> segments s = take m s :: segments (drop (S m) s).
Proof.
  revert m. induction s as [|c s IH]; intros m; [discriminate|].
  rewrite Index_slash_cons. cbn [segments].
  destruct (Ascii.eqb c "/").
  - intros [= <-]. reflexivity.
  - destruct (Index s "/") as [m'|]; [|discriminate].
    intros [= <-]. rewrite (IH m' eq_refl). reflexivity.
Qed.

Lemma drop_length (n : nat) (s : string) :
  (String.length (drop n s) <= String.length s - n)%nat.
Proof.
  revert s. induction n as [|n IH]; intros [|c s]; cbn; try lia. apply IH.
Qed.

Lemma split_from_segments (fuel : nat) (s : string) :
  (String.length s <= fuel)%nat -> split_from fuel s "/" = segments s.
Proof.
  revert s. induction fuel as [|fuel IH]; intros s Hlen.
  - destruct s; [reflexivity|cbn in Hlen; lia].
  - cbn [split_from]. destruct (Index s "/") as [m|] eqn:Hi.
    + rewrite (segments_at_slash _ _ Hi). f_equal.
      replace (m + String.length "/")%nat with (S m) by (cbn; lia).
      apply IH. pose proof (drop_length (S m) s).
      destruct s; [discriminate|]. cbn in *. lia.
    + symmetry. apply segments_no_slash, Hi.
Qed.

Lemma Split_segments (s : string) : Split s "/" = segments s.
Proof. apply split_from_segments. lia. Qed.

Lemma segments_length (s : string) : length (segments s) = S (slashes s).
Proof.
  induction s as [|c s IH]; [reflexivity|].
  cbn [segments slashes]. destruct (Ascii.eqb c "/"); cbn [length].
  - rewrite IH. reflexivity.
  - destruct (segments s); cbn in *; lia.
Qed.

Lemma slashes_no_slash (s : string) : Index s "/" = None -> slashes s = O.
Proof.
  induction s as [|c s IH]; [reflexivity|].
  rewrite Index_slash_cons. cbn [slashes].
  destruct (Ascii.eqb c "/"); [discriminate|].
  destruct (Index s "/"); [discriminate|]. auto.
Qed.

Lemma slashes_at_slash (s : string) (m : nat) :
  Index s "/" = Some m -> slashes s = S (slashes (drop (S m) s)).
Proof.
  revert m. induction s as [|c s IH]; intros m; [discriminate|].
  rewrite Index_slash_cons. cbn [slashes].
  destruct (Ascii.eqb c "/").
  - intros [= <-]. reflexivity.
  - destruct (Index s "/") as [m'|]; [|discriminate].
    intros [= <-]. apply (IH m' eq_refl).
Qed.

Lemma count_from_slashes (fuel : nat) (s : string) :
  (String.length s <= fuel)%nat -> count_from fuel s "/" = slashes s.
Proof.
  revert s. induction fuel as [|fuel IH]; intros s Hlen.
  - destruct s; [reflexivity|cbn in Hlen; lia].
  - cbn [count_from]. destruct (Index s "/") as [m|] eqn:Hi.
    + rewrite (slashes_at_slash _ _ Hi). f_equal.
      replace (m + String.length "/")%nat with (S m) by (cbn; lia).
      apply IH. pose proof (drop_length (S m) s).
      destruct s; [discriminate|]. cbn in *. lia.
    + symmetry. apply slashes_no_slash, Hi.
Qed.

Lemma Count_slashes (s : string) : Count s "/" = slashes s.
Proof. apply count_from_slashes. lia. Qed.

(** [Split] answers one segment more than the text has slashes. *)
Lemma Split_length (s : string) : length (Split s "/") = S (Count s "/").
Proof. rewrite Split_segments, Count_slashes. apply segments_length. Qed.

Lemma append_cons (c : ascii) (a b : string) : String c a +:+ b = String c (a +:+ b).
Proof. reflexivity. Qed.

Lemma append_nil (b : string) : EmptyString +:+ b = b.
Proof. reflexivity. Qed.

Lemma segments_app_slash (a rest : string) :
  slashes a = O -> segments (a +:+ String "/" rest) = a :: segments rest.
Proof.
  induction a as [|c a IH]; intros Ha; [reflexivity|].
  cbn [slashes] in Ha. rewrite append_cons. cbn [segments].
  destruct (Ascii.eqb c "/"); [discriminate|].
  rewrite (IH Ha). reflexivity.
Qed.

Lemma segments_slash_free (a : string) : slashes a = O -> segments a = [a].
Proof.
  induction a as [|c a IH]; intros Ha; [reflexivity|].
  cbn [slashes] in Ha. cbn [segments].
  destruct (Ascii.eqb c "/"); [discriminate|].
  rewrite (IH Ha). reflexivity.
Qed.

(** Splitting at slashes undoes joining slash-free segments with
    slashes. *)
Lemma Split_Join (segs : list string) :
  segs <> [] -> Forall (fun a => slashes a = O) segs ->
  Split (Join segs "/") "/" = segs.
Proof.
  rewrite Split_segments.
  induction segs as [|a segs IH]; [congruence|]. intros _ Hall.
  inversion Hall as [|? ? Ha Hrest]; subst.
  destruct segs as [|b segs].
  - cbn. apply segments_slash_free, Ha.
  - change (Join (a :: b :: segs) "/") with (a +:+ String "/" (Join (b :: segs) "/")).
    rewrite (segments_app_slash _ _ Ha), IH; [reflexivity|congruence|assumption].
Qed.

End StringLemmas.

(** * Running the handlers *)

Import wgtypes models config functions claims.

Lemma run_bind {A B : Type} (m : M A) (k : A -> M B) (c : Config) :
  (m ≫= k) c =
  match m c with
  | (Next a, c', t) => let '(r, c'', t') := k a c' in (r, c'', t ++ t')
  | (Stop e, c', t) => (Stop e, c', t)
  end.
Proof. reflexivity. Qed.

Lemma run_call (m : M unit) (c : Config) :
  call m c = match m c with (Stop Done, c', t) => (Next tt, c', t) | r => r end.
Proof. reflexivity. Qed.

Lemma run_when (b : bool) (body : M unit) (c : Config) :
  when b body c = if b then body c else (Next tt, c, []).
Proof. destruct b; reflexivity. Qed.

Lemma run_if {A : Type} (b : bool) (m1 m2 : M A) (c : Config) :
  (if b then m1 else m2) c = if b then m1 c else m2 c.
Proof. destruct b; reflexivity. Qed.

Lemma index_Some {A : Type} (a : list A) (i : nat) (x : A) (c : Config) :
  a !! i = Some x -> index a i c = (Next x, c, []).
Proof. intros H. unfold index. rewrite H. reflexivity. Qed.

Lemma index_None {A : Type} (a : list A) (i : nat) (c : Config) :
  a !! i = None -> index a i c = (Stop (Panic "index out of range"), c, []).
Proof. intros H. unfold index. rewrite H. reflexivity. Qed.

Lemma is_Some_Some_true {A : Type} (x : A) : bool_decide (is_Some (Some x)) = true.
Proof. apply bool_decide_eq_true_2. eauto. Qed.

Lemma is_Some_None_false {A : Type} : bool_decide (is_Some (@None A)) = false.
Proof. apply bool_decide_eq_false_2. intros [x Hx]. discriminate. Qed.

(** Evaluation of a run as far as the answers known allow. *)
Ltac run_lazy :=
  lazy beta iota zeta delta
    [mbind M_bind mret M_ret gets emit modify stop return_ when call index
     handleFwUpdate daemon_HardRestart_call resetInterface_steps
     fst snd app negb andb orb].

Ltac run :=
  run_lazy;
  repeat (progress rewrite ?is_Some_Some_true, ?is_Some_None_false; run_lazy).

(** The term whose value the evaluation of [t] waits for. *)
Ltac stuck t :=
  lazymatch t with
  | match ?x with _ => _ end => stuck x
  | negb ?x => stuck x
  | andb ?x _ => stuck x
  | orb ?x _ => stuck x
  | bool_decide (is_Some ?x) => stuck x
  | ?f _ =>
      lazymatch f with
      | match ?x with _ => _ end => stuck x
      | _ => t
      end
  | _ => t
  end.

Ltac split_stuck :=
  lazymatch goal with
  | |- ?lhs = ?rhs =>
      let h := stuck lhs in
      lazymatch h with
      | (_, _) =>
          let h' := stuck rhs in
          lazymatch h' with
          | (_, _) => fail "both sides are evaluated and differ"
          | _ => destruct h' eqn:?
          end
      | _ => destruct h eqn:?
      end
  end.

(** Evaluate both sides, splitting on every answer of the world the
    evaluation waits for. *)
Ltac crunch := repeat first [reflexivity | split_stuck; run].

(** A peer-list update that arrives runs the version check and then the
    merge-and-apply sequence of the specification. *)
Lemma HostPeerUpdate_run (w : World) (msg : Message) (c : Config)
    (serverName : string) (server : Server) (pu : models.HostPeerUpdate) :
  peerUpdateArrives w msg c serverName server pu ->
  HostPeerUpdate w msg c =
    let pre := slog Info "processing peer update for server"
               :: (if IsPro server && peerConnTicker w then [peerConnTicker_Reset] else []) in
    match spec_version_check w c (ServerVersion pu) with
    | (t, Some e) => (Stop e, c, pre ++ t)
    | (t, None) =>
        (Next tt, c,
         pre ++ t ++ spec_merge_and_apply serverName server (ServerVersion pu) (Peers pu)
                       (ReplacePeers pu) (EgressRoutes pu) (HostNetworkInfo pu)
                       (HostPeerUpdate_FwUpdate pu))
    end.
Proof.
  intros (Hn & Htopic & Hsrv & data & Hdec & Hjson).
  unfold HostPeerUpdate, parseServerFromTopic, spec_version_check,
    spec_merge_and_apply, GetServer in *.
  run. rewrite (bool_decide_eq_false_2 _ Hn), Htopic, Hsrv, Hdec, Hjson.
  run. crunch.
Qed.

(** A pull whose server is known runs the same version check and the
    same sequence, and then the interface reset if it is asked for. *)
Lemma mqFallbackPull_run (w : World) (resp : HostPull) (resetInterface replacePeers : bool)
    (c : Config) (server : Server) :
  GetServer (CurrServer c) c = Some server ->
  mqFallbackPull w resp resetInterface replacePeers c =
    match spec_version_check w c (ServerConfig_Version resp) with
    | (t, Some e) => (Stop e, c, t)
    | (t, None) =>
        let t' := t ++ spec_merge_and_apply (CurrServer c) server (ServerConfig_Version resp)
                         (HostPull_Peers resp) replacePeers (HostPull_EgressRoutes resp)
                         (HostPull_HostNetworkInfo resp) (HostPull_FwUpdate resp) in
        if resetInterface then
          (match Configure_err w with Some _ => Stop Done | None => Next tt end,
           c, t' ++ spec_interface_reset w c)
        else (Next tt, c, t')
    end.
Proof.
  intros Hsrv.
  unfold mqFallbackPull, spec_version_check, spec_merge_and_apply,
    spec_interface_reset, GetServer in *.
  run. rewrite Hsrv.
  run. crunch.
Qed.

(** * Topics (claim C10) *)

Lemma lookup_ge_length {A : Type} (l : list A) (i : nat) :
  (length l <= i)%nat -> l !! i = None.
Proof. apply lookup_ge_None_2. Qed.

Lemma NodeUpdate_short_topic (w : World) (msg : Message) (c : Config) :
  strings.Split (Topic msg) "/" !! 2%nat = None ->
  NodeUpdate w msg c = (Stop (Panic "index out of range"), c, []).
Proof.
  intros H. unfold NodeUpdate, parseNetworkFromTopic.
  run. rewrite H. reflexivity.
Qed.

Lemma HostUpdate_short_topic (w : World) (msg : Message) (c : Config) :
  strings.Split (Topic msg) "/" !! 3%nat = None ->
  HostUpdate w msg c = (Stop (Panic "index out of range"), c, []).
Proof.
  intros H. unfold HostUpdate, parseServerFromTopic.
  run. rewrite H. reflexivity.
Qed.

Lemma HostPeerUpdate_short_topic (w : World) (msg : Message) (c : Config) :
  size (Nodes c) <> 0%nat ->
  strings.Split (Topic msg) "/" !! 3%nat = None ->
  HostPeerUpdate w msg c = (Stop (Panic "index out of range"), c, []).
Proof.
  intros Hn H. unfold HostPeerUpdate, parseServerFromTopic.
  run. rewrite (bool_decide_eq_false_2 _ Hn), H. reflexivity.
Qed.

(** C10.  [strings.Split(topic, "/")] has one segment more than the
    topic has slashes.  On a topic of fewer than three segments the
    network extraction of [NodeUpdate] panics with an index out of
    range, and so does the handler, before any call; on a topic of fewer
    than four segments so do the server extraction and the handlers
    [HostUpdate] and (once nodes exist) [HostPeerUpdate].  On a topic
    that joins slash-free segments with slashes, the network is the
    third segment and the server the fourth. *)
Theorem topic_parsing_total_on_conforming_topics_only
    (w : World) (topic payload : string) (c : Config) :
  let segs := strings.Split topic "/" in
  let msg := {| Topic := topic; Payload := payload |} in
  length segs = S (strings.Count topic "/")
  /\ ((length segs < 3)%nat ->
      parseNetworkFromTopic topic c = out_of_range c
      /\ NodeUpdate w msg c = out_of_range c)
  /\ ((length segs < 4)%nat ->
      parseServerFromTopic topic c = out_of_range c
      /\ HostUpdate w msg c = out_of_range c
      /\ (size (Nodes c) <> 0%nat -> HostPeerUpdate w msg c = out_of_range c))
  /\ (forall (conforming : list string) (network : string),
        Forall (fun a => strings.slashes a = O) conforming ->
        topic = strings.Join conforming "/" ->
        conforming !! 2%nat = Some network ->
        parseNetworkFromTopic topic c = (Next network, c, []))
  /\ (forall (conforming : list string) (server : string),
        Forall (fun a => strings.slashes a = O) conforming ->
        topic = strings.Join conforming "/" ->
        conforming !! 3%nat = Some server ->
        parseServerFromTopic topic c = (Next server, c, [])).
Proof.
  intros segs msg. subst segs. unfold out_of_range.
  split; [apply Split_length|].
  split; [|split; [|split]].
  - intros Hlen.
    assert (strings.Split topic "/" !! 2%nat = None) as H
      by (apply lookup_ge_length; lia).
    split; [apply index_None, H|apply NodeUpdate_short_topic, H].
  - intros Hlen.
    assert (strings.Split topic "/" !! 3%nat = None) as H
      by (apply lookup_ge_length; lia).
    split; [apply index_None, H|].
    split; [apply HostUpdate_short_topic, H|].
    intros Hn. apply HostPeerUpdate_short_topic; assumption.
  - intros conforming network Hfree -> Hthird.
    apply index_Some. rewrite Split_Join; [assumption| |assumption].
    intros ->. discriminate.
  - intros conforming server Hfree -> Hfourth.
    apply index_Some. rewrite Split_Join; [assumption| |assumption].
    intros ->. discriminate.
Qed.

(** A witness of C10: a two-segment topic makes [NodeUpdate] panic, and
    the topic [node/update/net1/n1] names the network [net1]. *)
Lemma topic_parsing_witness :
  NodeUpdate examples.world0 {| Topic := "node/update"; Payload := "payload" |} examples.cfg0
  = out_of_range examples.cfg0
  /\ parseNetworkFromTopic "node/update/net1/n1" examples.cfg0
     = (Next "net1", examples.cfg0, []).
Proof.
  split.
  - destruct (topic_parsing_total_on_conforming_topics_only
                examples.world0 "node/update" "payload" examples.cfg0)
      as (_ & Hshort & _).
    apply Hshort. vm_compute. lia.
  - destruct (topic_parsing_total_on_conforming_topics_only
                examples.world0 "node/update/net1/n1" "payload" examples.cfg0)
      as (_ & _ & _ & Hnet & _).
    apply (Hnet ["node"; "update"; "net1"; "n1"]).
    + repeat constructor.
    + reflexivity.
    + reflexivity.
Defined.

(** * Leaving a network on a node delete (claim C5) *)

(** A node update with the action [delete] that arrives and is no
    repeat reports the node deleted exactly when the leave succeeds or
    the text of its error occurs inside the text "rpc error": the
    arguments of [strings.Contains] are the other way round. *)
Lemma NodeUpdate_delete_run (w : World) (msg : Message) (c : Config)
    (network data : string) (newNode : Node) :
  nodeUpdateArrives w msg c network data newNode ->
  read (Network newNode) lastNodeUpdate c <> data ->
  Action newNode = NODE_DELETE ->
  NodeUpdate w msg c =
    (Stop Done, insert (Network newNode) lastNodeUpdate data c,
     [slog Info "processing node update for network";
      slog Info "received node update";
      slog Info "received delete request for";
      unsubscribeNode newNode;
      LeaveNetwork (Network newNode) true;
      match LeaveNetwork_err w (Network newNode) with
      | Some err =>
          if strings.Contains "rpc error" err then slog Info "node was deleted"
          else slog Error
                 "failed to leave network, please check that local files for network were removed"
      | None => slog Info "node was deleted"
      end]).
Proof.
  intros (Htopic & Hdec & Hjson) Hmiss Haction.
  unfold NodeUpdate, parseNetworkFromTopic. run.
  rewrite Htopic. run. rewrite Hdec. run. rewrite Hjson. run.
  rewrite (bool_decide_eq_false_2 _ Hmiss). run. rewrite Haction. run.
  destruct (LeaveNetwork_err w (Network newNode)) as [err|]; run; [|reflexivity].
  destruct (strings.Contains "rpc error" err); reflexivity.
Qed.

(** C5, the code at two leave errors.  An error that is an rpc error
    ("rpc error: code = Unknown desc = node not found") is not
    tolerated: the handler logs the failure and returns without
    reporting the node deleted.  An error that is none ("error") is
    tolerated: the handler reports the node deleted. *)
Theorem node_delete_leave_error_tolerance :
  let rpc := "rpc error: code = Unknown desc = node not found" in
  strings.Contains rpc "rpc error" = true
  /\ calls_of (NodeUpdate (examples.deleteWorld rpc) examples.nodeMsg examples.cfg0)
     = [slog Info "processing node update for network";
        slog Info "received node update";
        slog Info "received delete request for";
        unsubscribeNode (with_Action NODE_DELETE examples.node1);
        LeaveNetwork "net1" true;
        slog Error
          "failed to leave network, please check that local files for network were removed"]
  /\ strings.Contains "error" "rpc error" = false
  /\ calls_of (NodeUpdate (examples.deleteWorld "error") examples.nodeMsg examples.cfg0)
     = [slog Info "processing node update for network";
        slog Info "received node update";
        slog Info "received delete request for";
        unsubscribeNode (with_Action NODE_DELETE examples.node1);
        LeaveNetwork "net1" true;
        slog Info "node was deleted"].
Proof. vm_compute. repeat split; reflexivity. Qed.

(** * Version skew (claims C4 and C6) *)

(** A host update with the action [upgrade] that arrives. *)
Lemma HostUpdate_upgrade_run (w : World) (msg : Message) (c : Config)
    (serverName : string) (server : Server) (hu : models.HostUpdate) :
  hostUpdateArrives w msg c serverName server hu ->
  HostUpdate_Action hu = Upgrade ->
  HostUpdate w msg c =
    let sv := Version server in
    let pre :=
      [slog Info "processing host update"; clearRetainedMsg (Topic msg);
       slog Info "checking if need to upgrade client to server's version"] in
    let finish (t : list Event) :=
      match WriteNetclientConfig_err w with
      | Some _ =>
          (Stop Done, c,
           pre ++ t ++ [config_WriteNetclientConfig; slog Error "failed to write host config"])
      | None => (Next tt, c, pre ++ t ++ [config_WriteNetclientConfig])
      end in
    let upgrade (t : list Event) :=
      let t := t ++ [slog Info "upgrading client to server's version"; UseVersion sv false] in
      match UseVersion_err w sv with
      | Some _ => finish (t ++ [slog Error "error upgrading client to server's version"])
      | None =>
          let t := t ++ [slog Info "upgraded client to server's version, restarting";
                         daemon_HardRestart] in
          match HardRestart w with
          | NoReturn => (Stop ProcessGone, c, pre ++ t)
          | Back (Some _) => finish (t ++ [slog Error "failed to hard restart daemon"])
          | Back None => finish t
          end
      end in
    match versionLessThan w (ClientVersion c) sv with
    | Ok false => finish [slog Info "no need to upgrade client, version is up-to-date"]
    | Ok true => upgrade []
    | Err _ =>
        upgrade [slog Warn "error checking version less than, but will proceed with upgrade"]
    end.
Proof.
  intros (Htopic & Hsrv & Hlen & data & Hdec & Hjson) Haction.
  unfold HostUpdate, parseServerFromTopic, GetServer in *.
  run. rewrite Htopic. run. rewrite Hsrv. run.
  rewrite (proj2 (Nat.eqb_neq _ _) Hlen), Hdec. run. rewrite Hjson. run.
  rewrite Haction. run. crunch.
Qed.

(** C4.  When the comparison of the versions gives an error, a host
    update with the action [upgrade] goes on with the upgrade (the
    version upgrade is called, and the hard restart after it when it
    succeeds), whereas a peer-list update logs the error and returns
    with no further call and the configuration as it was.  When the
    comparison answers that the client is not behind, neither handler
    makes a call that upgrades. *)
Theorem inconclusive_comparison_open_for_host_closed_for_peers
    (w : World) (msg : Message) (c : Config) (serverName : string) (server : Server) :
  (forall (hu : models.HostUpdate) (e : string),
      hostUpdateArrives w msg c serverName server hu ->
      HostUpdate_Action hu = Upgrade ->
      versionLessThan w (ClientVersion c) (Version server) = Err e ->
      upgrade_calls (calls_of (HostUpdate w msg c))
      = UseVersion (Version server) false
        :: match UseVersion_err w (Version server) with
           | Some _ => []
           | None => [daemon_HardRestart]
           end)
  /\ (forall (pu : models.HostPeerUpdate) (e : string),
        peerUpdateArrives w msg c serverName server pu ->
        ServerVersion pu <> ClientVersion c ->
        versionLessThan w (ClientVersion c) (ServerVersion pu) = Err e ->
        HostPeerUpdate w msg c
        = (Stop Done, c,
           slog Info "processing peer update for server"
           :: (if IsPro server && peerConnTicker w then [peerConnTicker_Reset] else [])
           ++ [slog Warn "server/client version mismatch";
               slog Error "error checking version less than"]))
  /\ (forall (hu : models.HostUpdate),
        hostUpdateArrives w msg c serverName server hu ->
        HostUpdate_Action hu = Upgrade ->
        versionLessThan w (ClientVersion c) (Version server) = Ok false ->
        upgrade_calls (calls_of (HostUpdate w msg c)) = [])
  /\ (forall (pu : models.HostPeerUpdate),
        peerUpdateArrives w msg c serverName server pu ->
        versionLessThan w (ClientVersion c) (ServerVersion pu) = Ok false ->
        upgrade_calls (calls_of (HostPeerUpdate w msg c)) = []).
Proof.
  split; [|split; [|split]].
  - intros hu e Harr Haction Hcmp.
    rewrite (HostUpdate_upgrade_run _ _ _ _ _ _ Harr Haction).
    cbv zeta. rewrite Hcmp.
    destruct (UseVersion_err w (Version server)); [|destruct (HardRestart w) as [|[err|]]];
      destruct (WriteNetclientConfig_err w); reflexivity.
  - intros pu e Harr Hne Hcmp.
    rewrite (HostPeerUpdate_run _ _ _ _ _ _ Harr).
    unfold spec_version_check.
    rewrite (bool_decide_eq_false_2 _ Hne), Hcmp. reflexivity.
  - intros hu Harr Haction Hcmp.
    rewrite (HostUpdate_upgrade_run _ _ _ _ _ _ Harr Haction).
    cbv zeta. rewrite Hcmp. destruct (WriteNetclientConfig_err w); reflexivity.
  - intros pu Harr Hcmp.
    rewrite (HostPeerUpdate_run _ _ _ _ _ _ Harr).
    unfold spec_version_check, spec_merge_and_apply. rewrite Hcmp.
    destruct (IsPro server && peerConnTicker w),
      (bool_decide (ServerVersion pu = ClientVersion c)),
      (bool_decide (ServerVersion pu = Version server)),
      (Nat.ltb 0 (length (EgressRoutes pu))),
      (IsEgressGw (HostPeerUpdate_FwUpdate pu)); reflexivity.
Qed.

Lemma example_hostUpdateArrives (w : World) (hu : models.HostUpdate) :
  decryptMsg w "srv" "payload" = Ok "payload" ->
  unmarshalHostUpdate w "payload" = Ok hu ->
  hostUpdateArrives w examples.hostMsg examples.cfg0 "srv" examples.srv hu.
Proof.
  intros Hdec Hjson. repeat split; try reflexivity.
  - discriminate.
  - exists "payload". split; assumption.
Qed.

Lemma example_peerUpdateArrives (w : World) (pu : models.HostPeerUpdate) :
  decryptMsg w "srv" "payload" = Ok "payload" ->
  unmarshalHostPeerUpdate w "payload" = Ok pu ->
  peerUpdateArrives w examples.peersMsg examples.cfg0 "srv" examples.srv pu.
Proof.
  intros Hdec Hjson. repeat split; try reflexivity.
  - vm_compute. discriminate.
  - exists "payload". split; assumption.
Qed.

(** A witness of C4: a server whose version does not compare with the
    client's tells the host to upgrade and the upgrade goes on; the
    same server's peer-list update is logged and dropped; with equal
    versions nothing upgrades. *)
Lemma inconclusive_comparison_witness :
  upgrade_calls (calls_of (HostUpdate examples.customBuildWorld examples.hostMsg examples.cfg0))
  = [UseVersion "v0.20.0" false; daemon_HardRestart]
  /\ HostPeerUpdate examples.customBuildWorld examples.peersMsg examples.cfg0
     = (Stop Done, examples.cfg0,
        [slog Info "processing peer update for server";
         slog Warn "server/client version mismatch";
         slog Error "error checking version less than"])
  /\ upgrade_calls
       (calls_of
          (HostUpdate
             (examples.world examples.node1 (examples.peerUpdate1 "v0.20.0")
                (examples.hostUpdate1 Upgrade) None (Ok false) NoReturn None (Err "no pull"))
             examples.hostMsg examples.cfg0)) = []
  /\ upgrade_calls (calls_of (HostPeerUpdate examples.world0 examples.peersMsg examples.cfg0))
     = [].
Proof.
  split; [|split; [|split]].
  - apply (proj1 (inconclusive_comparison_open_for_host_closed_for_peers
                    examples.customBuildWorld examples.hostMsg examples.cfg0 "srv" examples.srv)
             (examples.hostUpdate1 Upgrade) "Invalid Semantic Version").
    + apply example_hostUpdateArrives; reflexivity.
    + reflexivity.
    + reflexivity.
  - apply (proj1 (proj2 (inconclusive_comparison_open_for_host_closed_for_peers
                    examples.customBuildWorld examples.peersMsg examples.cfg0 "srv" examples.srv))
             (examples.peerUpdate1 "custom-build") "Invalid Semantic Version").
    + apply example_peerUpdateArrives; reflexivity.
    + discriminate.
    + reflexivity.
  - apply (proj1 (proj2 (proj2 (inconclusive_comparison_open_for_host_closed_for_peers
                    _ examples.hostMsg examples.cfg0 "srv" examples.srv)))
             (examples.hostUpdate1 Upgrade)).
    + apply example_hostUpdateArrives; reflexivity.
    + reflexivity.
    + reflexivity.
  - apply (proj2 (proj2 (proj2 (inconclusive_comparison_open_for_host_closed_for_peers
                    examples.world0 examples.peersMsg examples.cfg0 "srv" examples.srv)))
             (examples.peerUpdate1 "v0.20.0")).
    + apply example_peerUpdateArrives; reflexivity.
    + reflexivity.
Defined.

(** C6, as the code has it.  A peer-list update from a server whose
    version differs and is known to be newer, with auto-update on and
    the version upgrade succeeding, calls the hard restart of the
    daemon.  If that call does not return, the run ends there: the
    configuration is as it was and no further call is made.  The
    handler has no [return] after the call and drops its result: if the
    call returns, the run goes on with the version persist and the
    whole merge-and-apply sequence (the configuration is as it was:
    the version is written to the handler's copy of the record). *)
Theorem hard_restart_ends_peer_update_when_it_does_not_return
    (w : World) (msg : Message) (c : Config) (serverName : string) (server : Server)
    (pu : models.HostPeerUpdate) :
  peerUpdateArrives w msg c serverName server pu ->
  ServerVersion pu <> ClientVersion c ->
  versionLessThan w (ClientVersion c) (ServerVersion pu) = Ok true ->
  AutoUpdate c = true ->
  UseVersion_err w (ServerVersion pu) = None ->
  let upgrade :=
    slog Info "processing peer update for server"
    :: (if IsPro server && peerConnTicker w then [peerConnTicker_Reset] else [])
    ++ [slog Warn "server/client version mismatch";
        slog Info "updating client to server's version";
        UseVersion (ServerVersion pu) false;
        slog Info "updated client to server's version";
        daemon_HardRestart] in
  (HardRestart w = NoReturn -> HostPeerUpdate w msg c = (Stop ProcessGone, c, upgrade))
  /\ (forall err, HardRestart w = Back err ->
        HostPeerUpdate w msg c
        = (Next tt, c,
           upgrade ++ spec_merge_and_apply serverName server (ServerVersion pu) (Peers pu)
                        (ReplacePeers pu) (EgressRoutes pu) (HostNetworkInfo pu)
                        (HostPeerUpdate_FwUpdate pu))).
Proof.
  intros Harr Hne Hcmp Hauto Huse upgrade. subst upgrade.
  rewrite (HostPeerUpdate_run _ _ _ _ _ _ Harr).
  unfold spec_version_check.
  rewrite (bool_decide_eq_false_2 _ Hne), Hcmp, Hauto, Huse.
  split.
  - intros ->. reflexivity.
  - intros err ->. cbn [andb app]. rewrite <- !app_assoc. reflexivity.
Qed.

(** A witness of C6: the hard restart replaces the process. *)
Lemma hard_restart_witness :
  HostPeerUpdate (examples.upgradeWorld NoReturn) examples.peersMsg examples.cfg0
  = (Stop ProcessGone, examples.cfg0,
     [slog Info "processing peer update for server";
      slog Warn "server/client version mismatch";
      slog Info "updating client to server's version";
      UseVersion "v0.21.0" false;
      slog Info "updated client to server's version";
      daemon_HardRestart]).
Proof.
  apply (proj1 (hard_restart_ends_peer_update_when_it_does_not_return
                  (examples.upgradeWorld NoReturn) examples.peersMsg examples.cfg0
                  "srv" examples.srv (examples.peerUpdate1 "v0.21.0")
                  (example_peerUpdateArrives (examples.upgradeWorld NoReturn)
                     (examples.peerUpdate1 "v0.21.0") eq_refl eq_refl)
                  ltac:(discriminate) eq_refl eq_refl eq_refl)).
  reflexivity.
Defined.

Lemma last_effect (t before : list Event) (e : Event) :
  effects t = before ++ [e] -> last (effects t) = Some e.
Proof. intros ->. apply last_snoc. Qed.

(** C6 as stated fails where the hard restart returns an error: the
    conditions of the claim hold, and after the hard restart the run
    persists the server version, merges and sets the peers, starts
    endpoint detection and updates the firewall. *)
Lemma hard_restart_returning_counterexample :
  let w := examples.upgradeWorld (Back (Some "exit status 1")) in
  let run := HostPeerUpdate w examples.peersMsg examples.cfg0 in
  peerUpdateArrives w examples.peersMsg examples.cfg0 "srv" examples.srv
    (examples.peerUpdate1 "v0.21.0")
  /\ "v0.21.0" <> ClientVersion examples.cfg0
  /\ versionLessThan w (ClientVersion examples.cfg0) "v0.21.0" = Ok true
  /\ AutoUpdate examples.cfg0 = true
  /\ UseVersion_err w "v0.21.0" = None
  /\ effects (calls_of run)
     = [UseVersion "v0.21.0" false; daemon_HardRestart; config_WriteServerConfig;
        config_UpdateHostPeers []; config_WriteNetclientConfig; wireguard_SetPeers true;
        go_handleEndpointDetection [] ∅; firewall_DeleteEgressGwRoutes "srv"]
  /\ ~ ends_at_hard_restart (calls_of run).
Proof.
  intros w run.
  assert (effects (calls_of run)
          = [UseVersion "v0.21.0" false; daemon_HardRestart; config_WriteServerConfig;
             config_UpdateHostPeers []; config_WriteNetclientConfig; wireguard_SetPeers true;
             go_handleEndpointDetection [] ∅; firewall_DeleteEgressGwRoutes "srv"]) as Heff
    by (vm_compute; reflexivity).
  split; [apply example_peerUpdateArrives; reflexivity|].
  split; [discriminate|].
  do 4 (split; [first [reflexivity | exact Heff]|]).
  intros [before Hlast]. apply last_effect in Hlast.
  rewrite Heff in Hlast. discriminate.
Qed.

(** * The dedupe of repeated payloads (claim C1) *)

(** Evaluation of what a run leaves in the configuration. *)
Ltac run_cfg :=
  lazy beta iota zeta delta
    [mbind M_bind mret M_ret gets emit modify stop return_ when call index
     handleFwUpdate daemon_HardRestart_call resetInterface_steps
     config_of ending_of calls_of fst snd app negb andb orb];
  repeat (progress rewrite ?is_Some_Some_true, ?is_Some_None_false;
          lazy beta iota zeta delta
            [mbind M_bind mret M_ret gets emit modify stop return_ when call index
             handleFwUpdate daemon_HardRestart_call resetInterface_steps
             config_of ending_of calls_of fst snd app negb andb orb]).









(** * The fallback reconciler (claim C3) *)

Lemma mqFallbackTick_run (w : World) (c : Config) (resp : HostPull)
    (resetInterface replacePeers : bool) (server : Server) :
  mqConnected w = false ->
  CurrServer c <> "" ->
  Pull_answer w false = Ok (resp, resetInterface, replacePeers) ->
  GetServer (CurrServer c) c = Some server ->
  mqFallbackTick w c =
    let v := ServerConfig_Version resp in
    let pre := [slog Info "### mqfallback routine execute"; Pull false] in
    match spec_version_check w c v with
    | (t, Some ProcessGone) => (Stop ProcessGone, c, pre ++ t)
    | (t, Some _) => (Next tt, c, pre ++ t ++ spec_reconnect w server)
    | (t, None) =>
        (Next tt, c,
         pre ++ t
         ++ spec_merge_and_apply (CurrServer c) server v (HostPull_Peers resp) replacePeers
              (HostPull_EgressRoutes resp) (HostPull_HostNetworkInfo resp)
              (HostPull_FwUpdate resp)
         ++ (if resetInterface then spec_interface_reset w c else [])
         ++ spec_reconnect w server)
    end.
Proof.
  intros Hconn Hcurr Hpull Hsrv.
  unfold mqFallbackTick. run.
  rewrite Hconn, (bool_decide_eq_false_2 _ Hcurr). run. rewrite Hpull. run.
  rewrite (mqFallbackPull_run _ _ _ _ _ _ Hsrv).
  unfold spec_version_check, spec_reconnect.
  destruct (bool_decide (ServerConfig_Version resp = ClientVersion c));
    [|destruct (versionLessThan w (ClientVersion c) (ServerConfig_Version resp)) as [vlt|];
      [destruct (vlt && AutoUpdate c);
       [destruct (UseVersion_err w (ServerConfig_Version resp));
        [|destruct (HardRestart w)]|]|]];
    destruct resetInterface; try destruct (Configure_err w);
    run;
    rewrite ?Hsrv;
    run;
    destruct (Mqclient w); run;
    match goal with
    | |- context [setupMQTT_err w ?s] => destruct (setupMQTT_err w s)
    | _ => idtac
    end; run;
    fold (@app Event); rewrite <- ?app_assoc; reflexivity.
Qed.

Lemma mqFallbackTick_no_record (w : World) (c : Config) (resp : HostPull)
    (resetInterface replacePeers : bool) :
  mqConnected w = false ->
  CurrServer c <> "" ->
  Pull_answer w false = Ok (resp, resetInterface, replacePeers) ->
  GetServer (CurrServer c) c = None ->
  mqFallbackTick w c
  = (Stop Done, c,
     [slog Info "### mqfallback routine execute"; Pull false;
      slog Error "server not found in config"]).
Proof.
  intros Hconn Hcurr Hpull Hsrv.
  unfold mqFallbackTick, mqFallbackPull. run.
  rewrite Hconn, (bool_decide_eq_false_2 _ Hcurr). run. rewrite Hpull. run.
  rewrite Hsrv. run. rewrite Hsrv. reflexivity.
Qed.

Lemma mqFallbackTick_pull_failed (w : World) (c : Config) (e : string) :
  mqConnected w = false ->
  CurrServer c <> "" ->
  Pull_answer w false = Err e ->
  mqFallbackTick w c
  = (Next tt, c,
     [slog Info "### mqfallback routine execute"; Pull false; slog Error "pull failed"]).
Proof.
  intros Hconn Hcurr Hpull.
  unfold mqFallbackTick. run.
  rewrite Hconn, (bool_decide_eq_false_2 _ Hcurr). run. rewrite Hpull. reflexivity.
Qed.

Lemma pulls_app (t1 t2 : list Event) : pulls (t1 ++ t2) = (pulls t1 + pulls t2)%nat.
Proof. unfold pulls. rewrite filter_app, length_app. reflexivity. Qed.

Lemma pulls_spec_version_check (w : World) (c : Config) (v : string) :
  pulls (spec_version_check w c v).1 = O.
Proof.
  unfold spec_version_check.
  destruct (bool_decide (v = ClientVersion c)); [reflexivity|].
  destruct (versionLessThan w (ClientVersion c) v) as [vlt|]; [|reflexivity].
  destruct (vlt && AutoUpdate c); [|reflexivity].
  destruct (UseVersion_err w v); reflexivity.
Qed.

Lemma pulls_spec_merge_and_apply (serverName : string) (server : Server) (v : string)
    (peers : list PeerConfig) (replacePeers : bool) (routes : list EgressNetworkRoutes)
    (info : HostInfoMap) (fw : FwUpdate) :
  pulls (spec_merge_and_apply serverName server v peers replacePeers routes info fw) = O.
Proof.
  unfold spec_merge_and_apply.
  destruct (bool_decide (v = Version server)), (Nat.ltb 0 (length routes)), (IsEgressGw fw);
    reflexivity.
Qed.

Lemma pulls_spec_interface_reset (w : World) (c : Config) :
  pulls (spec_interface_reset w c) = O.
Proof. unfold spec_interface_reset. destruct (Configure_err w); reflexivity. Qed.

Lemma pulls_spec_reconnect (w : World) (server : Server) :
  pulls (spec_reconnect w server) = O.
Proof.
  unfold spec_reconnect.
  destruct (bool_decide (is_Some (Mqclient w))),
    (bool_decide (is_Some (setupMQTT_err w server))); reflexivity.
Qed.

Lemma mqFallbackTick_pulls_once (w : World) (c : Config) :
  mqConnected w = false -> CurrServer c <> "" ->
  pulls (calls_of (mqFallbackTick w c)) = 1%nat.
Proof.
  intros Hconn Hcurr.
  destruct (Pull_answer w false) as [[[resp resetInterface] replacePeers]|e] eqn:Hpull.
  - destruct (GetServer (CurrServer c) c) as [server|] eqn:Hsrv.
    + rewrite (mqFallbackTick_run _ _ _ _ _ _ Hconn Hcurr Hpull Hsrv). cbv zeta.
      pose proof (pulls_spec_version_check w c (ServerConfig_Version resp)) as Hvc.
      destruct (spec_version_check w c (ServerConfig_Version resp)) as [t [e|]];
        cbn [fst] in Hvc; [destruct e|]; unfold calls_of; cbn [snd];
        rewrite ?pulls_app, ?Hvc, ?pulls_spec_merge_and_apply, ?pulls_spec_reconnect;
        try reflexivity.
      destruct resetInterface; rewrite ?pulls_spec_interface_reset; reflexivity.
    + rewrite (mqFallbackTick_no_record _ _ _ _ _ Hconn Hcurr Hpull Hsrv). reflexivity.
  - rewrite (mqFallbackTick_pull_failed _ _ _ Hconn Hcurr Hpull). reflexivity.
Qed.

(** C3, as the code has it.  A tick makes no call when the control
    channel reports connected or no current server is set.  Otherwise
    it pulls exactly once.  A failed pull is logged.  After a pull that
    succeeded: if the current server has no record, the tick logs that
    and ends, with no merge and no reconnect.  If it has one, the pull
    is run through the version check and the merge-and-apply sequence
    of a live peer-list update (the handler of a peer-list update
    carrying the same data makes the same calls after its own first
    lines, leaves the same configuration and ends the same way), then
    through the interface reset if the pull asks for one, and then,
    unless a hard restart took the process away, the tick tries to
    bring the control channel back. *)
Theorem fallback_tick_pulls_once_then_applies_and_reconnects (w : World) (c : Config) :
  (mqConnected w = true \/ CurrServer c = "" -> mqFallbackTick w c = (Stop Done, c, []))
  /\ (mqConnected w = false -> CurrServer c <> "" ->
      pulls (calls_of (mqFallbackTick w c)) = 1%nat
      /\ (forall e, Pull_answer w false = Err e ->
            mqFallbackTick w c
            = (Next tt, c,
               [slog Info "### mqfallback routine execute"; Pull false;
                slog Error "pull failed"]))
      /\ (forall resp resetInterface replacePeers,
            Pull_answer w false = Ok (resp, resetInterface, replacePeers) ->
            (GetServer (CurrServer c) c = None ->
             mqFallbackTick w c
             = (Stop Done, c,
                [slog Info "### mqfallback routine execute"; Pull false;
                 slog Error "server not found in config"]))
            /\ (forall server, GetServer (CurrServer c) c = Some server ->
                  let v := ServerConfig_Version resp in
                  let pre := [slog Info "### mqfallback routine execute"; Pull false] in
                  mqFallbackTick w c
                  = match spec_version_check w c v with
                    | (t, Some ProcessGone) => (Stop ProcessGone, c, pre ++ t)
                    | (t, Some _) => (Next tt, c, pre ++ t ++ spec_reconnect w server)
                    | (t, None) =>
                        (Next tt, c,
                         pre ++ t
                         ++ spec_merge_and_apply (CurrServer c) server v (HostPull_Peers resp)
                              replacePeers (HostPull_EgressRoutes resp)
                              (HostPull_HostNetworkInfo resp) (HostPull_FwUpdate resp)
                         ++ (if resetInterface then spec_interface_reset w c else [])
                         ++ spec_reconnect w server)
                    end
                  /\ (forall msg,
                        peerUpdateArrives w msg c (CurrServer c) server
                          (peerUpdate_of_pull resp replacePeers) ->
                        HostPeerUpdate w msg c
                        = let r := mqFallbackPull w resp false replacePeers c in
                          (r.1.1, r.1.2,
                           (slog Info "processing peer update for server"
                            :: (if IsPro server && peerConnTicker w
                                then [peerConnTicker_Reset] else []))
                           ++ r.2))))).
Proof.
  split.
  - intros Hskip. unfold mqFallbackTick. run.
    destruct Hskip as [->|Hnone]; [reflexivity|].
    rewrite (bool_decide_eq_true_2 _ Hnone). destruct (mqConnected w); reflexivity.
  - intros Hconn Hcurr.
    split; [apply mqFallbackTick_pulls_once; assumption|].
    split; [intros e Hpull; apply (mqFallbackTick_pull_failed _ _ e); assumption|].
    intros resp resetInterface replacePeers Hpull.
    split; [intros Hsrv; eapply mqFallbackTick_no_record; eassumption|].
    intros server Hsrv v pre.
    split; [apply mqFallbackTick_run; assumption|].
    intros msg Harr.
    rewrite (HostPeerUpdate_run _ _ _ _ _ _ Harr), (mqFallbackPull_run _ _ _ _ _ _ Hsrv).
    cbn [peerUpdate_of_pull ServerVersion Peers ReplacePeers EgressRoutes HostNetworkInfo
         HostPeerUpdate_FwUpdate].
    destruct (spec_version_check w c (ServerConfig_Version resp)) as [t [e|]]; reflexivity.
Qed.

(** A witness of C3: the channel is down, the pull succeeds and the
    server is known; the tick merges and applies what was pulled and
    sets up MQTT again. *)
Lemma fallback_tick_witness :
  mqFallbackTick examples.fallbackWorld examples.cfg0
  = (Next tt, examples.cfg0,
     [slog Info "### mqfallback routine execute"; Pull false;
      config_UpdateHostPeers []; config_WriteNetclientConfig; wireguard_SetPeers true;
      go_handleEndpointDetection [] ∅; firewall_DeleteEgressGwRoutes "srv";
      slog Info "re-attempt mqtt connection after pull"; setupMQTT examples.srv]).
Proof.
  destruct (fallback_tick_pulls_once_then_applies_and_reconnects
              examples.fallbackWorld examples.cfg0) as [_ Htick].
  destruct (Htick eq_refl ltac:(discriminate)) as (_ & _ & Hok).
  destruct (Hok (examples.pull1 "v0.20.0") false true eq_refl) as [_ Hrecord].
  destruct (Hrecord examples.srv eq_refl) as [Hrun _].
  rewrite Hrun. vm_compute. reflexivity.
Defined.

(** C3 as stated fails where the current server has no record: the
    channel is down, a server is set and the pull succeeds, yet the
    tick applies nothing of what was pulled and does not try to bring
    the channel back. *)
Lemma fallback_tick_no_record_counterexample :
  let calls := calls_of (mqFallbackTick examples.fallbackWorld examples.cfgNoRecord) in
  mqConnected examples.fallbackWorld = false
  /\ CurrServer examples.cfgNoRecord <> ""
  /\ Pull_answer examples.fallbackWorld false = Ok (examples.pull1 "v0.20.0", false, true)
  /\ calls = [slog Info "### mqfallback routine execute"; Pull false;
              slog Error "server not found in config"]
  /\ ~ In (wireguard_SetPeers true) calls
  /\ ~ reconnects calls.
Proof.
  intros calls.
  assert (calls = [slog Info "### mqfallback routine execute"; Pull false;
                   slog Error "server not found in config"]) as Hcalls
    by (vm_compute; reflexivity).
  split; [reflexivity|]. split; [discriminate|]. split; [reflexivity|].
  split; [exact Hcalls|]. rewrite Hcalls. split.
  - cbn. intros [H|[H|[H|[]]]]; discriminate.
  - intros [server Hin]. cbn in Hin. destruct Hin as [H|[H|[H|[]]]]; discriminate.
Qed.

(** * Endpoint detection (claim C9) *)

Lemma bytesEqual_head (a : byte) (p q : list byte) :
  net.bytesEqual p (a :: q) = true -> nth 0 p x00 = a.
Proof.
  destruct p as [|b p]; cbn; [discriminate|].
  intros H. apply andb_prop in H as [H _]. apply Byte.byte_dec_bl in H. exact H.
Qed.

(** A private address is no loopback address. *)
Lemma IsPrivate_not_IsLoopback (ip : net.IP) :
  net.IsPrivate ip = true -> net.IsLoopback ip = false.
Proof.
  unfold net.IsPrivate, net.IsLoopback. destruct (net.To4 ip) as [ip4|].
  - destruct (N.eqb_spec (net.at_ ip4 0) 127) as [->|]; [discriminate|reflexivity].
  - intros H. apply andb_prop in H as [Hlen Hfc].
    unfold net.Equal. apply Nat.eqb_eq in Hlen.
    replace (length net.IPv6loopback) with net.IPv6len by reflexivity.
    rewrite Hlen, Nat.eqb_refl.
    destruct (net.bytesEqual ip net.IPv6loopback) eqn:Heq; [|reflexivity].
    apply bytesEqual_head in Heq. unfold net.at_ in Hfc. rewrite Heq in Hfc. discriminate.
Qed.

(** A private address is no multicast address. *)
Lemma IsPrivate_not_IsMulticast (ip : net.IP) :
  net.IsPrivate ip = true -> net.IsMulticast ip = false.
Proof.
  unfold net.IsPrivate, net.IsMulticast. destruct (net.To4 ip) as [ip4|].
  - destruct (N.eqb_spec (net.at_ ip4 0) 10) as [->|]; [reflexivity|].
    destruct (N.eqb_spec (net.at_ ip4 0) 172) as [->|]; [reflexivity|].
    destruct (N.eqb_spec (net.at_ ip4 0) 192) as [->|]; [reflexivity|discriminate].
  - intros H. apply andb_prop in H as [-> Hfc]. cbn [andb].
    destruct (N.eqb_spec (net.at_ ip 0) 255) as [Hff|]; [|reflexivity].
    rewrite Hff in Hfc. discriminate.
Qed.

(** A private address is no link-local address. *)
Lemma IsPrivate_not_IsLinkLocalUnicast (ip : net.IP) :
  net.IsPrivate ip = true -> net.IsLinkLocalUnicast ip = false.
Proof.
  unfold net.IsPrivate, net.IsLinkLocalUnicast. destruct (net.To4 ip) as [ip4|].
  - destruct (N.eqb_spec (net.at_ ip4 0) 169) as [->|]; [discriminate|reflexivity].
  - intros H. apply andb_prop in H as [-> Hfc]. cbn [andb].
    destruct (N.eqb_spec (net.at_ ip 0) 254) as [Hfe|]; [|reflexivity].
    rewrite Hfe in Hfc. discriminate.
Qed.

Lemma isAddressInPeers_false (ip : net.IP) (peers : list PeerConfig) :
  isAddressInPeers ip (getAllAllowedIPs peers) = false ->
  forall p cidr, In p peers -> In cidr (AllowedIPs p) -> net.Contains cidr ip = false.
Proof.
  unfold isAddressInPeers, getAllAllowedIPs. intros H p cidr Hp Hcidr.
  destruct (net.Contains cidr ip) eqn:Hc; [|reflexivity].
  assert (existsb (fun currCidr => net.Contains currCidr ip) (flat_map AllowedIPs peers) = true)
    as Hex.
  { apply existsb_exists. exists cidr. split; [|exact Hc].
    apply in_flat_map. exists p. split; assumption. }
  congruence.
Qed.

(** C9.  Every probe that endpoint detection starts is for an
    interface of a peer of the update whose host information is known;
    the address of that interface is private, is no loopback, multicast
    or link-local address, and lies in no allowed-IP range of any peer
    of the update; the interface is no bridge, the peer is not flagged
    static, and no endpoint was detected for it before.  The probe
    carries the text of the address, the peer's public key and the
    advertised listen port. *)
Theorem endpoint_detection_probes_only_private_unrouted_addresses
    (w : World) (peers : list PeerConfig) (peerInfo : HostInfoMap) (probe : Probe) :
  In probe (handleEndpointDetection w peers peerInfo) ->
  exists (peer : PeerConfig) (info : HostInfo) (iface : Iface),
    let ip := net.IPNet_IP (Address iface) in
    In peer peers
    /\ peerInfo !! Key_String (PublicKey peer) = Some info
    /\ In iface (Interfaces info)
    /\ probe = {| probe_peerIP := net.IP_String ip;
                  probe_peerPubKey := Key_String (PublicKey peer);
                  probe_listenPort := ListenPort info |}
    /\ net.IsPrivate ip = true
    /\ net.IsLoopback ip = false
    /\ net.IsMulticast ip = false
    /\ net.IsLinkLocalUnicast ip = false
    /\ (forall p cidr, In p peers -> In cidr (AllowedIPs p) -> net.Contains cidr ip = false)
    /\ IsBridgeNetwork w (Iface_Name iface) = false
    /\ IsStatic info = false
    /\ EndpointDetectedAlready w (Key_String (PublicKey peer)) = false.
Proof.
  unfold handleEndpointDetection. intros Hin.
  apply in_flat_map in Hin as (peer & Hpeer & Hin).
  unfold probePeer in Hin.
  destruct (EndpointDetectedAlready w (Key_String (PublicKey peer))) eqn:Hdetected;
    [contradiction|].
  destruct (peerInfo !! Key_String (PublicKey peer)) as [info|] eqn:Hinfo; [|contradiction].
  destruct (IsStatic info) eqn:Hstatic; [contradiction|].
  apply in_flat_map in Hin as (iface & Hiface & Hin).
  unfold probeIface in Hin.
  destruct (bool_decide (net.IPNet_IP (Address iface) = [])); [contradiction|].
  destruct (IsBridgeNetwork w (Iface_Name iface)) eqn:Hbridge; [contradiction|].
  destruct (strings.Contains _ "127.0.0." || _ || _ || isAddressInPeers _ _) eqn:Hskip;
    [contradiction|].
  destruct (net.IsPrivate (net.IPNet_IP (Address iface))) eqn:Hprivate; [|contradiction].
  destruct Hin as [<-|[]].
  apply orb_false_elim in Hskip as [_ Hrouted].
  exists peer, info, iface. cbv zeta.
  repeat split; try assumption; try reflexivity.
  - apply IsPrivate_not_IsLoopback, Hprivate.
  - apply IsPrivate_not_IsMulticast, Hprivate.
  - apply IsPrivate_not_IsLinkLocalUnicast, Hprivate.
  - apply isAddressInPeers_false, Hrouted.
Qed.

(** A witness of C9: of the six addresses the host of [peerA]
    advertises, the private and unrouted 10.1.2.3 is the one probed. *)
Lemma endpoint_detection_witness :
  handleEndpointDetection examples.world0 [examples.peerA] {["peerA=" := examples.hostA]}
  = [{| probe_peerIP := "10.1.2.3"; probe_peerPubKey := "peerA=";
        probe_listenPort := 51821 |}]
  /\ exists (peer : PeerConfig) (info : HostInfo) (iface : Iface),
       In peer [examples.peerA]
       /\ In iface (Interfaces info)
       /\ net.IP_String (net.IPNet_IP (Address iface)) = "10.1.2.3"
       /\ net.IsPrivate (net.IPNet_IP (Address iface)) = true.
Proof.
  assert (handleEndpointDetection examples.world0 [examples.peerA]
            {["peerA=" := examples.hostA]}
          = [{| probe_peerIP := "10.1.2.3"; probe_peerPubKey := "peerA=";
                probe_listenPort := 51821 |}]) as Hrun
    by (vm_compute; reflexivity).
  split; [exact Hrun|].
  destruct (endpoint_detection_probes_only_private_unrouted_addresses
              examples.world0 [examples.peerA] {["peerA=" := examples.hostA]}
              {| probe_peerIP := "10.1.2.3"; probe_peerPubKey := "peerA=";
                 probe_listenPort := 51821 |})
    as (peer & info & iface & Hpeer & _ & Hiface & Hprobe & Hprivate & _).
  - rewrite Hrun. left. reflexivity.
  - exists peer, info, iface. repeat split; try assumption.
    cbv zeta in Hprobe. injection Hprobe as Hip _ _. symmetry. exact Hip.
Defined.

(** * Adding a peer to the proxy (claims C2, C7 and C8) *)

Section AddNewPeerFacts.
Import nmproxy peer.

Variable env : ProxyEnv.
Variable g : GlobalCfg.
Variable wgInterface : WGIface.
Variable network : string.
Variable peer0 : PeerConfig.
Variable peerAddr : string.
Variables isRelayed isExtClient isAttachedExtClient : bool.
Variable relayTo : option net.UDPAddr.

Let run : AddNewPeerRun :=
  AddNewPeer env g wgInterface network peer0 peerAddr isRelayed isExtClient
    isAttachedExtClient relayTo.

(** Whatever way [AddNewPeer] ends other than with [nil], the registry
    is the one it started with. *)
Lemma AddNewPeer_failure_keeps_registry : exit run <> Returned None -> cfg_after run = g.
Proof.
  subst run. unfold AddNewPeer.
  destruct (PersistentKeepaliveInterval peer0); cbn [Endpoint with_PersistentKeepaliveInterval];
    (destruct (Endpoint peer0) as [endpoint|]; [|reflexivity]);
    (destruct isRelayed; [destruct relayTo as [relay|]; [|reflexivity]|]);
    (destruct (net.ResolveUDPAddr _ _) as [ep|]; [|reflexivity]);
    (destruct (Start env _) as [[lc la]|]; [|reflexivity]);
    cbn [exit]; congruence.
Qed.

(** What a successful [AddNewPeer] did. *)
Lemma AddNewPeer_success :
  exit run = Returned None ->
  exists (endpoint : net.UDPAddr) (ip : net.IP) (ep la : net.UDPAddr) (conn : Conn)
         (rPeer : RemotePeer),
    Endpoint peer0 = Some endpoint
    /\ spec_endpointIP endpoint isRelayed relayTo = Some ip
    /\ net.ResolveUDPAddr (resolver env)
         (net.Sprintf_s_d ip (spec_peerPort env endpoint isExtClient isAttachedExtClient))
       = Ok ep
    /\ (exists pc lc, Start env pc = Ok (lc, la) /\ PeerEndpoint pc = Some ep)
    /\ GetPeer network (Key_String (PublicKey peer0)) (cfg_after run) = Some conn
    /\ GetPeerByHash env (Key_String (PublicKey peer0)) (cfg_after run) = Some rPeer
    /\ PeerEndpoint (Config conn) = Some ep
    /\ RemotePeer_Endpoint rPeer = Some ep
    /\ LocalConnAddr (Config conn) = Some la
    /\ Conn_LocalConn conn = RemotePeer_LocalConn rPeer
    /\ ProxyStatus (cfg_after run) = ProxyStatus g.
Proof.
  subst run. unfold AddNewPeer, spec_endpointIP, spec_peerPort.
  destruct (PersistentKeepaliveInterval peer0);
    cbn [Endpoint PublicKey with_PersistentKeepaliveInterval];
    (destruct (Endpoint peer0) as [endpoint|]; [|discriminate]);
    (destruct isRelayed; [destruct relayTo as [relay|]; [|discriminate]|]);
    (destruct (net.ResolveUDPAddr _ _) as [ep|] eqn:Hresolve; [|discriminate]);
    (destruct (Start env _) as [[lc la]|] eqn:Hstart; [|discriminate]);
    intros _; exists endpoint; eexists; exists ep, la; eexists; eexists;
    (split; [reflexivity|]); (split; [reflexivity|]); (split; [exact Hresolve|]);
    (split; [eexists; eexists; split; [exact Hstart|reflexivity]|]);
    destruct isAttachedExtClient; cbn [cfg_after];
    unfold GetPeer, GetPeerByHash, SaveExtClientInfo, SavePeerByHash, SavePeer;
    cbn [networkPeerMap peerHashMap ProxyStatus Conn_Key PeerKey];
    rewrite !lookup_insert_eq; repeat split; reflexivity.
Qed.

End AddNewPeerFacts.

(** C2, as the code has it.  A call of [AddNewPeer] that returns an
    error leaves the registry as it was: no connection, no remote peer
    and no external-client record was saved.  It is not without side
    effect: before any check the call gives a peer whose keepalive
    interval is unset one of 25 seconds, through the caller's pointer,
    and the caller's peer keeps it after the error; a peer whose
    interval is set is left as it was.  The three ways to fail are
    errors of that kind: a relayed peer with no relay target, an
    endpoint address that does not resolve, and a proxy that does not
    start. *)
Theorem AddNewPeer_error_registers_nothing_but_defaults_keepalive
    (env : nmproxy.ProxyEnv) (g : nmproxy.GlobalCfg) (wgInterface : nmproxy.WGIface)
    (network : string) (peer0 : PeerConfig) (peerAddr : string)
    (isRelayed isExtClient isAttachedExtClient : bool) (relayTo : option net.UDPAddr) :
  let run := peer.AddNewPeer env g wgInterface network peer0 peerAddr isRelayed isExtClient
               isAttachedExtClient relayTo in
  (forall e, nmproxy.exit run = nmproxy.Returned (Some e) ->
     nmproxy.cfg_after run = g
     /\ nmproxy.networkPeerMap (nmproxy.cfg_after run) = nmproxy.networkPeerMap g
     /\ nmproxy.peerHashMap (nmproxy.cfg_after run) = nmproxy.peerHashMap g
     /\ nmproxy.extClients (nmproxy.cfg_after run) = nmproxy.extClients g
     /\ nmproxy.peer_after run
        = with_PersistentKeepaliveInterval
            (Some (default (Second * 25) (PersistentKeepaliveInterval peer0))) peer0
     /\ (is_Some (PersistentKeepaliveInterval peer0) -> nmproxy.peer_after run = peer0)
     /\ (PersistentKeepaliveInterval peer0 = None -> nmproxy.peer_after run <> peer0))
  /\ (forall endpoint, Endpoint peer0 = Some endpoint ->
      (isRelayed = true -> relayTo = None ->
       nmproxy.exit run = nmproxy.Returned (Some "relay endpoint is nil"))
      /\ (forall ip e,
            spec_endpointIP endpoint isRelayed relayTo = Some ip ->
            net.ResolveUDPAddr (nmproxy.resolver env)
              (net.Sprintf_s_d ip (spec_peerPort env endpoint isExtClient isAttachedExtClient))
            = Err e ->
            nmproxy.exit run = nmproxy.Returned (Some e))
      /\ (forall ip ep,
            spec_endpointIP endpoint isRelayed relayTo = Some ip ->
            net.ResolveUDPAddr (nmproxy.resolver env)
              (net.Sprintf_s_d ip (spec_peerPort env endpoint isExtClient isAttachedExtClient))
            = Ok ep ->
            (forall pc, nmproxy.PeerEndpoint pc = Some ep ->
                        exists e, nmproxy.Start env pc = Err e) ->
            exists e, nmproxy.exit run = nmproxy.Returned (Some e))).
Proof.
  intros run. split.
  - intros e He.
    assert (nmproxy.cfg_after run = g) as Hcfg
      by (apply AddNewPeer_failure_keeps_registry; fold run; congruence).
    assert (nmproxy.peer_after run
            = with_PersistentKeepaliveInterval
                (Some (default (Second * 25) (PersistentKeepaliveInterval peer0))) peer0)
      as Hpeer.
    { clear He Hcfg. subst run. unfold peer.AddNewPeer.
      destruct peer0 as [key endpoint [d|] allowed];
        cbn [Endpoint PublicKey PersistentKeepaliveInterval with_PersistentKeepaliveInterval
             default AllowedIPs];
        (destruct endpoint as [endpoint|]; [|reflexivity]);
        (destruct isRelayed; [destruct relayTo as [relay|]; [|reflexivity]|]);
        (destruct (net.ResolveUDPAddr _ _) as [ep|]; [|reflexivity]);
        (destruct (nmproxy.Start env _) as [[lc la]|]; reflexivity). }
    rewrite Hcfg, Hpeer. repeat split.
    + intros [d Hd]. destruct peer0 as [key endpoint interval allowed].
      cbn in Hd. subst interval. reflexivity.
    + intros Hnone Heq.
      apply (f_equal PersistentKeepaliveInterval) in Heq. rewrite Hnone in Heq.
      discriminate Heq.
  - intros endpoint Hendpoint. subst run.
    unfold peer.AddNewPeer, spec_endpointIP, spec_peerPort.
    split; [|split].
    + intros -> ->.
      destruct (PersistentKeepaliveInterval peer0);
        cbn [Endpoint with_PersistentKeepaliveInterval]; rewrite Hendpoint; reflexivity.
    + intros ip e Hip Hresolve.
      destruct (PersistentKeepaliveInterval peer0);
        cbn [Endpoint with_PersistentKeepaliveInterval]; rewrite Hendpoint;
        (destruct isRelayed; [destruct relayTo as [relay|]; [|discriminate]|]);
        injection Hip as <-; cbn [fmap option_fmap option_map] in *;
        rewrite Hresolve; reflexivity.
    + intros ip ep Hip Hresolve Hstart.
      destruct (PersistentKeepaliveInterval peer0);
        cbn [Endpoint with_PersistentKeepaliveInterval]; rewrite Hendpoint;
        (destruct isRelayed; [destruct relayTo as [relay|]; [|discriminate]|]);
        injection Hip as <-; cbn [fmap option_fmap option_map] in *;
        rewrite Hresolve;
        match goal with
        | |- context [nmproxy.Start env ?pc] =>
            destruct (Hstart pc eq_refl) as [e He]; rewrite He
        end;
        exists e; reflexivity.
Qed.

(** A witness of C2: a relayed peer with no relay target is refused,
    the registry stays empty, and the peer has its keepalive interval
    set. *)
Lemma AddNewPeer_error_witness :
  let run := peer.AddNewPeer (examples.proxyEnv false) (examples.emptyRegistry true)
               examples.wg0 "net1" examples.peerB "" true false false None in
  nmproxy.exit run = nmproxy.Returned (Some "relay endpoint is nil")
  /\ nmproxy.cfg_after run = examples.emptyRegistry true
  /\ nmproxy.peer_after run
     = with_PersistentKeepaliveInterval (Some 25000000000) examples.peerB.
Proof.
  intros run. split; [reflexivity|].
  destruct (proj1 (AddNewPeer_error_registers_nothing_but_defaults_keepalive
                     (examples.proxyEnv false) (examples.emptyRegistry true)
                     examples.wg0 "net1" examples.peerB "" true false false None)
              "relay endpoint is nil" eq_refl)
    as (Hcfg & _ & _ & _ & Hpeer & _).
  split; [exact Hcfg|exact Hpeer].
Defined.

(** C2 as stated fails: the call that returns the error of the missing
    relay target has a side effect, on the caller's peer, whose
    keepalive interval was unset and is 25 seconds afterwards. *)
Lemma AddNewPeer_error_changes_the_callers_peer_counterexample :
  let run := peer.AddNewPeer (examples.proxyEnv false) (examples.emptyRegistry true)
               examples.wg0 "net1" examples.peerB "" true false false None in
  nmproxy.exit run = nmproxy.Returned (Some "relay endpoint is nil")
  /\ PersistentKeepaliveInterval examples.peerB = None
  /\ PersistentKeepaliveInterval (nmproxy.peer_after run) = Some (25 * Second)
  /\ nmproxy.peer_after run <> examples.peerB.
Proof.
  intros run. repeat split. discriminate.
Qed.

Lemma SetPeersEndpointToProxy_lookup (g : nmproxy.GlobalCfg) (network : string)
    (peers : list PeerConfig) (i : nat) (q : PeerConfig) (conn : nmproxy.Conn) :
  nmproxy.ProxyStatus g = true ->
  peers !! i = Some q ->
  nmproxy.GetPeer network (Key_String (PublicKey q)) g = Some conn ->
  peer.SetPeersEndpointToProxy g network peers !! i
  = Some (with_Endpoint (nmproxy.LocalConnAddr (nmproxy.Config conn)) q).
Proof.
  intros Hon Hq Hconn. unfold peer.SetPeersEndpointToProxy. rewrite Hon. cbn [negb].
  rewrite list_lookup_fmap, Hq. cbn. rewrite Hconn. reflexivity.
Qed.

Lemma SetPeersEndpointToProxy_unregistered (g : nmproxy.GlobalCfg) (network : string)
    (peers : list PeerConfig) :
  Forall (fun q => nmproxy.GetPeer network (Key_String (PublicKey q)) g = None) peers ->
  peer.SetPeersEndpointToProxy g network peers = peers.
Proof.
  intros Hnone. unfold peer.SetPeersEndpointToProxy.
  destruct (negb (nmproxy.ProxyStatus g)); [reflexivity|].
  induction Hnone as [|q peers Hq _ IH]; [reflexivity|].
  cbn [fmap list_fmap]. rewrite Hq. f_equal. exact IH.
Qed.

(** C8.  After [AddNewPeer] succeeds, the network-keyed and the
    hash-keyed registry both hold an entry for the peer, and the
    connection holds the address of the local socket the proxy was
    started on.  With the proxy enabled, [SetPeersEndpointToProxy] for
    that network gives every peer of the list that has the peer's key
    that address as its endpoint; with the proxy disabled it answers
    the list as it is.  Under any registry, a list none of whose peers
    is registered for the network is answered as it is. *)
Theorem AddNewPeer_registers_and_endpoints_are_rewritten
    (env : nmproxy.ProxyEnv) (g : nmproxy.GlobalCfg) (wgInterface : nmproxy.WGIface)
    (network : string) (peer0 : PeerConfig) (peerAddr : string)
    (isRelayed isExtClient isAttachedExtClient : bool) (relayTo : option net.UDPAddr) :
  let run := peer.AddNewPeer env g wgInterface network peer0 peerAddr isRelayed isExtClient
               isAttachedExtClient relayTo in
  let key := Key_String (PublicKey peer0) in
  (nmproxy.exit run = nmproxy.Returned None ->
   exists (conn : nmproxy.Conn) (rPeer : nmproxy.RemotePeer) (la : net.UDPAddr),
     nmproxy.GetPeer network key (nmproxy.cfg_after run) = Some conn
     /\ nmproxy.GetPeerByHash env key (nmproxy.cfg_after run) = Some rPeer
     /\ nmproxy.LocalConnAddr (nmproxy.Config conn) = Some la
     /\ (exists pc lc, nmproxy.Start env pc = Ok (lc, la))
     /\ (nmproxy.ProxyStatus g = true ->
         forall peers i q,
           peers !! i = Some q -> PublicKey q = PublicKey peer0 ->
           peer.SetPeersEndpointToProxy (nmproxy.cfg_after run) network peers !! i
           = Some (with_Endpoint (Some la) q))
     /\ (nmproxy.ProxyStatus g = false ->
         forall peers,
           peer.SetPeersEndpointToProxy (nmproxy.cfg_after run) network peers = peers))
  /\ (forall (g' : nmproxy.GlobalCfg) (network' : string) (peers : list PeerConfig),
        Forall (fun q => nmproxy.GetPeer network' (Key_String (PublicKey q)) g' = None) peers ->
        peer.SetPeersEndpointToProxy g' network' peers = peers).
Proof.
  intros run key. split; [|apply SetPeersEndpointToProxy_unregistered].
  intros Hok.
  destruct (AddNewPeer_success env g wgInterface network peer0 peerAddr isRelayed isExtClient
              isAttachedExtClient relayTo Hok)
    as (endpoint & ip & ep & la & conn & rPeer & _ & _ & _ & (pc & lc & Hstart & _)
        & Hconn & Hrpeer & _ & _ & Hla & _ & Hstatus).
  exists conn, rPeer, la. fold run in Hconn, Hrpeer, Hstatus. fold key in Hconn, Hrpeer.
  repeat split; try assumption.
  - exists pc, lc. exact Hstart.
  - intros Hon peers i q Hq Hkey. rewrite <- Hla.
    apply SetPeersEndpointToProxy_lookup; [congruence|assumption|].
    rewrite Hkey. exact Hconn.
  - intros Hoff peers. unfold peer.SetPeersEndpointToProxy.
    rewrite Hstatus, Hoff. reflexivity.
Qed.

(** A witness of C8: [peerB] is added; with the proxy enabled its
    endpoint is rewritten to the local socket 127.0.0.1:40001. *)
Lemma AddNewPeer_rewrite_witness :
  let run := peer.AddNewPeer (examples.proxyEnv false) (examples.emptyRegistry true)
               examples.wg0 "net1" examples.peerB "" false false false None in
  nmproxy.exit run = nmproxy.Returned None
  /\ Endpoint <$> peer.SetPeersEndpointToProxy (nmproxy.cfg_after run) "net1" [examples.peerB]
     = [Some (examples.localAddr 40001)]
  /\ exists conn, nmproxy.GetPeer "net1" "peerB=" (nmproxy.cfg_after run) = Some conn.
Proof.
  intros run. split; [reflexivity|]. split; [vm_compute; reflexivity|].
  destruct (proj1 (AddNewPeer_registers_and_endpoints_are_rewritten
                     (examples.proxyEnv false) (examples.emptyRegistry true)
                     examples.wg0 "net1" examples.peerB "" false false false None) eq_refl)
    as (conn & _ & _ & Hconn & _).
  exists conn. exact Hconn.
Defined.

(** * Printing and resolving an address (for claim C7) *)

Section TextLemmas.
Import net.

Lemma string_length_app (s1 s2 : string) :
  String.length (s1 +:+ s2) = (String.length s1 + String.length s2)%nat.
Proof. induction s1 as [|c s1 IH]; [reflexivity|]. rewrite append_cons. cbn. rewrite IH. reflexivity. Qed.

Lemma IndexByte_app_None (s1 s2 : string) (c : ascii) :
  IndexByte s1 c = None -> IndexByte s2 c = None -> IndexByte (s1 +:+ s2) c = None.
Proof.
  intros H1 H2. induction s1 as [|a s1 IH]; [exact H2|].
  rewrite append_cons. cbn [IndexByte] in *.
  destruct (Ascii.eqb a c); [discriminate|].
  destruct (IndexByte s1 c); [discriminate|]. rewrite IH; reflexivity.
Qed.

Lemma IndexByte_app_Some (s1 s2 : string) (c : ascii) :
  is_Some (IndexByte s2 c) -> is_Some (IndexByte (s1 +:+ s2) c).
Proof.
  intros H2. induction s1 as [|a s1 IH]; [exact H2|].
  rewrite append_cons. cbn [IndexByte].
  destruct (Ascii.eqb a c); [eauto|].
  destruct IH as [i ->]. cbn. eauto.
Qed.

Lemma LastIndexByte_None (s : string) (c : ascii) :
  IndexByte s c = None -> LastIndexByte s c = None.
Proof.
  induction s as [|a s IH]; [reflexivity|]. cbn.
  destruct (Ascii.eqb a c); [discriminate|].
  destruct (IndexByte s c); [discriminate|]. intros _. rewrite IH; reflexivity.
Qed.

(** The last [c] of [s1 c s2], when [s2] has none, is the one shown. *)
Lemma LastIndexByte_app (s1 s2 : string) (c : ascii) :
  IndexByte s2 c = None ->
  LastIndexByte (s1 +:+ String c s2) c = Some (String.length s1).
Proof.
  intros H2. induction s1 as [|a s1 IH].
  - rewrite append_nil. cbn [LastIndexByte String.length].
    rewrite (LastIndexByte_None _ _ H2), Ascii.eqb_refl. reflexivity.
  - rewrite append_cons. cbn [LastIndexByte String.length]. rewrite IH. reflexivity.
Qed.

Lemma take_app (s1 s2 : string) : strings.take (String.length s1) (s1 +:+ s2) = s1.
Proof. induction s1 as [|a s1 IH]; [destruct s2; reflexivity|]. rewrite append_cons. cbn. rewrite IH. reflexivity. Qed.

Lemma drop_app (s1 s2 : string) : strings.drop (String.length s1) (s1 +:+ s2) = s2.
Proof. induction s1 as [|a s1 IH]; [reflexivity|]. rewrite append_cons. cbn. exact IH. Qed.

Lemma drop_app_S (s1 s2 : string) (c : ascii) :
  strings.drop (S (String.length s1)) (s1 +:+ String c s2) = s2.
Proof. induction s1 as [|a s1 IH]; [reflexivity|]. rewrite append_cons. cbn. exact IH. Qed.

Lemma HasPrefix_app_bracket (s1 s2 : string) :
  IndexByte s1 "[" = None -> strings.HasPrefix s2 "[" = false ->
  strings.HasPrefix (s1 +:+ s2) "[" = false.
Proof.
  destruct s1 as [|a s1]; [intros _ H; exact H|].
  intros H1 _. rewrite append_cons. cbn [strings.HasPrefix]. cbn [IndexByte] in H1.
  rewrite (Ascii.eqb_sym "["%char a).
  destruct (Ascii.eqb a "["); [discriminate|reflexivity].
Qed.

(** [SplitHostPort] of a host and a port that hold no colon and no
    bracket. *)
Lemma SplitHostPort_plain (host port : string) :
  IndexByte host ":" = None -> IndexByte host "[" = None -> IndexByte host "]" = None ->
  IndexByte port ":" = None -> IndexByte port "[" = None -> IndexByte port "]" = None ->
  SplitHostPort (host +:+ String ":" port) = Ok (host, port).
Proof.
  intros Hc Hl Hr Pc Pl Pr. unfold SplitHostPort.
  rewrite (LastIndexByte_app _ _ _ Pc).
  rewrite HasPrefix_app_bracket; [|exact Hl|reflexivity].
  rewrite take_app, Hc.
  change (strings.drop O (host +:+ String ":" port)) with (host +:+ String ":" port).
  rewrite (IndexByte_app_None host (String ":" port) "[" Hl) by (cbn; rewrite Pl; reflexivity).
  rewrite (IndexByte_app_None host (String ":" port) "]" Hr) by (cbn; rewrite Pr; reflexivity).
  rewrite drop_app_S.
  rewrite !bool_decide_eq_false_2 by (intros [? ?]; discriminate). reflexivity.
Qed.

(** A host with a colon of its own and no bracket in front is
    refused. *)
Lemma SplitHostPort_colons (host port : string) :
  is_Some (IndexByte host ":") -> strings.HasPrefix (host +:+ String ":" port) "[" = false ->
  IndexByte port ":" = None ->
  SplitHostPort (host +:+ String ":" port) = Err "too many colons in address".
Proof.
  intros Hc Hl Pc. unfold SplitHostPort.
  rewrite (LastIndexByte_app _ _ _ Pc), Hl, take_app.
  rewrite bool_decide_eq_true_2 by exact Hc. reflexivity.
Qed.

End TextLemmas.

Section DecimalLemmas.
Import net.

Lemma decimalValue_valueFrom (s : string) : decimalValue s = valueFrom 0 s.
Proof.
  unfold decimalValue. generalize 0. induction s as [|c s IH]; intros a; [reflexivity|].
  cbn. apply IH.
Qed.

Lemma valueFrom_app (a : Z) (s1 s2 : string) :
  valueFrom a (s1 +:+ s2) = valueFrom (valueFrom a s1) s2.
Proof.
  revert a. induction s1 as [|c s1 IH]; intros a; [reflexivity|].
  rewrite append_cons. cbn [valueFrom]. apply IH.
Qed.

Lemma allDigits_cons (c : ascii) (s : string) :
  allDigits (String c s) = isDigit c && allDigits s.
Proof. reflexivity. Qed.

Lemma allDigits_app (s1 s2 : string) :
  allDigits (s1 +:+ s2) = allDigits s1 && allDigits s2.
Proof.
  induction s1 as [|c s1 IH]; [reflexivity|].
  rewrite append_cons, !allDigits_cons, IH, andb_assoc. reflexivity.
Qed.

Lemma digitChar_digit (m : N) :
  (m < 10)%N -> isDigit (digitChar m) = true /\ Z.of_N (N_of_ascii (digitChar m)) - 48 = Z.of_N m.
Proof.
  intros Hm. unfold digitChar, isDigit.
  rewrite N_ascii_embedding by lia.
  split; [|lia]. apply andb_true_intro. split; apply N.leb_le; lia.
Qed.

Lemma log2_div10 (n : N) :
  (n / 10 <> 0)%N -> (N.log2 (n / 10) < N.log2 n)%N.
Proof.
  intros Hq.
  assert (0 < n / 10)%N as Hpos by (apply N.neq_0_lt_0, Hq).
  apply N.lt_le_trans with (N.succ (N.log2 (n / 10))); [apply N.lt_succ_diag_r|].
  rewrite <- (N.log2_double _ Hpos).
  apply N.log2_le_mono.
  pose proof (N.Div0.mul_div_le n 10) as Hle.
  generalize dependent (n / 10)%N. intros q _ _ Hle. lia.
Qed.

(** [digits] writes the decimal digits of [n] before [acc]. *)
Lemma digits_spec (fuel : nat) (n : N) (acc : string) :
  (N.to_nat (N.log2 n) < fuel)%nat ->
  exists ds, digits fuel n acc = ds +:+ acc
             /\ allDigits ds = true
             /\ ds <> EmptyString
             /\ forall a, valueFrom a ds = a * 10 ^ Z.of_nat (String.length ds) + Z.of_N n.
Proof.
  revert n acc. induction fuel as [|fuel IH]; intros n acc Hfuel; [lia|].
  cbn [digits].
  assert (n mod 10 < 10)%N as Hmod by (apply N.mod_lt; lia).
  destruct (digitChar_digit _ Hmod) as [Hd Hv].
  destruct (N.eqb_spec (n / 10) 0) as [Hq|Hq].
  - exists (String (digitChar (n mod 10)) EmptyString).
    split; [reflexivity|]. split; [rewrite allDigits_cons, Hd; reflexivity|].
    split; [discriminate|]. intros a. cbn [valueFrom String.length]. rewrite Hv.
    pose proof (N.div_mod n 10). change (Z.of_nat 1) with 1. lia.
  - destruct (IH (n / 10)%N (String (digitChar (n mod 10)) acc)) as (ds & Hds & Hall & Hne & Hval).
    { pose proof (log2_div10 n Hq). lia. }
    exists (ds +:+ String (digitChar (n mod 10)) EmptyString).
    split; [|split; [|split]].
    + rewrite Hds. clear. induction ds as [|c ds IHds]; [reflexivity|].
      rewrite !append_cons, IHds. reflexivity.
    + rewrite allDigits_app, Hall, allDigits_cons, Hd. reflexivity.
    + destruct ds; [congruence|discriminate].
    + intros a. rewrite valueFrom_app, Hval. cbn [valueFrom]. rewrite Hv.
      rewrite string_length_app. cbn [String.length].
      rewrite Nat2Z.inj_add, Z.pow_add_r by lia. change (Z.of_nat 1) with 1.
      pose proof (N.div_mod n 10). rewrite N2Z.inj_div in *.
      assert (Z.of_N n = 10 * (Z.of_N n / 10) + Z.of_N (n mod 10)) by lia.
      change (Z.of_N 10) with 10. lia.
Qed.

(** The text of an unsigned number: digits, at least one, that read
    back as the number. *)
Lemma uitoa_spec (n : N) :
  allDigits (uitoa n) = true /\ uitoa n <> EmptyString /\ decimalValue (uitoa n) = Z.of_N n.
Proof.
  unfold uitoa.
  destruct (digits_spec (S (N.to_nat (N.log2 n))) n EmptyString) as (ds & Hds & Hall & Hne & Hval);
    [lia|].
  assert (ds +:+ EmptyString = ds) as Hnil
    by (clear; induction ds as [|c ds IH]; [reflexivity|rewrite append_cons, IH; reflexivity]).
  rewrite Hds, Hnil. split; [exact Hall|]. split; [exact Hne|].
  rewrite decimalValue_valueFrom, Hval. lia.
Qed.

Lemma allDigits_IndexByte (s : string) (c : ascii) :
  allDigits s = true -> isDigit c = false -> IndexByte s c = None.
Proof.
  intros Hall Hc. induction s as [|a s IH]; [reflexivity|].
  rewrite allDigits_cons in Hall. apply andb_prop in Hall as [Ha Hall].
  cbn [IndexByte]. destruct (Ascii.eqb_spec a c) as [->|_]; [congruence|].
  rewrite (IH Hall). reflexivity.
Qed.

(** The text of an [int] holds no byte that is neither a digit nor the
    minus sign. *)
Lemma itoa_IndexByte (z : Z) (c : ascii) :
  isDigit c = false -> c <> "-"%char -> IndexByte (itoa z) c = None.
Proof.
  intros Hc Hminus. unfold itoa. destruct (z <? 0).
  - cbn [IndexByte]. destruct (Ascii.eqb_spec "-"%char c) as [<-|_]; [congruence|].
    rewrite (allDigits_IndexByte _ _ (proj1 (uitoa_spec _)) Hc). reflexivity.
  - apply allDigits_IndexByte; [apply uitoa_spec|exact Hc].
Qed.

(** Reading the port that [%d] wrote: the port itself when it is one,
    an error otherwise. *)
Lemma parsePort_itoa (r : Resolver) (port : Z) :
  parsePort r (itoa port)
  = if (0 <=? port) && (port <=? 65535) then Ok port else Err "invalid port".
Proof.
  unfold itoa. destruct (Z.ltb_spec port 0) as [Hneg|Hpos].
  - destruct (uitoa_spec (Z.to_N (- port))) as (Hall & _ & Hval).
    cbn [parsePort]. change (Ascii.eqb "-" "+") with false. rewrite Ascii.eqb_refl.
    cbv beta iota. rewrite Hall, Hval, Z2N.id by lia.
    replace (- - port) with port by lia.
    destruct (Z.leb_spec 0 port); [lia|reflexivity].
  - destruct (uitoa_spec (Z.to_N port)) as (Hall & Hne & Hval).
    destruct (uitoa (Z.to_N port)) as [|d rest] eqn:Hu; [congruence|].
    cbn [parsePort].
    rewrite allDigits_cons in Hall. apply andb_prop in Hall as [Hd Hrest].
    assert (Ascii.eqb d "+" = false) as Hplus
      by (destruct (Ascii.eqb_spec d "+") as [->|]; [discriminate|reflexivity]).
    assert (Ascii.eqb d "-" = false) as Hminus
      by (destruct (Ascii.eqb_spec d "-") as [->|]; [discriminate|reflexivity]).
    rewrite Hplus, Hminus. cbv beta iota.
    rewrite allDigits_cons, Hd, Hrest, Hval, Z2N.id by lia. reflexivity.
Qed.

End DecimalLemmas.

Section AddressLemmas.
Import net.

(** One field of a dotted address is read back as the byte it
    prints. *)
Lemma parseIPv4_first (n : nat) (b : byte) (r : string) :
  parseIPv4_fields (S n) true (uitoa (Byte.to_N b) +:+ String "." r)
  = tl ← parseIPv4_fields n false (String "." r); Some (b :: tl).
Proof. destruct b; reflexivity. Qed.

Lemma parseIPv4_next (n : nat) (b : byte) (r : string) :
  parseIPv4_fields (S n) false (String "." (uitoa (Byte.to_N b) +:+ String "." r))
  = tl ← parseIPv4_fields n false (String "." r); Some (b :: tl).
Proof. destruct b; reflexivity. Qed.

Lemma parseIPv4_last (b : byte) :
  parseIPv4_fields 1 false (String "." (uitoa (Byte.to_N b))) = Some [b].
Proof. destruct b; reflexivity. Qed.

(** [parseIPv4] reads a dotted address back, in 16-byte form. *)
Lemma parseIPv4_string4 (a b c d : byte) :
  parseIPv4 (string4 [a; b; c; d]) = Some (IPv4 a b c d).
Proof.
  unfold parseIPv4.
  change (string4 [a; b; c; d])
    with (uitoa (Byte.to_N a) +:+ String "."
            (uitoa (Byte.to_N b) +:+ String "."
               (uitoa (Byte.to_N c) +:+ String "." (uitoa (Byte.to_N d))))).
  rewrite parseIPv4_first, parseIPv4_next, parseIPv4_next, parseIPv4_last. reflexivity.
Qed.

Lemma string4_IndexByte (a b c d : byte) (x : ascii) :
  isDigit x = false -> x <> "."%char -> IndexByte (string4 [a; b; c; d]) x = None.
Proof.
  intros Hx Hdot.
  assert (forall n, IndexByte (uitoa n) x = None) as Hnum
    by (intros n; apply allDigits_IndexByte; [apply uitoa_spec|exact Hx]).
  assert (IndexByte "." x = None) as Hsep.
  { cbn [IndexByte]. destruct (Ascii.eqb_spec "."%char x) as [<-|_]; [congruence|reflexivity]. }
  unfold string4. repeat apply IndexByte_app_None; auto.
Qed.

End AddressLemmas.

Section ResolveLemmas.
Import net.

Lemma hexDigit_plain (n : N) (x : ascii) :
  x = ":"%char \/ x = "["%char \/ x = "]"%char -> Ascii.eqb (hexDigit n) x = false.
Proof.
  intros Hx. unfold hexDigit. generalize (N.to_nat n). intros k.
  do 16 (destruct k as [|k]; [destruct Hx as [->|[->| ->]]; reflexivity|]).
  destruct k; destruct Hx as [->|[->| ->]]; reflexivity.
Qed.

Lemma hexString_IndexByte (p : list byte) (x : ascii) :
  x = ":"%char \/ x = "["%char \/ x = "]"%char -> IndexByte (hexString p) x = None.
Proof.
  intros Hx. induction p as [|b p IH]; [reflexivity|].
  cbn [hexString IndexByte]. rewrite !(hexDigit_plain _ _ Hx), IH. reflexivity.
Qed.

Lemma appendHex_IndexByte (g : N) (x : ascii) :
  x = ":"%char \/ x = "["%char \/ x = "]"%char -> IndexByte (appendHex g) x = None.
Proof.
  intros Hx. unfold appendHex. destruct (N.eqb g 0).
  - destruct Hx as [->|[->| ->]]; reflexivity.
  - cbn [flat_map].
    repeat match goal with
           | |- context [if N.ltb 0 ?v then _ else _] => destruct (N.ltb 0 v)
           end;
      cbn [app string_of_list_ascii IndexByte]; rewrite ?(hexDigit_plain _ _ Hx); reflexivity.
Qed.

Lemma append_assoc (a b c : string) : (a +:+ b) +:+ c = a +:+ (b +:+ c).
Proof. induction a as [|x a IH]; [reflexivity|]. rewrite !append_cons, IH. reflexivity. Qed.

Lemma print6_step (fuel i : nat) (gs : list N) (zero : nat * nat) :
  print6 (S fuel) i gs zero
  = if Nat.leb 8 i then EmptyString
    else if Nat.eqb i zero.1 then
      String ":" (String ":"
        (if Nat.leb 8 zero.2 then EmptyString
         else appendHex (nth zero.2 gs 0%N) +:+ print6 fuel (S zero.2) gs zero))
    else
      (if Nat.ltb 0 i then ":" else EmptyString)
      +:+ appendHex (nth i gs 0%N) +:+ print6 fuel (S i) gs zero.
Proof. reflexivity. Qed.

(** The text of an IPv6 address holds a colon and does not start with
    a bracket. *)
Lemma print6_colon (gs : list N) (zero : nat * nat) (rest : string) :
  is_Some (IndexByte (print6 8 0 gs zero) ":")
  /\ strings.HasPrefix (print6 8 0 gs zero +:+ String ":" rest) "[" = false.
Proof.
  rewrite print6_step. change (Nat.leb 8 0) with false. change (Nat.ltb 0 0) with false.
  cbv iota. destruct (Nat.eqb 0 zero.1).
  - split; [cbn [IndexByte]; rewrite Ascii.eqb_refl; eauto|reflexivity].
  - rewrite append_nil, print6_step.
    change (Nat.leb 8 1) with false. change (Nat.ltb 0 1) with true. cbv iota.
    assert (forall s, strings.HasPrefix
                        ((appendHex (nth 0 gs 0%N) +:+ String ":" s) +:+ String ":" rest) "["
                      = false) as Hbracket.
    { intros s. rewrite append_assoc.
      apply HasPrefix_app_bracket; [apply appendHex_IndexByte; auto|reflexivity]. }
    assert (forall s, is_Some (IndexByte (appendHex (nth 0 gs 0%N) +:+ String ":" s) ":"))
      as Hcolon.
    { intros s. apply IndexByte_app_Some. cbn [IndexByte]. rewrite Ascii.eqb_refl. eauto. }
    destruct (Nat.eqb 1 zero.1); split; first [apply Hcolon | apply Hbracket].
Qed.

End ResolveLemmas.

Section ResolveSprintf.
Import net.

Lemma to_N_inj (b b' : byte) : Byte.to_N b = Byte.to_N b' -> b = b'.
Proof.
  intros H. pose proof (Byte.of_to_N b) as Hb. rewrite H, Byte.of_to_N in Hb. congruence.
Qed.

Lemma bytesEqual_refl (p : list byte) : bytesEqual p p = true.
Proof.
  induction p as [|b p IH]; [reflexivity|]. cbn [bytesEqual].
  rewrite IH, (Byte.byte_dec_lb eq_refl). reflexivity.
Qed.

(** An address that [To4] accepts is a.b.c.d in 4 bytes or in 16, and
    [To16] and [Equal] see the 16-byte form of a.b.c.d as the same
    address. *)
Lemma To4_Some (ip p4 : IP) :
  To4 ip = Some p4 ->
  exists a b c d,
    p4 = [a; b; c; d] /\ To16 ip = Some (IPv4 a b c d) /\ Equal (IPv4 a b c d) ip = true.
Proof.
  unfold To4. destruct (Nat.eqb (length ip) IPv4len) eqn:H4.
  - intros [= <-]. apply Nat.eqb_eq in H4.
    do 4 (destruct ip as [|? ip]; [discriminate|]). destruct ip; [|discriminate].
    eexists _, _, _, _. split; [reflexivity|]. split; [reflexivity|].
    unfold Equal. cbn [length IPv4 app v4InV6Prefix Nat.eqb IPv4len IPv6len andb take drop].
    rewrite !bytesEqual_refl. reflexivity.
  - destruct (Nat.eqb (length ip) IPv6len) eqn:H6; [|discriminate]. cbn [andb].
    apply Nat.eqb_eq in H6.
    do 16 (destruct ip as [|? ip]; [discriminate|]). destruct ip; [|discriminate].
    cbn [take isZeros forallb at_ nth drop].
    intros H.
    repeat match type of H with
           | (if ?x then _ else _) = _ => destruct x eqn:?; [|discriminate]
           end.
    injection H as <-. unfold at_ in *. cbn [nth] in *.
    repeat match goal with
           | H : (_ && _) = true |- _ => apply andb_prop in H as [? ?]
           | H : N.eqb (Byte.to_N ?b) 0 = true |- _ =>
               apply N.eqb_eq in H; apply (to_N_inj b x00) in H; subst b
           | H : N.eqb (Byte.to_N ?b) 255 = true |- _ =>
               apply N.eqb_eq in H; apply (to_N_inj b xff) in H; subst b
           end.
    eexists _, _, _, _. split; [reflexivity|]. split; [reflexivity|].
    unfold Equal. cbn [length Nat.eqb IPv4 app v4InV6Prefix].
    apply bytesEqual_refl.
Qed.

Lemma To4_None_length (ip : IP) :
  To4 ip = None -> Nat.eqb (length ip) IPv4len = false.
Proof. unfold To4. destruct (Nat.eqb (length ip) IPv4len); [discriminate|reflexivity]. Qed.

Lemma string4_nonempty (a b c d : byte) : string4 [a; b; c; d] <> EmptyString.
Proof.
  unfold string4. destruct (uitoa_spec (at_ [a; b; c; d] 0)) as (_ & Hne & _).
  destruct (uitoa (at_ [a; b; c; d] 0)); [congruence|]. rewrite append_cons. discriminate.
Qed.

(** Resolving the text that [Sprintf("%s:%d", ip, port)] writes
    succeeds only for an IPv4 address and a port of 16 bits, and then
    answers that address, in 16-byte form, and that port. *)
Lemma ResolveUDPAddr_Sprintf (r : Resolver) (ip : IP) (port : Z) (ep : UDPAddr) :
  ResolveUDPAddr r (Sprintf_s_d ip port) = Ok ep ->
  Port ep = port
  /\ 0 <= port <= 65535
  /\ To16 ip = Some (UDPAddr_IP ep)
  /\ Equal (UDPAddr_IP ep) ip = true.
Proof.
  assert (forall x, x = ":"%char \/ x = "["%char \/ x = "]"%char ->
                    IndexByte (itoa port) x = None) as Hport.
  { intros x [->|[->| ->]]; apply itoa_IndexByte; first [reflexivity | discriminate]. }
  unfold Sprintf_s_d, ResolveUDPAddr.
  change (IP_String ip +:+ ":" +:+ itoa port) with (IP_String ip +:+ String ":" (itoa port)).
  unfold IP_String.
  destruct (Nat.eqb (length ip) 0) eqn:H0; [|
  destruct (negb (Nat.eqb (length ip) IPv4len) && negb (Nat.eqb (length ip) IPv6len)) eqn:Hlen;
    [|destruct (To4 ip) as [p4|] eqn:H4]].
  - (* the nil address prints as <nil>, which is no host name *)
    rewrite SplitHostPort_plain by (first [reflexivity | apply Hport; auto]).
    rewrite parsePort_itoa.
    destruct ((0 <=? port) && (port <=? 65535)); discriminate.
  - (* an address of another length prints as ?hex, which is no host name *)
    rewrite SplitHostPort_plain
      by (first [ apply Hport; auto
                | cbn [IndexByte]; rewrite hexString_IndexByte by auto; reflexivity ]).
    rewrite parsePort_itoa.
    destruct ((0 <=? port) && (port <=? 65535)); [|discriminate].
    change (parseIPv4 (String "?" (hexString ip))) with (@None IP).
    change (hasDomainNameBytes (String "?" (hexString ip))) with false.
    change (IndexByte (String "?" (hexString ip)) ":")
      with (S <$> IndexByte (hexString ip) ":").
    rewrite hexString_IndexByte by auto. discriminate.
  - (* an IPv4 address *)
    destruct (To4_Some _ _ H4) as (a & b & c & d & -> & H16 & Heq).
    rewrite SplitHostPort_plain
      by (first [ apply Hport; auto
                | apply string4_IndexByte; first [reflexivity | discriminate] ]).
    rewrite parsePort_itoa.
    destruct ((0 <=? port) && (port <=? 65535)) eqn:Hrange; [|discriminate].
    rewrite (bool_decide_eq_false_2 _ (string4_nonempty a b c d)), parseIPv4_string4.
    intros [= <-]. cbn [Port UDPAddr_IP].
    apply andb_prop in Hrange as [Hlo Hhi]. apply Z.leb_le in Hlo, Hhi.
    repeat split; assumption.
  - (* an IPv6 address has colons of its own *)
    unfold string6.
    destruct (print6_colon (v6u16 ip) (longestZeroRun 0 (v6u16 ip) (255, 255)%nat)
                (itoa port)) as [Hcolon Hbracket].
    rewrite SplitHostPort_colons by (first [assumption | apply Hport; auto]).
    discriminate.
Qed.

End ResolveSprintf.

(** An IPv6 address never resolves: its text has colons of its own and
    [Sprintf] writes no brackets around it. *)
Lemma ResolveUDPAddr_Sprintf_IPv6 (r : net.Resolver) (ip : net.IP) (port : Z) :
  length ip = net.IPv6len -> net.To4 ip = None ->
  net.ResolveUDPAddr r (net.Sprintf_s_d ip port) = Err "too many colons in address".
Proof.
  intros Hlen H4.
  unfold net.Sprintf_s_d, net.ResolveUDPAddr.
  change (net.IP_String ip +:+ ":" +:+ net.itoa port)
    with (net.IP_String ip +:+ String ":" (net.itoa port)).
  unfold net.IP_String. rewrite Hlen, H4. cbn [Nat.eqb net.IPv6len net.IPv4len negb andb].
  unfold net.string6.
  destruct (print6_colon (net.v6u16 ip)
              (net.longestZeroRun 0 (net.v6u16 ip) (255, 255)%nat) (net.itoa port))
    as [Hcolon Hbracket].
  rewrite SplitHostPort_colons; [reflexivity|assumption|assumption|].
  apply itoa_IndexByte; first [reflexivity | discriminate].
Qed.

(** C7.  After a successful [AddNewPeer], the connection saved under
    the network and the remote peer saved under the hash of the key
    hold the same resolved endpoint.  Its port is the peer's own
    advertised port when the peer is an externally-attached client
    (an external client that is attached) and the proxy's well-known
    port otherwise.  Its address is the relay target's when the peer
    is marked relayed and the peer's own advertised one otherwise: the
    16-byte form of that address, equal to it as an address. *)
Theorem AddNewPeer_endpoint_port_and_address
    (env : nmproxy.ProxyEnv) (g : nmproxy.GlobalCfg) (wgInterface : nmproxy.WGIface)
    (network : string) (peer0 : PeerConfig) (peerAddr : string)
    (isRelayed isExtClient isAttachedExtClient : bool) (relayTo : option net.UDPAddr) :
  let run := peer.AddNewPeer env g wgInterface network peer0 peerAddr isRelayed isExtClient
               isAttachedExtClient relayTo in
  let key := Key_String (PublicKey peer0) in
  nmproxy.exit run = nmproxy.Returned None ->
  exists (endpoint : net.UDPAddr) (ip : net.IP) (ep : net.UDPAddr)
         (conn : nmproxy.Conn) (rPeer : nmproxy.RemotePeer),
    Endpoint peer0 = Some endpoint
    /\ spec_endpointIP endpoint isRelayed relayTo = Some ip
    /\ nmproxy.GetPeer network key (nmproxy.cfg_after run) = Some conn
    /\ nmproxy.PeerEndpoint (nmproxy.Config conn) = Some ep
    /\ nmproxy.GetPeerByHash env key (nmproxy.cfg_after run) = Some rPeer
    /\ nmproxy.RemotePeer_Endpoint rPeer = Some ep
    /\ net.Port ep = spec_peerPort env endpoint isExtClient isAttachedExtClient
    /\ net.To16 ip = Some (net.UDPAddr_IP ep)
    /\ net.Equal (net.UDPAddr_IP ep) ip = true.
Proof.
  intros run key Hok.
  destruct (AddNewPeer_success env g wgInterface network peer0 peerAddr isRelayed isExtClient
              isAttachedExtClient relayTo Hok)
    as (endpoint & ip & ep & la & conn & rPeer & Hendpoint & Hip & Hresolve & _
        & Hconn & Hrpeer & Hcep & Hrep & _).
  destruct (ResolveUDPAddr_Sprintf _ _ _ _ Hresolve) as (Hport & _ & H16 & Heq).
  exists endpoint, ip, ep, conn, rPeer. repeat split; assumption.
Qed.

(** A witness of C7: [peerB], relayed through 198.51.100.1, is stored
    with the endpoint 198.51.100.1 and the proxy's port 51722. *)
Lemma AddNewPeer_endpoint_witness :
  let run := peer.AddNewPeer (examples.proxyEnv false) (examples.emptyRegistry true)
               examples.wg0 "net1" examples.peerB "" true false false
               (Some examples.relayAddr) in
  exists (ep : net.UDPAddr) (conn : nmproxy.Conn),
    nmproxy.GetPeer "net1" "peerB=" (nmproxy.cfg_after run) = Some conn
    /\ nmproxy.PeerEndpoint (nmproxy.Config conn) = Some ep
    /\ net.Port ep = 51722
    /\ net.Equal (net.UDPAddr_IP ep) [xc6; x33; x64; x01] = true.
Proof.
  intros run.
  destruct (AddNewPeer_endpoint_port_and_address
              (examples.proxyEnv false) (examples.emptyRegistry true)
              examples.wg0 "net1" examples.peerB "" true false false
              (Some examples.relayAddr) eq_refl)
    as (endpoint & ip & ep & conn & rPeer & Hendpoint & Hip & Hconn & Hcep & _ & _
        & Hport & _ & Heq).
  injection Hip as <-.
  exists ep, conn. repeat split; assumption.
Defined.

(** * Further properties of [peer.go] *)

(** Resolving the text that [Sprintf("%s:%d", ip, port)] writes for an
    IPv4 address and a port of 16 bits answers that address, in 16-byte
    form, and that port. *)
Lemma ResolveUDPAddr_Sprintf_IPv4 (r : net.Resolver) (ip p4 : net.IP) (port : Z) :
  net.To4 ip = Some p4 -> 0 <= port <= 65535 ->
  exists ip16,
    net.To16 ip = Some ip16
    /\ net.ResolveUDPAddr r (net.Sprintf_s_d ip port)
       = Ok {| net.UDPAddr_IP := ip16; net.Port := port |}.
Proof.
  intros H4 Hport.
  assert (forall x, x = ":"%char \/ x = "["%char \/ x = "]"%char ->
                    net.IndexByte (net.itoa port) x = None) as Hdigits.
  { intros x [->|[->| ->]]; apply itoa_IndexByte; first [reflexivity | discriminate]. }
  assert (Nat.eqb (length ip) 0 = false
          /\ negb (Nat.eqb (length ip) net.IPv4len) && negb (Nat.eqb (length ip) net.IPv6len)
             = false) as [H0 Hlen].
  { unfold net.To4 in H4. destruct (Nat.eqb (length ip) net.IPv4len) eqn:Hl4.
    - apply Nat.eqb_eq in Hl4. rewrite Hl4. split; reflexivity.
    - destruct (Nat.eqb (length ip) net.IPv6len) eqn:Hl6; [|discriminate].
      apply Nat.eqb_eq in Hl6. rewrite Hl6. split; reflexivity. }
  destruct (To4_Some _ _ H4) as (a & b & c & d & -> & H16 & _).
  exists (net.IPv4 a b c d). split; [exact H16|].
  unfold net.Sprintf_s_d, net.ResolveUDPAddr.
  change (net.IP_String ip +:+ ":" +:+ net.itoa port)
    with (net.IP_String ip +:+ String ":" (net.itoa port)).
  unfold net.IP_String. rewrite H0, Hlen, H4.
  rewrite SplitHostPort_plain
    by (first [ apply Hdigits; auto
              | apply string4_IndexByte; first [reflexivity | discriminate] ]).
  rewrite parsePort_itoa.
  replace ((0 <=? port) && (port <=? 65535)) with true
    by (symmetry; apply andb_true_intro; split; apply Z.leb_le; lia).
  rewrite (bool_decide_eq_false_2 _ (string4_nonempty a b c d)), parseIPv4_string4.
  reflexivity.
Qed.

(** [AddNewPeer] on a proxy that starts succeeds exactly when the peer
    has an endpoint, a relayed peer has a relay target, the address to
    resolve (the relay target's or the peer's own) is an IPv4 address,
    in 4 or in 16 bytes, and the port to resolve (the peer's own for an
    attached external client, the proxy's otherwise) is one of 16 bits.
    An IPv6 address, written without brackets, is never resolved. *)
Theorem AddNewPeer_succeeds_exactly_for_IPv4_endpoints
    (env : nmproxy.ProxyEnv) (g : nmproxy.GlobalCfg) (wgInterface : nmproxy.WGIface)
    (network : string) (peer0 : PeerConfig) (peerAddr : string)
    (isRelayed isExtClient isAttachedExtClient : bool) (relayTo : option net.UDPAddr) :
  (forall pc, exists started, nmproxy.Start env pc = Ok started) ->
  nmproxy.exit (peer.AddNewPeer env g wgInterface network peer0 peerAddr isRelayed isExtClient
                  isAttachedExtClient relayTo) = nmproxy.Returned None
  <-> exists (endpoint : net.UDPAddr) (ip : net.IP),
        Endpoint peer0 = Some endpoint
        /\ (if isRelayed then net.UDPAddr_IP <$> relayTo else Some (net.UDPAddr_IP endpoint))
           = Some ip
        /\ is_Some (net.To4 ip)
        /\ 0 <= (if isExtClient && isAttachedExtClient then net.Port endpoint
                 else nmproxy.NmProxyPort env) <= 65535.
Proof.
  intros Hstart. split.
  - intros Hok.
    destruct (AddNewPeer_success env g wgInterface network peer0 peerAddr isRelayed isExtClient
                isAttachedExtClient relayTo Hok)
      as (endpoint & ip & ep & la & conn & rPeer & Hendpoint & Hip & Hresolve & _).
    exists endpoint, ip. split; [exact Hendpoint|]. split; [exact Hip|].
    destruct (ResolveUDPAddr_Sprintf _ _ _ _ Hresolve) as (_ & Hport & H16 & _).
    split; [|exact Hport].
    destruct (net.To4 ip) as [p4|] eqn:H4; [eexists; reflexivity|].
    assert (length ip = net.IPv6len) as Hlen.
    { unfold net.To16 in H16. rewrite (To4_None_length _ H4) in H16.
      destruct (Nat.eqb (length ip) net.IPv6len) eqn:H6; [|discriminate].
      apply Nat.eqb_eq, H6. }
    rewrite (ResolveUDPAddr_Sprintf_IPv6 _ _ _ Hlen H4) in Hresolve. discriminate.
  - intros (endpoint & ip & Hendpoint & Hip & [p4 H4] & Hport).
    destruct (ResolveUDPAddr_Sprintf_IPv4 (nmproxy.resolver env) ip p4 _ H4 Hport)
      as (ip16 & _ & Hresolve).
    unfold peer.AddNewPeer.
    destruct (PersistentKeepaliveInterval peer0);
      cbn [Endpoint with_PersistentKeepaliveInterval]; rewrite Hendpoint;
      (destruct isRelayed;
       [destruct relayTo as [relay|]; [|discriminate]; injection Hip as <-
       |injection Hip as <-]);
      rewrite Hresolve;
      match goal with
      | |- context [nmproxy.Start env ?pc] => destruct (Hstart pc) as [[lc la] ->]
      end; reflexivity.
Qed.

(** A witness: [peerB] advertises 203.0.113.9 and is given the proxy's
    port 51722. *)
Lemma AddNewPeer_succeeds_witness :
  nmproxy.exit (peer.AddNewPeer (examples.proxyEnv false) (examples.emptyRegistry true)
                  examples.wg0 "net1" examples.peerB "" false false false None)
  = nmproxy.Returned None.
Proof.
  apply (proj2 (AddNewPeer_succeeds_exactly_for_IPv4_endpoints
                  (examples.proxyEnv false) (examples.emptyRegistry true)
                  examples.wg0 "net1" examples.peerB "" false false false None
                  (fun _ => ex_intro _ (7%nat, examples.localAddr 40001) eq_refl))).
  exists {| net.UDPAddr_IP := [xcb; x00; x71; x09]; net.Port := 51820 |}, [xcb; x00; x71; x09].
  split; [reflexivity|]. split; [reflexivity|]. split; [eexists; reflexivity|].
  cbn. lia.
Defined.

(** [AddNewPeer] gives a peer without a keepalive interval one of 25
    seconds and leaves an interval that is set: the caller's peer
    carries that interval after the call, however it ends, and is
    otherwise as it was; the connection a successful call saves carries
    it too. *)
Theorem AddNewPeer_keepalive_defaults_to_25_seconds
    (env : nmproxy.ProxyEnv) (g : nmproxy.GlobalCfg) (wgInterface : nmproxy.WGIface)
    (network : string) (peer0 : PeerConfig) (peerAddr : string)
    (isRelayed isExtClient isAttachedExtClient : bool) (relayTo : option net.UDPAddr) :
  let run := peer.AddNewPeer env g wgInterface network peer0 peerAddr isRelayed isExtClient
               isAttachedExtClient relayTo in
  let interval := default (Second * 25) (PersistentKeepaliveInterval peer0) in
  nmproxy.peer_after run = with_PersistentKeepaliveInterval (Some interval) peer0
  /\ (nmproxy.exit run = nmproxy.Returned None ->
      exists conn,
        nmproxy.GetPeer network (Key_String (PublicKey peer0)) (nmproxy.cfg_after run)
        = Some conn
        /\ nmproxy.PersistentKeepalive (nmproxy.Config conn) = Some interval
        /\ nmproxy.PeerConf (nmproxy.Config conn) = nmproxy.peer_after run).
Proof.
  intros run interval. subst run interval. unfold peer.AddNewPeer.
  destruct peer0 as [key endpoint [d|] allowed];
    cbn [Endpoint PublicKey PersistentKeepaliveInterval with_PersistentKeepaliveInterval
         default AllowedIPs];
    (destruct endpoint as [endpoint|]; [|split; [reflexivity|discriminate]]);
    (destruct isRelayed;
     [destruct relayTo as [relay|]; [|split; [reflexivity|discriminate]]|]);
    (destruct (net.ResolveUDPAddr _ _) as [ep|]; [|split; [reflexivity|discriminate]]);
    (destruct (nmproxy.Start env _) as [[lc la]|]; [|split; [reflexivity|discriminate]]);
    (split; [reflexivity|]); intros _; eexists;
    destruct isAttachedExtClient; cbn [nmproxy.cfg_after nmproxy.peer_after];
    unfold nmproxy.GetPeer, nmproxy.SaveExtClientInfo, nmproxy.SavePeerByHash, nmproxy.SavePeer;
    cbn [nmproxy.networkPeerMap nmproxy.Conn_Key PublicKey];
    rewrite lookup_insert_eq; repeat split; reflexivity.
Qed.

(** A witness: [peerB] leaves its keepalive interval unset and is saved
    with one of 25 seconds. *)
Lemma AddNewPeer_keepalive_witness :
  exists conn,
    nmproxy.GetPeer "net1" "peerB="
      (nmproxy.cfg_after
         (peer.AddNewPeer (examples.proxyEnv false) (examples.emptyRegistry true)
            examples.wg0 "net1" examples.peerB "" false false false None))
    = Some conn
    /\ nmproxy.PersistentKeepalive (nmproxy.Config conn) = Some 25000000000.
Proof.
  destruct (proj2 (AddNewPeer_keepalive_defaults_to_25_seconds
                     (examples.proxyEnv false) (examples.emptyRegistry true)
                     examples.wg0 "net1" examples.peerB "" false false false None) eq_refl)
    as (conn & Hconn & Hkeep & _).
  exists conn. split; [exact Hconn|exact Hkeep].
Defined.

(** A peer without an endpoint makes [AddNewPeer] panic on the [nil]
    pointer, also when the peer is relayed and only the relay target's
    address would be resolved; nothing is registered. *)
Theorem AddNewPeer_panics_without_endpoint
    (env : nmproxy.ProxyEnv) (g : nmproxy.GlobalCfg) (wgInterface : nmproxy.WGIface)
    (network : string) (peer0 : PeerConfig) (peerAddr : string)
    (isRelayed isExtClient isAttachedExtClient : bool) (relayTo : option net.UDPAddr) :
  let run := peer.AddNewPeer env g wgInterface network peer0 peerAddr isRelayed isExtClient
               isAttachedExtClient relayTo in
  Endpoint peer0 = None ->
  (exists why, nmproxy.exit run = nmproxy.Panicked why) /\ nmproxy.cfg_after run = g.
Proof.
  intros run Hnil. subst run. unfold peer.AddNewPeer.
  destruct (PersistentKeepaliveInterval peer0);
    cbn [Endpoint with_PersistentKeepaliveInterval]; rewrite Hnil;
    (split; [eexists|]; reflexivity).
Qed.

(** A witness: [peerA] has no endpoint; relayed through 198.51.100.1 it
    still panics. *)
Lemma AddNewPeer_panics_witness :
  exists why,
    nmproxy.exit (peer.AddNewPeer (examples.proxyEnv false) (examples.emptyRegistry true)
                    examples.wg0 "net1" examples.peerA "" true false false
                    (Some examples.relayAddr))
    = nmproxy.Panicked why.
Proof.
  apply (proj1 (AddNewPeer_panics_without_endpoint
                  (examples.proxyEnv false) (examples.emptyRegistry true)
                  examples.wg0 "net1" examples.peerA "" true false false
                  (Some examples.relayAddr) eq_refl)).
Defined.

(** [SetPeersEndpointToProxy] answers a list of the same length whose
    peers keep their key, keepalive interval and allowed IPs; an
    endpoint either stays or, with the proxy enabled, becomes the local
    address of the connection registered for the peer in the network.
    Rewriting a second time changes nothing more. *)
Theorem SetPeersEndpointToProxy_rewrites_endpoints_only
    (g : nmproxy.GlobalCfg) (network : string) (peers : list PeerConfig) :
  let peers' := peer.SetPeersEndpointToProxy g network peers in
  length peers' = length peers
  /\ (forall i q', peers' !! i = Some q' ->
        exists q,
          peers !! i = Some q
          /\ PublicKey q' = PublicKey q
          /\ PersistentKeepaliveInterval q' = PersistentKeepaliveInterval q
          /\ AllowedIPs q' = AllowedIPs q
          /\ (q' = q
              \/ exists conn,
                   nmproxy.ProxyStatus g = true
                   /\ nmproxy.GetPeer network (Key_String (PublicKey q)) g = Some conn
                   /\ Endpoint q' = nmproxy.LocalConnAddr (nmproxy.Config conn)))
  /\ peer.SetPeersEndpointToProxy g network peers' = peers'.
Proof.
  intros peers'. subst peers'. unfold peer.SetPeersEndpointToProxy.
  destruct (nmproxy.ProxyStatus g); cbn [negb].
  2:{ split; [reflexivity|]. split; [|reflexivity].
      intros i q' Hq'. exists q'. repeat split; auto. }
  split; [apply length_fmap|]. split.
  - intros i q' Hq'. rewrite list_lookup_fmap in Hq'.
    destruct (peers !! i) as [q|]; [|discriminate]. injection Hq' as <-.
    exists q. split; [reflexivity|].
    destruct (nmproxy.GetPeer network (Key_String (PublicKey q)) g) as [conn|] eqn:Hconn.
    + repeat split. right. exists conn. repeat split.
    + repeat split. left. reflexivity.
  - rewrite <- list_fmap_compose. apply list_fmap_ext. intros i q _. cbn.
    destruct (nmproxy.GetPeer network (Key_String (PublicKey q)) g) as [conn|] eqn:Hconn.
    + cbn [with_Endpoint PublicKey]. rewrite Hconn. reflexivity.
    + rewrite Hconn. reflexivity.
Qed.

(** * Further properties of endpoint detection *)

Section LoopbackText.
Import net.

Lemma HasPrefix_split (s p : string) :
  strings.HasPrefix s p = true -> exists post, s = p +:+ post.
Proof.
  revert s. induction p as [|c p IH]; intros s H.
  - exists s. reflexivity.
  - destruct s as [|a s]; [discriminate|]. cbn [strings.HasPrefix] in H.
    apply andb_prop in H as [Hc Hp]. apply Ascii.eqb_eq in Hc. subst a.
    destruct (IH s Hp) as [post ->]. exists post. rewrite append_cons. reflexivity.
Qed.

Lemma HasPrefix_app (p post : string) : strings.HasPrefix (p +:+ post) p = true.
Proof.
  induction p as [|c p IH]; [destruct post; reflexivity|].
  rewrite append_cons. cbn [strings.HasPrefix]. rewrite Ascii.eqb_refl. exact IH.
Qed.

Lemma Index_split (s n : string) (i : nat) :
  strings.Index s n = Some i -> exists pre post, s = pre +:+ n +:+ post.
Proof.
  revert i. induction s as [|a s IH]; intros i; cbn [strings.Index].
  - destruct (strings.HasPrefix EmptyString n) eqn:Hp; [|discriminate].
    intros _. destruct (HasPrefix_split _ _ Hp) as [post ->]. exists EmptyString, post.
    reflexivity.
  - destruct (strings.HasPrefix (String a s) n) eqn:Hp.
    + intros _. destruct (HasPrefix_split _ _ Hp) as [post ->]. exists EmptyString, post.
      reflexivity.
    + destruct (strings.Index s n) as [j|]; [|discriminate]. intros _.
      destruct (IH j eq_refl) as (pre & post & ->).
      exists (String a pre), post. rewrite append_cons. reflexivity.
Qed.

Lemma Index_app (pre n post : string) : is_Some (strings.Index (pre +:+ n +:+ post) n).
Proof.
  induction pre as [|a pre IH].
  - rewrite append_nil.
    destruct n as [|c n]; [destruct post; cbn; eauto|].
    cbn [strings.Index]; rewrite ?append_cons.
    change (strings.Index (String c (n +:+ post)) (String c n))
      with (if strings.HasPrefix (String c (n +:+ post)) (String c n) then Some O
            else S <$> strings.Index (n +:+ post) (String c n)).
    rewrite <- append_cons, HasPrefix_app. eauto.
  - rewrite append_cons.
    change (strings.Index (String a (pre +:+ n +:+ post)) n)
      with (if strings.HasPrefix (String a (pre +:+ n +:+ post)) n then Some O
            else S <$> strings.Index (pre +:+ n +:+ post) n).
    destruct (strings.HasPrefix _ n); [eauto|]. destruct IH as [j ->]. cbn. eauto.
Qed.

Lemma IndexByte_app_left (s1 s2 : string) (c : ascii) :
  is_Some (IndexByte s1 c) -> is_Some (IndexByte (s1 +:+ s2) c).
Proof.
  induction s1 as [|a s1 IH]; [intros [? [=]]|].
  rewrite append_cons. cbn [IndexByte]. destruct (Ascii.eqb a c); [eauto|].
  intros [j Hj]. destruct (IndexByte s1 c) as [k|] eqn:Hk; [|discriminate].
  destruct (IH (ex_intro _ k eq_refl)) as [m ->]. cbn. eauto.
Qed.

(** Where the text [127.0.0.] sits in a text [u.r] whose [u] has no
    dot: after the dot, or [u] ends in [127] and [r] starts with
    [0.0.]. *)
Lemma loopback_text_cut (u r pre post : string) :
  IndexByte u "." = None ->
  u +:+ String "." r = pre +:+ "127.0.0." +:+ post ->
  (exists pre', r = pre' +:+ "127.0.0." +:+ post)
  \/ (u = pre +:+ "127" /\ r = "0.0." +:+ post).
Proof.
  revert u. induction pre as [|c pre IH]; intros u Hu H.
  - right. rewrite append_nil in H |- *.
    change ("127.0.0." +:+ post)
      with (String "1" (String "2" (String "7" (String "." ("0.0." +:+ post))))) in H.
    do 3 (destruct u as [|? u]; [discriminate|];
          rewrite append_cons in H; injection H as -> H;
          cbn [IndexByte] in Hu;
          match type of Hu with
          | (if ?b then _ else _) = _ => change b with false in Hu; cbv iota in Hu
          end;
          destruct (IndexByte u ".") eqn:Hu'; [discriminate|]; clear Hu; rename Hu' into Hu).
    destruct u as [|a u].
    + rewrite append_nil in H. injection H as ->. split; reflexivity.
    + rewrite append_cons in H. injection H as -> H. cbn in Hu. discriminate.
  - rewrite append_cons in H. destruct u as [|a u].
    + rewrite append_nil in H. injection H as <- ->. left. exists pre. reflexivity.
    + rewrite append_cons in H. injection H as <- H.
      cbn [IndexByte] in Hu. destruct (Ascii.eqb a "."); [discriminate|].
      destruct (IndexByte u ".") eqn:Hu'; [discriminate|].
      destruct (IH u Hu' H) as [Hl|[-> ->]]; [left; exact Hl|].
      right. rewrite append_cons. split; reflexivity.
Qed.

Lemma uitoa_no_dot (n : N) : IndexByte (uitoa n) "." = None.
Proof. apply allDigits_IndexByte; [apply uitoa_spec|reflexivity]. Qed.

Lemma uitoa_byte_short (a : byte) : (String.length (uitoa (Byte.to_N a)) <= 3)%nat.
Proof. destruct a; vm_compute; lia. Qed.

Lemma uitoa_byte_127 (a : byte) (pre : string) :
  uitoa (Byte.to_N a) = pre +:+ "127" -> a = x7f.
Proof.
  intros H. pose proof (uitoa_byte_short a) as Hlen.
  rewrite H, string_length_app in Hlen. cbn [String.length] in Hlen.
  destruct pre; [|cbn [String.length] in Hlen; lia]. rewrite append_nil in H.
  destruct a; first [reflexivity | vm_compute in H; discriminate H].
Qed.

Lemma uitoa_byte_0 (a : byte) : uitoa (Byte.to_N a) = "0" -> a = x00.
Proof. intros H. destruct a; first [reflexivity | vm_compute in H; discriminate H]. Qed.

End LoopbackText.

Section LoopbackTest.
Import net.

Lemma dot_split_inj (u u' r r' : string) :
  IndexByte u "." = None -> IndexByte u' "." = None ->
  u +:+ String "." r = u' +:+ String "." r' -> u = u' /\ r = r'.
Proof.
  revert u'. induction u as [|a u IH]; intros u' Hu Hu' H.
  - rewrite append_nil in H. destruct u' as [|a' u'].
    + rewrite append_nil in H. injection H as ->. split; reflexivity.
    + rewrite append_cons in H. injection H as <- _. cbn in Hu'. discriminate.
  - rewrite append_cons in H. cbn [IndexByte] in Hu.
    destruct (Ascii.eqb a ".") eqn:Ha; [discriminate|].
    destruct (IndexByte u ".") eqn:Hu1; [discriminate|].
    destruct u' as [|a' u'].
    + rewrite append_nil in H. injection H as -> _. discriminate.
    + rewrite append_cons in H. injection H as <- H. cbn [IndexByte] in Hu'. rewrite Ha in Hu'.
      destruct (IndexByte u' ".") eqn:Hu1'; [discriminate|].
      destruct (IH u' eq_refl Hu1' H) as [-> ->]. split; reflexivity.
Qed.

Lemma no_dot_no_loopback_text (s pre post : string) :
  IndexByte s "." = None -> s <> pre +:+ "127.0.0." +:+ post.
Proof.
  intros Hs ->.
  assert (is_Some (IndexByte (pre +:+ "127.0.0." +:+ post) ".")) as [j Hj].
  { apply IndexByte_app_Some, IndexByte_app_left. cbn. eauto. }
  congruence.
Qed.

Lemma Contains_loopback_text_no_dot (s : string) :
  IndexByte s "." = None -> strings.Contains s "127.0.0." = false.
Proof.
  intros Hs. unfold strings.Contains. apply bool_decide_eq_false_2. intros [i Hi].
  destruct (Index_split _ _ _ Hi) as (pre & post & H).
  exact (no_dot_no_loopback_text _ _ _ Hs H).
Qed.

(** The text of a.b.c.d holds [127.0.0.] exactly when a, b and c are
    127, 0 and 0. *)
Lemma Contains_loopback_text_string4 (a b c d : byte) :
  strings.Contains (string4 [a; b; c; d]) "127.0.0." = true
  <-> a = x7f /\ b = x00 /\ c = x00.
Proof.
  change (string4 [a; b; c; d])
    with (uitoa (Byte.to_N a) +:+ String "."
            (uitoa (Byte.to_N b) +:+ String "."
               (uitoa (Byte.to_N c) +:+ String "." (uitoa (Byte.to_N d))))).
  unfold strings.Contains. rewrite bool_decide_eq_true. split.
  - intros [i Hi]. destruct (Index_split _ _ _ Hi) as (pre & post & H).
    destruct (loopback_text_cut _ _ _ _ (uitoa_no_dot _) H) as [[pre1 H1]|[Ha H1]].
    + exfalso.
      destruct (loopback_text_cut _ _ _ _ (uitoa_no_dot _) H1) as [[pre2 H2]|[_ H2]].
      * destruct (loopback_text_cut _ _ _ _ (uitoa_no_dot _) H2) as [[pre3 H3]|[_ H3]].
        -- exact (no_dot_no_loopback_text _ _ _ (uitoa_no_dot _) H3).
        -- change ("0.0." +:+ post)
             with (String "0" (String "." (String "0" (String "." post)))) in H3.
           pose proof (uitoa_no_dot (Byte.to_N d)) as Hnd. rewrite H3 in Hnd. discriminate.
      * change ("0.0." +:+ post) with ("0" +:+ String "." (String "0" (String "." post))) in H2.
        destruct (dot_split_inj _ "0" _ _ (uitoa_no_dot _) eq_refl H2) as [_ Hd].
        pose proof (uitoa_no_dot (Byte.to_N d)) as Hnd. rewrite Hd in Hnd. discriminate.
    + change ("0.0." +:+ post) with ("0" +:+ String "." (String "0" (String "." post))) in H1.
      destruct (dot_split_inj _ "0" _ _ (uitoa_no_dot _) eq_refl H1) as [Hb H2].
      change (String "0" (String "." post)) with ("0" +:+ String "." post) in H2.
      destruct (dot_split_inj _ "0" _ _ (uitoa_no_dot _) eq_refl H2) as [Hc _].
      split; [exact (uitoa_byte_127 _ _ Ha)|].
      split; apply uitoa_byte_0; assumption.
  - intros (-> & -> & ->).
    change (uitoa (Byte.to_N x7f)) with "127". change (uitoa (Byte.to_N x00)) with "0".
    apply (Index_app EmptyString "127.0.0." (uitoa (Byte.to_N d))).
Qed.
End LoopbackTest.

Section LoopbackAddress.
Import net.

Lemma hexDigit_no_dot (n : N) : Ascii.eqb (hexDigit n) "." = false.
Proof.
  unfold hexDigit. generalize (N.to_nat n). intros k.
  do 16 (destruct k as [|k]; [reflexivity|]). destruct k; reflexivity.
Qed.

Lemma hexString_no_dot (p : list byte) : IndexByte (hexString p) "." = None.
Proof.
  induction p as [|b p IH]; [reflexivity|].
  cbn [hexString IndexByte]. rewrite !hexDigit_no_dot, IH. reflexivity.
Qed.

Lemma appendHex_no_dot (g : N) : IndexByte (appendHex g) "." = None.
Proof.
  unfold appendHex. destruct (N.eqb g 0); [reflexivity|].
  cbn [flat_map].
  repeat match goal with
         | |- context [if N.ltb 0 ?v then _ else _] => destruct (N.ltb 0 v)
         end;
    cbn [app string_of_list_ascii IndexByte]; rewrite ?hexDigit_no_dot; reflexivity.
Qed.

Lemma print6_no_dot (fuel i : nat) (gs : list N) (zero : nat * nat) :
  IndexByte (print6 fuel i gs zero) "." = None.
Proof.
  revert i. induction fuel as [|fuel IH]; intros i; [reflexivity|].
  rewrite print6_step.
  destruct (Nat.leb 8 i); [reflexivity|].
  destruct (Nat.eqb i zero.1).
  - cbn [IndexByte]. change (Ascii.eqb ":" ".") with false. cbv iota.
    destruct (Nat.leb 8 zero.2); [reflexivity|].
    rewrite IndexByte_app_None; [reflexivity|apply appendHex_no_dot|apply IH].
  - repeat apply IndexByte_app_None; [destruct (Nat.ltb 0 i); reflexivity| |apply IH].
    apply appendHex_no_dot.
Qed.

(** Line 318 tests the text of the address for [127.0.0.]: the test
    holds exactly for the addresses 127.0.0.0 to 127.0.0.255, in 4 bytes
    or in 16. *)
Lemma Contains_loopback_text (ip : IP) :
  strings.Contains (IP_String ip) "127.0.0." = true
  <-> exists d, To4 ip = Some [x7f; x00; x00; d].
Proof.
  unfold IP_String.
  destruct (Nat.eqb (length ip) 0) eqn:H0.
  { apply Nat.eqb_eq in H0. destruct ip; [|discriminate].
    split; [discriminate|intros [d [=]]]. }
  destruct (negb (Nat.eqb (length ip) IPv4len) && negb (Nat.eqb (length ip) IPv6len)) eqn:Hlen.
  { rewrite Contains_loopback_text_no_dot
      by (cbn [IndexByte]; change (Ascii.eqb "?" ".") with false; cbv iota;
          rewrite hexString_no_dot; reflexivity).
    split; [discriminate|]. intros [d H4]. unfold To4 in H4.
    apply andb_prop in Hlen as [Hl4 Hl6].
    apply negb_true_iff in Hl4, Hl6. rewrite Hl4, Hl6 in H4. discriminate. }
  destruct (To4 ip) as [p4|] eqn:H4.
  - destruct (To4_Some _ _ H4) as (a & b & c & d & -> & _).
    rewrite Contains_loopback_text_string4. split.
    + intros (-> & -> & ->). exists d. reflexivity.
    + intros [d' [= -> -> -> _]]. repeat split.
  - rewrite Contains_loopback_text_no_dot by apply print6_no_dot.
    split; [discriminate|intros [d [=]]].
Qed.

(** A private address passes the three tests of lines 318 to 320. *)
Lemma IsPrivate_Contains_loopback_text (ip : IP) :
  IsPrivate ip = true -> strings.Contains (IP_String ip) "127.0.0." = false.
Proof.
  intros Hp. destruct (strings.Contains (IP_String ip) "127.0.0.") eqn:Hc; [|reflexivity].
  apply Contains_loopback_text in Hc as [d H4].
  unfold IsPrivate in Hp. rewrite H4 in Hp. destruct d; discriminate Hp.
Qed.

Lemma IsPrivate_not_nil (ip : IP) : IsPrivate ip = true -> ip <> [].
Proof. intros Hp ->. discriminate. Qed.

End LoopbackAddress.

(** The test of line 318 for a loopback address reads the text of the
    address: it holds exactly for 127.0.0.0 to 127.0.0.255 (in 4 bytes
    or in 16), so for loopback addresses only, and not for every
    loopback address: 127.1.2.3 passes it. *)
Theorem loopback_text_test_holds_for_127_0_0_only (ip : net.IP) :
  (strings.Contains (net.IP_String ip) "127.0.0." = true
   <-> exists d, net.To4 ip = Some [x7f; x00; x00; d])
  /\ (strings.Contains (net.IP_String ip) "127.0.0." = true -> net.IsLoopback ip = true)
  /\ net.IsLoopback [x7f; x01; x02; x03] = true
  /\ strings.Contains (net.IP_String [x7f; x01; x02; x03]) "127.0.0." = false.
Proof.
  split; [apply Contains_loopback_text|].
  split; [|split; reflexivity].
  intros H. apply Contains_loopback_text in H as [d H4].
  unfold net.IsLoopback. rewrite H4. reflexivity.
Qed.

(** What [handleEndpointDetection] starts for one interface depends on
    three things only: a probe is started exactly when the interface is
    no bridge and its address is private and in none of the allowed
    ranges.  The tests for a [nil], loopback, multicast or link-local
    address never decide, since no private address is one. *)
Theorem endpoint_detection_tests_that_decide
    (w : World) (currentCidrs : list net.IPNet) (peerPubKey : string)
    (peerInfo : HostInfo) (peerIface : Iface) :
  let peerIP := net.IPNet_IP (Address peerIface) in
  probeIface w currentCidrs peerPubKey peerInfo peerIface
  = if negb (IsBridgeNetwork w (Iface_Name peerIface))
       && net.IsPrivate peerIP
       && negb (isAddressInPeers peerIP currentCidrs)
    then [{| probe_peerIP := net.IP_String peerIP;
             probe_peerPubKey := peerPubKey;
             probe_listenPort := ListenPort peerInfo |}]
    else [].
Proof.
  intros peerIP. unfold probeIface. fold peerIP.
  destruct (net.IsPrivate peerIP) eqn:Hprivate.
  - rewrite (bool_decide_eq_false_2 _ (IsPrivate_not_nil _ Hprivate)).
    rewrite (IsPrivate_Contains_loopback_text _ Hprivate),
      (IsPrivate_not_IsMulticast _ Hprivate), (IsPrivate_not_IsLinkLocalUnicast _ Hprivate).
    cbn [orb andb].
    destruct (IsBridgeNetwork w (Iface_Name peerIface)); [reflexivity|].
    destruct (isAddressInPeers peerIP currentCidrs); reflexivity.
  - rewrite andb_false_r. cbn [andb].
    destruct (bool_decide (peerIP = [])); [reflexivity|].
    destruct (IsBridgeNetwork w (Iface_Name peerIface)); [reflexivity|].
    destruct (_ || _ || _ || _); reflexivity.
Qed.

(** Endpoint detection probes every private address it may: for a peer
    of the update with host information, not flagged static and with
    no endpoint detected before, every interface that is no bridge and
    whose address is private and in no allowed range of any peer of
    the update gets its probe. *)
Theorem endpoint_detection_probes_every_private_unrouted_address
    (w : World) (peers : list PeerConfig) (peerInfo : HostInfoMap)
    (peer : PeerConfig) (info : HostInfo) (iface : Iface) :
  let ip := net.IPNet_IP (Address iface) in
  In peer peers ->
  peerInfo !! Key_String (PublicKey peer) = Some info ->
  In iface (Interfaces info) ->
  EndpointDetectedAlready w (Key_String (PublicKey peer)) = false ->
  IsStatic info = false ->
  IsBridgeNetwork w (Iface_Name iface) = false ->
  net.IsPrivate ip = true ->
  (forall p cidr, In p peers -> In cidr (AllowedIPs p) -> net.Contains cidr ip = false) ->
  In {| probe_peerIP := net.IP_String ip;
        probe_peerPubKey := Key_String (PublicKey peer);
        probe_listenPort := ListenPort info |}
     (handleEndpointDetection w peers peerInfo).
Proof.
  intros ip Hpeer Hinfo Hiface Hdetected Hstatic Hbridge Hprivate Hrouted.
  unfold handleEndpointDetection. apply in_flat_map. exists peer. split; [exact Hpeer|].
  unfold probePeer. rewrite Hdetected, Hinfo, Hstatic.
  apply in_flat_map. exists iface. split; [exact Hiface|].
  unfold probeIface. fold ip.
  rewrite (bool_decide_eq_false_2 _ (IsPrivate_not_nil _ Hprivate)), Hbridge.
  rewrite (IsPrivate_Contains_loopback_text _ Hprivate),
    (IsPrivate_not_IsMulticast _ Hprivate), (IsPrivate_not_IsLinkLocalUnicast _ Hprivate),
    Hprivate.
  cbn [orb andb].
  replace (isAddressInPeers ip (getAllAllowedIPs peers)) with false; [left; reflexivity|].
  symmetry. unfold isAddressInPeers, getAllAllowedIPs.
  destruct (existsb _ _) eqn:Hex; [|reflexivity].
  apply existsb_exists in Hex as (cidr & Hin & Hc).
  apply in_flat_map in Hin as (p & Hp & Hcidr).
  rewrite (Hrouted p cidr Hp Hcidr) in Hc. discriminate.
Qed.

(** A witness: the host of [peerA] advertises 10.1.2.3 on [eth0]. *)
Lemma endpoint_detection_complete_witness :
  In {| probe_peerIP := "10.1.2.3"; probe_peerPubKey := "peerA="; probe_listenPort := 51821 |}
     (handleEndpointDetection examples.world0 [examples.peerA]
        {["peerA=" := examples.hostA]}).
Proof.
  apply (endpoint_detection_probes_every_private_unrouted_address
           examples.world0 [examples.peerA] {["peerA=" := examples.hostA]}
           examples.peerA examples.hostA
           {| Iface_Name := "eth0";
              Address := examples.ipnet [x0a; x01; x02; x03] examples.mask24 |}).
  - left. reflexivity.
  - reflexivity.
  - left. reflexivity.
  - reflexivity.
  - reflexivity.
  - reflexivity.
  - reflexivity.
  - intros p cidr [<-|[]] [<-|[]]. reflexivity.
Defined.

(** * Further properties of the handlers *)

Import properties.

Lemma NodeUpdate_dropped (w : World) (msg : Message) (c : Config) :
  nodeUpdateUnreadable w msg c -> dropped c (NodeUpdate w msg c).
Proof.
  unfold dropped.
  intros [network e Htopic Hdec|network data e Htopic Hdec Hjson];
    unfold NodeUpdate, parseNetworkFromTopic; run_cfg; rewrite Htopic; run_cfg;
    rewrite Hdec; run_cfg; rewrite ?Hjson; run_cfg; repeat split.
Qed.

Lemma HostPeerUpdate_dropped (w : World) (msg : Message) (c : Config) :
  peerUpdateUnreadable w msg c -> dropped c (HostPeerUpdate w msg c).
Proof.
  unfold dropped.
  intros [Hnone|serverName Htopic Hsrv|serverName e Htopic Hdec
          |serverName data e Htopic Hdec Hjson].
  - unfold HostPeerUpdate. run_cfg. rewrite (bool_decide_eq_true_2 _ Hnone). repeat split.
  - unfold HostPeerUpdate, parseServerFromTopic, GetServer in *. run_cfg.
    destruct (bool_decide (size (Nodes c) = 0%nat)); [repeat split|].
    run_cfg. rewrite Htopic. run_cfg. rewrite Hsrv. repeat split.
  - unfold HostPeerUpdate, parseServerFromTopic, GetServer in *. run_cfg.
    destruct (bool_decide (size (Nodes c) = 0%nat)); [repeat split|].
    run_cfg. rewrite Htopic. run_cfg.
    destruct (Servers c !! serverName); run_cfg; rewrite ?Hdec; repeat split.
  - unfold HostPeerUpdate, parseServerFromTopic, GetServer in *. run_cfg.
    destruct (bool_decide (size (Nodes c) = 0%nat)); [repeat split|].
    run_cfg. rewrite Htopic. run_cfg.
    destruct (Servers c !! serverName); run_cfg; rewrite ?Hdec; run_cfg; rewrite ?Hjson;
      repeat split.
Qed.

Lemma HostUpdate_dropped (w : World) (msg : Message) (c : Config) :
  hostUpdateUnreadable w msg c -> dropped c (HostUpdate w msg c).
Proof.
  unfold dropped.
  intros [serverName Htopic Hsrv|serverName Htopic Hempty|serverName e Htopic Hdec
          |serverName data e Htopic Hdec Hjson|serverName data hu Htopic Hdec Hjson Haction];
    unfold HostUpdate, parseServerFromTopic, GetServer in *; run_cfg; rewrite Htopic; run_cfg.
  - rewrite Hsrv. repeat split.
  - destruct (Servers c !! serverName); run_cfg; rewrite ?Hempty; repeat split.
  - destruct (Servers c !! serverName); run_cfg; [|repeat split].
    destruct (Nat.eqb _ 0); run_cfg; rewrite ?Hdec; repeat split.
  - destruct (Servers c !! serverName); run_cfg; [|repeat split].
    destruct (Nat.eqb _ 0); run_cfg; rewrite ?Hdec; run_cfg; rewrite ?Hjson; repeat split.
  - destruct (Servers c !! serverName); run_cfg; [|repeat split].
    destruct (Nat.eqb _ 0); run_cfg; rewrite ?Hdec; run_cfg; rewrite ?Hjson; run_cfg;
      [repeat split|].
    destruct Haction as [->|[name ->]]; repeat split.
Qed.

(** A message that cannot be read is dropped by its handler: the
    handler returns, the configuration is as it was, and no call is
    made but to the log.  A peer-list update that arrives while there
    are no nodes is dropped before its topic is read. *)
Theorem unreadable_messages_are_dropped (w : World) (msg : Message) (c : Config) :
  (nodeUpdateUnreadable w msg c -> dropped c (NodeUpdate w msg c))
  /\ (peerUpdateUnreadable w msg c -> dropped c (HostPeerUpdate w msg c))
  /\ (hostUpdateUnreadable w msg c -> dropped c (HostUpdate w msg c)).
Proof.
  split; [apply NodeUpdate_dropped|].
  split; [apply HostPeerUpdate_dropped|apply HostUpdate_dropped].
Qed.

(** ** The host handler *)

(** The loop of [deleteHostCfg] over a list of nodes: every node of the
    server is unsubscribed and its key is deleted. *)
Lemma deleteHostCfg_loop (server : string) (l : list (string * Node)) (c : Config) :
  for_each l (fun kn =>
    when (bool_decide (Node_Server kn.2 = server))
      (emit (unsubscribeNode kn.2);; modify (DeleteNode kn.1))) c
  = (Next tt,
     with_Nodes (fun nodes =>
       foldl (fun m kn => delete kn.1 m) nodes
         (filter (fun kn => Node_Server kn.2 = server) l)) c,
     (fun kn => unsubscribeNode kn.2) <$> filter (fun kn => Node_Server kn.2 = server) l).
Proof.
  revert c. induction l as [|[k n] l IH]; intros c.
  - destruct c; reflexivity.
  - cbn [for_each]. run_lazy. cbn [snd fst].
    rewrite filter_cons. cbn [snd]. unfold DeleteNode.
    destruct (decide (Node_Server n = server)) as [Hn|Hn].
    + rewrite (bool_decide_eq_true_2 _ Hn). run_lazy. rewrite IH. reflexivity.
    + rewrite (bool_decide_eq_false_2 _ Hn). run_lazy. rewrite IH. reflexivity.
Qed.

Lemma foldl_delete_lookup (l : list (string * Node)) (m : gmap string Node) (k : string) :
  foldl (fun m kn => delete kn.1 m) m l !! k
  = if bool_decide (k ∈ l.*1) then None else m !! k.
Proof.
  revert m. induction l as [|[k' n] l IH]; intros m; [reflexivity|].
  cbn [foldl fst fmap list_fmap]. rewrite IH.
  destruct (decide (k = k')) as [->|Hk].
  - rewrite lookup_delete_eq, (bool_decide_eq_true_2 (k' ∈ k' :: l.*1)) by left.
    destruct (bool_decide (k' ∈ l.*1)); reflexivity.
  - rewrite lookup_delete_ne by congruence.
    destruct (decide (k ∈ l.*1)) as [Hin|Hin].
    + rewrite !bool_decide_eq_true_2; [reflexivity|right; exact Hin|exact Hin].
    + rewrite !bool_decide_eq_false_2; [reflexivity| |exact Hin].
      intros [?|?]%elem_of_cons; contradiction.
Qed.

(** What [deleteHostCfg] leaves and calls. *)
Lemma deleteHostCfg_run (server : string) (c : Config) :
  exists nodes : list Node,
    deleteHostCfg server c
    = (Next tt,
       with_Servers (delete server)
         (with_Nodes (fun _ => filter (fun kn => Node_Server kn.2 <> server) (Nodes c)) c),
       config_DeleteServerHostPeerCfg :: (unsubscribeNode <$> nodes))
    /\ nodes ≡ₚ (map_to_list (filter (fun kn => Node_Server kn.2 = server) (Nodes c))).*2.
Proof.
  exists ((filter (fun kn : string * Node => Node_Server kn.2 = server)
             (map_to_list (Nodes c))).*2).
  split.
  - unfold deleteHostCfg.
    rewrite run_bind. unfold emit at 1. cbv beta iota.
    rewrite run_bind. unfold gets at 1. cbv beta iota.
    rewrite run_bind, deleteHostCfg_loop. cbv beta iota zeta. unfold modify. cbn [app].
    rewrite app_nil_r.
    unfold DeleteServer. f_equal; [|rewrite <- list_fmap_compose; reflexivity].
    f_equal. destruct c as [nodes servers curr cv au cache].
    unfold with_Servers, with_Nodes. cbn. f_equal.
    apply map_eq. intros k. rewrite foldl_delete_lookup, map_lookup_filter.
    destruct (nodes !! k) as [n|] eqn:Hk; cbn.
    + destruct (decide (Node_Server n = server)) as [Hn|Hn].
      * rewrite bool_decide_eq_true_2.
        -- rewrite option_guard_False; [reflexivity|]. cbn. intros H. exact (H Hn).
        -- apply list_elem_of_fmap. exists (k, n). split; [reflexivity|].
           apply list_elem_of_filter. split; [exact Hn|].
           apply elem_of_map_to_list, Hk.
      * rewrite bool_decide_eq_false_2.
        -- rewrite option_guard_True; [reflexivity|exact Hn].
        -- intros ([k' n'] & -> & Hin)%list_elem_of_fmap.
           apply list_elem_of_filter in Hin as [Hn' Hin].
           apply elem_of_map_to_list in Hin. cbn in *. congruence.
    + destruct (bool_decide _); reflexivity.
  - apply fmap_Permutation. apply NoDup_Permutation.
    + apply NoDup_filter, NoDup_map_to_list.
    + apply NoDup_map_to_list.
    + intros [k n]. rewrite list_elem_of_filter, !elem_of_map_to_list, map_lookup_filter_Some.
      cbn. tauto.
Qed.

(** A host update with the action [delete host] that arrives. *)
Lemma HostUpdate_delete_run (w : World) (msg : Message) (c : Config)
    (serverName : string) (server : Server) (hu : models.HostUpdate) :
  hostUpdateArrives w msg c serverName server hu ->
  HostUpdate_Action hu = DeleteHost ->
  exists nodes : list Node,
    nodes ≡ₚ (map_to_list (filter (fun kn => Node_Server kn.2 = serverName) (Nodes c))).*2
    /\ HostUpdate w msg c
       = (Stop Done,
          with_Servers (delete serverName)
            (with_Nodes (fun _ => filter (fun kn => Node_Server kn.2 <> serverName) (Nodes c))
               c),
          [slog Info "processing host update"; clearRetainedMsg (Topic msg);
           unsubscribeHost serverName; config_DeleteServerHostPeerCfg]
          ++ (unsubscribeNode <$> nodes)
          ++ [config_WriteNodeConfig; config_WriteServerConfig; config_WriteNetclientConfig]
          ++ match WriteNetclientConfig_err w with
             | Some _ => [slog Error "failed to write host config"]
             | None =>
                 daemon_Restart
                 :: (if bool_decide (is_Some (Restart_err w))
                     then [slog Error "failed to restart daemon"] else [])
             end).
Proof.
  intros (Htopic & Hsrv & Hlen & data & Hdec & Hjson) Haction.
  destruct (deleteHostCfg_run serverName c) as (nodes & Hrun & Hnodes).
  exists nodes. split; [exact Hnodes|].
  unfold HostUpdate, parseServerFromTopic, GetServer in *.
  run. rewrite Htopic. run. rewrite Hsrv. run.
  rewrite (proj2 (Nat.eqb_neq _ _) Hlen), Hdec. run. rewrite Hjson. run.
  rewrite Haction. run. rewrite Hrun. run.
  fold (@app Event).
  destruct (WriteNetclientConfig_err w); run; fold (@app Event).
  - rewrite <- !app_assoc. reflexivity.
  - destruct (Restart_err w); run; fold (@app Event); rewrite <- !app_assoc; reflexivity.
Qed.

Lemma effects_app (t1 t2 : list Event) : effects (t1 ++ t2) = effects t1 ++ effects t2.
Proof. apply filter_app. Qed.

Lemma effects_unsubscribeNode (nodes : list Node) :
  effects (unsubscribeNode <$> nodes) = unsubscribeNode <$> nodes.
Proof.
  induction nodes as [|n nodes IH]; [reflexivity|].
  cbn [fmap list_fmap]. unfold effects in *. rewrite filter_cons_True by reflexivity.
  f_equal. exact IH.
Qed.

(** A host update with the action [delete host]: the retained message
    is cleared, the host and every node of the server are unsubscribed,
    each once, the three configurations are written, and the daemon is
    asked to restart unless the host configuration could not be
    written; the interface is not reset.  Afterwards the configuration
    holds the nodes of the other servers and no record of the server. *)
Theorem delete_host_removes_the_server_and_its_nodes
    (w : World) (msg : Message) (c : Config)
    (serverName : string) (server : Server) (hu : models.HostUpdate) :
  hostUpdateArrives w msg c serverName server hu ->
  HostUpdate_Action hu = DeleteHost ->
  let r := HostUpdate w msg c in
  (exists nodes : list Node,
     nodes ≡ₚ (map_to_list (filter (fun kn => Node_Server kn.2 = serverName) (Nodes c))).*2
     /\ effects (calls_of r)
        = [clearRetainedMsg (Topic msg); unsubscribeHost serverName;
           config_DeleteServerHostPeerCfg]
          ++ (unsubscribeNode <$> nodes)
          ++ [config_WriteNodeConfig; config_WriteServerConfig; config_WriteNetclientConfig]
          ++ (if bool_decide (is_Some (WriteNetclientConfig_err w)) then []
              else [daemon_Restart]))
  /\ (forall k n, Nodes (config_of r) !! k = Some n
                  <-> Nodes c !! k = Some n /\ Node_Server n <> serverName)
  /\ GetServer serverName (config_of r) = None
  /\ (forall name, name <> serverName -> GetServer name (config_of r) = GetServer name c)
  /\ ending_of r = Done.
Proof.
  intros Harr Haction r. subst r.
  destruct (HostUpdate_delete_run _ _ _ _ _ _ Harr Haction) as (nodes & Hnodes & ->).
  unfold config_of, calls_of, ending_of, GetServer. cbn [fst snd].
  split; [|split; [|split; [|split]]].
  - exists nodes. split; [exact Hnodes|].
    rewrite !effects_app, effects_unsubscribeNode.
    destruct (WriteNetclientConfig_err w) as [e|].
    + rewrite is_Some_Some_true. reflexivity.
    + rewrite (@is_Some_None_false string).
      destruct (bool_decide (is_Some (Restart_err w))); reflexivity.
  - intros k n.
    exact (map_lookup_filter_Some (fun kn : string * Node => Node_Server kn.2 <> serverName)
             (Nodes c) k n).
  - cbn. apply lookup_delete_eq.
  - intros name Hname. cbn. apply lookup_delete_ne. congruence.
  - reflexivity.
Qed.

(** A witness: the client of [cfg0] is told to delete the host of its
    server [srv], and no record of the server is left. *)
Lemma delete_host_witness :
  GetServer "srv" (config_of (HostUpdate (hostWorld DeleteHost examples.node1)
                                examples.hostMsg examples.cfg0)) = None.
Proof.
  exact (proj1 (proj2 (proj2 (delete_host_removes_the_server_and_its_nodes
           (hostWorld DeleteHost examples.node1) examples.hostMsg examples.cfg0
           "srv" examples.srv (hostUpdate2 DeleteHost examples.node1)
           (example_hostUpdateArrives (hostWorld DeleteHost examples.node1)
              (hostUpdate2 DeleteHost examples.node1) eq_refl eq_refl) eq_refl)))).
Defined.

(** After a host update with the action [delete host], what the server
    sends next is dropped: a peer-list update or a host update on a
    topic of that server finds no record of it (or no node at all), is
    logged, and changes nothing. *)
Theorem updates_of_a_deleted_server_are_dropped
    (w : World) (msg : Message) (c : Config)
    (serverName : string) (server : Server) (hu : models.HostUpdate) :
  hostUpdateArrives w msg c serverName server hu ->
  HostUpdate_Action hu = DeleteHost ->
  let c' := config_of (HostUpdate w msg c) in
  forall (w' : World) (msg' : Message),
    strings.Split (Topic msg') "/" !! 3%nat = Some serverName ->
    dropped c' (HostPeerUpdate w' msg' c') /\ dropped c' (HostUpdate w' msg' c').
Proof.
  intros Harr Haction c' w' msg' Htopic.
  assert (GetServer serverName c' = None) as Hgone.
  { subst c'. destruct (HostUpdate_delete_run _ _ _ _ _ _ Harr Haction) as (nodes & _ & ->).
    unfold config_of, GetServer. cbn. apply lookup_delete_eq. }
  split.
  - apply HostPeerUpdate_dropped. eapply peers_server_unknown; eassumption.
  - apply HostUpdate_dropped. eapply host_server_unknown; eassumption.
Qed.

(** A witness: after the host of [srv] is deleted, the peer list of
    [srv] is dropped. *)
Lemma deleted_server_witness :
  dropped (config_of (HostUpdate (hostWorld DeleteHost examples.node1) examples.hostMsg
                        examples.cfg0))
    (HostPeerUpdate examples.world0 examples.peersMsg
       (config_of (HostUpdate (hostWorld DeleteHost examples.node1) examples.hostMsg
                     examples.cfg0))).
Proof.
  exact (proj1 (updates_of_a_deleted_server_are_dropped
                  (hostWorld DeleteHost examples.node1) examples.hostMsg examples.cfg0
                  "srv" examples.srv (hostUpdate2 DeleteHost examples.node1)
                  (example_hostUpdateArrives (hostWorld DeleteHost examples.node1)
                     (hostUpdate2 DeleteHost examples.node1) eq_refl eq_refl) eq_refl
                  examples.world0 examples.peersMsg eq_refl)).
Defined.

Lemma restarts_daemon_app (t1 t2 : list Event) :
  restarts_daemon (t1 ++ t2) = restarts_daemon t1 || restarts_daemon t2.
Proof. apply existsb_app. Qed.

Lemma resets_interface_app (t1 t2 : list Event) :
  resets_interface (t1 ++ t2) = resets_interface t1 || resets_interface t2.
Proof. apply existsb_app. Qed.

Lemma unsubscribeNode_no_restart_no_reset (nodes : list Node) :
  restarts_daemon (unsubscribeNode <$> nodes) = false
  /\ resets_interface (unsubscribeNode <$> nodes) = false.
Proof. induction nodes as [|n nodes [IH1 IH2]]; split; first [reflexivity | assumption]. Qed.

(** The term whose value the evaluation of an observation of a run
    waits for. *)
Ltac stuck_obs t :=
  lazymatch t with
  | restarts_daemon ?x => stuck_obs x
  | resets_interface ?x => stuck_obs x
  | (?x, ?y) =>
      lazymatch x with
      | true => stuck_obs y
      | false => stuck_obs y
      | _ => stuck_obs x
      end
  | match ?x with _ => _ end => stuck_obs x
  | negb ?x => stuck_obs x
  | andb ?x ?y =>
      lazymatch x with
      | true => stuck_obs y
      | false => stuck_obs y
      | _ => stuck_obs x
      end
  | orb ?x _ => stuck_obs x
  | bool_decide (is_Some ?x) => stuck_obs x
  | ?f _ =>
      lazymatch f with
      | match ?x with _ => _ end => stuck_obs x
      | _ => t
      end
  | _ => t
  end.

Ltac crunch_obs :=
  repeat first
    [ reflexivity
    | lazymatch goal with
      | |- ?lhs = _ =>
          let h := stuck_obs lhs in
          lazymatch h with
          | true => fail
          | false => fail
          | Some _ => fail
          | None => fail
          | _ => destruct h eqn:?
          end
      end;
      run_cfg; rewrite ?(@is_Some_None_false string);
      cbn [restarts_daemon resets_interface existsb orb andb] ].

(** Whatever the host update, [HostUpdate] does not both ask the
    daemon to restart and reset the interface: the restart, when it is
    asked for, ends the handler.  When the host configuration cannot be
    written, it does neither. *)
Theorem HostUpdate_restarts_or_resets (w : World) (msg : Message) (c : Config) :
  let t := calls_of (HostUpdate w msg c) in
  (restarts_daemon t = true -> resets_interface t = false)
  /\ (is_Some (WriteNetclientConfig_err w) ->
      restarts_daemon t = false /\ resets_interface t = false).
Proof.
  intros t. subst t.
  assert ((restarts_daemon (calls_of (HostUpdate w msg c))
           && resets_interface (calls_of (HostUpdate w msg c)),
           if bool_decide (is_Some (WriteNetclientConfig_err w))
           then restarts_daemon (calls_of (HostUpdate w msg c))
                || resets_interface (calls_of (HostUpdate w msg c))
           else false) = (false, false)) as H.
  { destruct (strings.Split (Topic msg) "/" !! 3%nat) as [serverName|] eqn:Htopic.
    2:{ unfold HostUpdate, parseServerFromTopic. run_cfg. rewrite Htopic. run_cfg.
        destruct (bool_decide _); reflexivity. }
    destruct (GetServer serverName c) as [server|] eqn:Hsrv.
    2:{ unfold HostUpdate, parseServerFromTopic, GetServer in *. run_cfg. rewrite Htopic.
        run_cfg. rewrite Hsrv. run_cfg. destruct (bool_decide _); reflexivity. }
    destruct (Nat.eqb (String.length (Payload msg)) 0) eqn:Hlen.
    { unfold HostUpdate, parseServerFromTopic, GetServer in *. run_cfg. rewrite Htopic.
      run_cfg. rewrite Hsrv. run_cfg. rewrite Hlen. run_cfg.
      destruct (bool_decide _); reflexivity. }
    destruct (decryptMsg w serverName (Payload msg)) as [data|] eqn:Hdec.
    2:{ unfold HostUpdate, parseServerFromTopic, GetServer in *. run_cfg. rewrite Htopic.
        run_cfg. rewrite Hsrv. run_cfg. rewrite Hlen, Hdec. run_cfg.
        destruct (bool_decide _); reflexivity. }
    destruct (unmarshalHostUpdate w data) as [hu|] eqn:Hjson.
    2:{ unfold HostUpdate, parseServerFromTopic, GetServer in *. run_cfg. rewrite Htopic.
        run_cfg. rewrite Hsrv. run_cfg. rewrite Hlen, Hdec. run_cfg. rewrite Hjson. run_cfg.
        destruct (bool_decide _); reflexivity. }
    assert (hostUpdateArrives w msg c serverName server hu) as Harr.
    { split; [exact Htopic|]. split; [exact Hsrv|]. split; [apply Nat.eqb_neq, Hlen|].
      exists data. split; assumption. }
    destruct (HostUpdate_Action hu) eqn:Haction.
    3:{ destruct (HostUpdate_delete_run _ _ _ _ _ _ Harr Haction) as (nodes & _ & ->).
        unfold calls_of. cbn [snd].
        rewrite !restarts_daemon_app, !resets_interface_app.
        destruct (unsubscribeNode_no_restart_no_reset nodes) as [-> ->].
        destruct (WriteNetclientConfig_err w);
          rewrite ?is_Some_Some_true, ?(@is_Some_None_false string);
          [reflexivity|].
        destruct (bool_decide (is_Some (Restart_err w))); reflexivity. }
    all: unfold HostUpdate, parseServerFromTopic, GetServer in *; run_cfg; rewrite Htopic;
      run_cfg; rewrite Hsrv; run_cfg; rewrite Hlen, Hdec; run_cfg; rewrite Hjson; run_cfg;
      rewrite Haction; run_cfg;
      try (destruct (UpdateHost_flags w (HostUpdate_Host hu)) as [[? ?] ?]; run_cfg);
      cbn [restarts_daemon resets_interface existsb orb andb];
      crunch_obs. }
  split.
  - intros Hr. rewrite Hr in H.
    destruct (resets_interface _); first [reflexivity | discriminate].
  - intros Hfail. rewrite (bool_decide_eq_true_2 _ Hfail) in H.
    destruct (restarts_daemon _), (resets_interface _); first [split; reflexivity | discriminate].
Qed.

(** A host update with the action [update host] that arrives. *)
Lemma HostUpdate_updateHost_run (w : World) (msg : Message) (c : Config)
    (serverName : string) (server : Server) (hu : models.HostUpdate) :
  hostUpdateArrives w msg c serverName server hu ->
  HostUpdate_Action hu = UpdateHost ->
  HostUpdate w msg c =
    let flags := UpdateHost_flags w (HostUpdate_Host hu) in
    let resetInterface := flags.1.1 in
    let restartDaemon := flags.1.2 in
    let sendHostUpdate := flags.2 in
    let pre :=
      [slog Info "processing host update"; config_UpdateHost (HostUpdate_Host hu)]
      ++ (if sendHostUpdate then
            PublishHostUpdate (CurrServer c) UpdateHost
            :: (if bool_decide (is_Some (PublishHostUpdate_err w (CurrServer c) UpdateHost))
                then [slog Error "could not publish host update"] else [])
          else [])
      ++ [config_WriteNetclientConfig] in
    match WriteNetclientConfig_err w with
    | Some _ => (Stop Done, c, pre ++ [slog Error "failed to write host config"])
    | None =>
        if restartDaemon then
          (Stop Done, c,
           pre ++ [clearRetainedMsg (Topic msg); daemon_Restart]
           ++ (if bool_decide (is_Some (Restart_err w))
               then [slog Error "failed to restart daemon"] else []))
        else if resetInterface then
          (match Configure_err w with Some _ => Stop Done | None => Next tt end, c,
           pre ++ [wireguard_GetInterface; nc_Close; wireguard_NewNCIface (Nodes c);
                   nc_Create; nc_Configure]
           ++ match Configure_err w with
              | Some _ => [slog Error "could not configure netmaker interface"]
              | None =>
                  wireguard_SetPeers false
                  :: (if bool_decide (is_Some (SetPeers_err w false))
                      then [slog Error "failed to set peers"] else [])
              end)
        else (Next tt, c, pre)
    end.
Proof.
  intros (Htopic & Hsrv & Hlen & data & Hdec & Hjson) Haction.
  unfold HostUpdate, parseServerFromTopic, GetServer in *.
  run. rewrite Htopic. run. rewrite Hsrv. run.
  rewrite (proj2 (Nat.eqb_neq _ _) Hlen), Hdec. run. rewrite Hjson. run.
  rewrite Haction. run.
  destruct (UpdateHost_flags w (HostUpdate_Host hu)) as [[resetInterface restartDaemon] send].
  run. crunch.
Qed.

(** A host update with the action [update host]: the retained message
    is cleared only when the daemon is to restart (and the host
    configuration was written); an update that resets the interface or
    changes nothing leaves the retained message.  The host update it
    sends back goes to the current server, whatever server the topic
    names.  The configuration of nodes and servers is as it was. *)
Theorem update_host_clears_retained_message_only_on_restart
    (w : World) (msg : Message) (c : Config)
    (serverName : string) (server : Server) (hu : models.HostUpdate) :
  hostUpdateArrives w msg c serverName server hu ->
  HostUpdate_Action hu = UpdateHost ->
  let flags := UpdateHost_flags w (HostUpdate_Host hu) in
  let restartDaemon := flags.1.2 in
  let sendHostUpdate := flags.2 in
  let r := HostUpdate w msg c in
  (forall topic, In (clearRetainedMsg topic) (calls_of r)
                 <-> topic = Topic msg /\ restartDaemon = true
                     /\ WriteNetclientConfig_err w = None)
  /\ (forall s a, In (PublishHostUpdate s a) (calls_of r)
                  <-> sendHostUpdate = true /\ s = CurrServer c /\ a = UpdateHost)
  /\ config_of r = c.
Proof.
  intros Harr Haction flags restartDaemon sendHostUpdate r.
  subst r restartDaemon sendHostUpdate flags.
  rewrite (HostUpdate_updateHost_run _ _ _ _ _ _ Harr Haction). cbv zeta.
  destruct (UpdateHost_flags w (HostUpdate_Host hu)) as [[resetInterface restartDaemon] send].
  cbn [fst snd].
  destruct (WriteNetclientConfig_err w) as [e|], restartDaemon, resetInterface, send;
    try destruct (Configure_err w);
    try destruct (bool_decide (is_Some (PublishHostUpdate_err w (CurrServer c) UpdateHost)));
    try destruct (bool_decide (is_Some (Restart_err w)));
    try destruct (bool_decide (is_Some (SetPeers_err w false)));
    unfold calls_of, config_of; cbn [fst snd app In];
    (split; [|split; [|reflexivity]]);
    intros; split; intros H;
    repeat match goal with
           | H : _ \/ _ |- _ => destruct H as [H|H]
           | H : False |- _ => destruct H
           | H : _ /\ _ |- _ => destruct H
           | H : clearRetainedMsg _ = clearRetainedMsg _ |- _ => injection H as <-
           | H : PublishHostUpdate _ _ = PublishHostUpdate _ _ |- _ => injection H as <- <-
           | H : _ = _ |- _ => discriminate H
           end;
    subst; auto 10.
Qed.

(** A witness: a host update that asks for no restart leaves the
    retained message. *)
Lemma update_host_witness :
  ~ In (clearRetainedMsg "host/update/h1/srv")
       (calls_of (HostUpdate (hostWorld UpdateHost examples.node1)
                    examples.hostMsg examples.cfg0)).
Proof.
  intros H.
  apply (proj1 (update_host_clears_retained_message_only_on_restart
                  (hostWorld UpdateHost examples.node1) examples.hostMsg examples.cfg0
                  "srv" examples.srv (hostUpdate2 UpdateHost examples.node1)
                  (example_hostUpdateArrives (hostWorld UpdateHost examples.node1)
                     (hostUpdate2 UpdateHost examples.node1) eq_refl eq_refl) eq_refl)) in H
    as (_ & Hrestart & _).
  discriminate Hrestart.
Defined.

Lemma clears_any_app (t1 t2 : list Event) :
  clears_any (t1 ++ t2) = (clears_any t1 + clears_any t2)%nat.
Proof.
  induction t1 as [|e t1 IH]; [reflexivity|]. destruct e; cbn [app clears_any]; rewrite IH;
    reflexivity.
Qed.

Lemma clears_app (topic : string) (t1 t2 : list Event) :
  clears topic (t1 ++ t2) = (clears topic t1 + clears topic t2)%nat.
Proof.
  induction t1 as [|e t1 IH]; [reflexivity|]. destruct e; cbn [app clears]; rewrite IH;
    try reflexivity.
  destruct (String.eqb topic0 topic); reflexivity.
Qed.

Lemma clears_unsubscribeNode (topic : string) (nodes : list Node) :
  clears_any (unsubscribeNode <$> nodes) = O /\ clears topic (unsubscribeNode <$> nodes) = O.
Proof. induction nodes as [|n nodes [IH1 IH2]]; split; first [reflexivity | assumption]. Qed.

Ltac stuck_clears t :=
  lazymatch t with
  | clears_any ?x => stuck_clears x
  | clears _ ?x => stuck_clears x
  | (?x, ?y) =>
      lazymatch x with
      | S _ => stuck_clears y
      | O => stuck_clears y
      | _ => stuck_clears x
      end
  | match ?x with _ => _ end => stuck_clears x
  | negb ?x => stuck_clears x
  | andb ?x _ => stuck_clears x
  | orb ?x _ => stuck_clears x
  | bool_decide (is_Some ?x) => stuck_clears x
  | ?f _ =>
      lazymatch f with
      | match ?x with _ => _ end => stuck_clears x
      | _ => t
      end
  | _ => t
  end.

Ltac crunch_clears :=
  repeat first
    [ reflexivity
    | lazymatch goal with
      | |- ?lhs = _ =>
          let h := stuck_clears lhs in
          lazymatch h with
          | true => fail
          | false => fail
          | Some _ => fail
          | None => fail
          | S _ => fail
          | O => fail
          | String.eqb _ _ => fail
          | _ => destruct h eqn:?
          end
      end;
      run_cfg; cbn [clears_any clears]; rewrite ?String.eqb_refl ].

(** A host update with an action the handler knows, other than [update
    host], clears the retained message of its topic exactly once, and
    no other: also when the upgrade fails or the hard restart takes the
    process away, and when the host configuration cannot be written. *)
Theorem host_update_clears_retained_message_once
    (w : World) (msg : Message) (c : Config)
    (serverName : string) (server : Server) (hu : models.HostUpdate) :
  hostUpdateArrives w msg c serverName server hu ->
  In (HostUpdate_Action hu)
     [Upgrade; JoinHostToNetwork; DeleteHost; RequestAck; SignalHost; UpdateKeys;
      RequestPull] ->
  clears_any (calls_of (HostUpdate w msg c)) = 1%nat
  /\ clears (Topic msg) (calls_of (HostUpdate w msg c)) = 1%nat.
Proof.
  intros Harr Haction.
  assert ((clears_any (calls_of (HostUpdate w msg c)),
           clears (Topic msg) (calls_of (HostUpdate w msg c))) = (1%nat, 1%nat)) as H;
    [|injection H as -> ->; split; reflexivity].
  assert (HostUpdate_Action hu = DeleteHost \/ HostUpdate_Action hu <> DeleteHost)
    as [Hdelete|Hother] by (destruct (HostUpdate_Action hu); first [left; reflexivity | right; discriminate]).
  { destruct (HostUpdate_delete_run _ _ _ _ _ _ Harr Hdelete) as (nodes & _ & ->).
    unfold calls_of. cbn [snd].
    rewrite !clears_any_app, !clears_app.
    destruct (clears_unsubscribeNode (Topic msg) nodes) as [-> ->].
    cbn [clears_any clears]. rewrite String.eqb_refl.
    destruct (WriteNetclientConfig_err w); [reflexivity|].
    destruct (bool_decide (is_Some (Restart_err w))); reflexivity. }
  destruct Harr as (Htopic & Hsrv & Hlen & data & Hdec & Hjson).
  unfold HostUpdate, parseServerFromTopic, GetServer in *.
  run_cfg. rewrite Htopic. run_cfg. rewrite Hsrv. run_cfg.
  rewrite (proj2 (Nat.eqb_neq _ _) Hlen), Hdec. run_cfg. rewrite Hjson. run_cfg.
  cbn [In] in Haction.
  destruct (HostUpdate_Action hu) eqn:Ha;
    try (exfalso; repeat (destruct Haction as [Haction|Haction]; [discriminate Haction|]);
         exact Haction);
    try congruence; clear Haction; run_cfg;
    try (unfold UpdateNodeMap; cbn [Servers with_Nodes]; rewrite Hsrv; run_cfg);
    cbn [clears_any clears]; rewrite ?String.eqb_refl;
    crunch_clears.
Qed.

(** A witness: a request for an acknowledgement. *)
Lemma host_update_clears_witness :
  clears_any (calls_of (HostUpdate (hostWorld RequestAck examples.node1)
                          examples.hostMsg examples.cfg0)) = 1%nat.
Proof.
  refine (proj1 (host_update_clears_retained_message_once
                   (hostWorld RequestAck examples.node1) examples.hostMsg examples.cfg0
                   "srv" examples.srv (hostUpdate2 RequestAck examples.node1)
                   (example_hostUpdateArrives (hostWorld RequestAck examples.node1)
                      (hostUpdate2 RequestAck examples.node1) eq_refl eq_refl) _)).
  right. right. right. left. reflexivity.
Defined.

(** A host update with the action [join host to network] that
    arrives. *)
Lemma HostUpdate_join_run (w : World) (msg : Message) (c : Config)
    (serverName : string) (server : Server) (hu : models.HostUpdate) :
  hostUpdateArrives w msg c serverName server hu ->
  HostUpdate_Action hu = JoinHostToNetwork ->
  HostUpdate w msg c =
    let node := HostUpdate_Node hu in
    let server' :=
      {| Server_Name := Server_Name server; Version := Version server;
         IsPro := IsPro server; Broker := Broker server;
         Server_Nodes := <[Network node := true]> (Server_Nodes server) |} in
    let c' := UpdateServer serverName server' (UpdateNodeMap (Network node) node c) in
    let pre :=
      [slog Info "processing host update"; config_WriteNodeConfig; config_WriteServerConfig;
       slog Info "added node to network"; clearRetainedMsg (Topic msg);
       PublishHostUpdate serverName Acknowledgement]
      ++ (if bool_decide (is_Some (PublishHostUpdate_err w serverName Acknowledgement))
          then [slog Error "failed to response with ACK to server"] else [])
      ++ [setSubscriptions node; config_WriteNetclientConfig] in
    match WriteNetclientConfig_err w with
    | Some _ => (Stop Done, c', pre ++ [slog Error "failed to write host config"])
    | None =>
        (match Configure_err w with Some _ => Stop Done | None => Next tt end, c',
         pre ++ [wireguard_GetInterface; nc_Close; wireguard_NewNCIface (Nodes c');
                 nc_Create; nc_Configure]
         ++ match Configure_err w with
            | Some _ => [slog Error "could not configure netmaker interface"]
            | None =>
                wireguard_SetPeers false
                :: (if bool_decide (is_Some (SetPeers_err w false))
                    then [slog Error "failed to set peers"] else [])
            end)
    end.
Proof.
  intros (Htopic & Hsrv & Hlen & data & Hdec & Hjson) Haction.
  unfold HostUpdate, parseServerFromTopic, GetServer in *.
  run. rewrite Htopic. run. rewrite Hsrv. run.
  rewrite (proj2 (Nat.eqb_neq _ _) Hlen), Hdec. run. rewrite Hjson. run.
  rewrite Haction. run.
  unfold UpdateNodeMap at 1. cbn [Servers with_Nodes]. rewrite Hsrv. run.
  crunch.
Qed.

(** A host update with the action [join host to network]: the node is
    stored under its network (so there are nodes, and peer-list updates
    are wanted from then on), the record of the server lists that
    network and is otherwise as it was, the retained message is cleared
    before the acknowledgement is published, and the interface is made
    again from the nodes that hold the new node, unless the host
    configuration could not be written.  (The record's map of networks
    is taken as allocated, as everywhere in the configuration.) *)
Theorem join_host_to_network_stores_the_node_and_resets_the_interface
    (w : World) (msg : Message) (c : Config)
    (serverName : string) (server : Server) (hu : models.HostUpdate) :
  hostUpdateArrives w msg c serverName server hu ->
  HostUpdate_Action hu = JoinHostToNetwork ->
  let node := HostUpdate_Node hu in
  let r := HostUpdate w msg c in
  GetNode (Network node) (config_of r) = node
  /\ size (Nodes (config_of r)) <> 0%nat
  /\ (forall network, network <> Network node ->
        Nodes (config_of r) !! network = Nodes c !! network)
  /\ (exists server',
        GetServer serverName (config_of r) = Some server'
        /\ Server_Nodes server' = <[Network node := true]> (Server_Nodes server)
        /\ Server_Name server' = Server_Name server
        /\ Version server' = Version server
        /\ IsPro server' = IsPro server
        /\ Broker server' = Broker server)
  /\ (exists before after,
        calls_of r = before ++ [clearRetainedMsg (Topic msg);
                                PublishHostUpdate serverName Acknowledgement] ++ after)
  /\ (WriteNetclientConfig_err w = None ->
      exists before after,
        calls_of r = before ++ [wireguard_GetInterface; nc_Close;
                                wireguard_NewNCIface (Nodes (config_of r));
                                nc_Create; nc_Configure] ++ after)
  /\ (is_Some (WriteNetclientConfig_err w) -> ~ In nc_Close (calls_of r)).
Proof.
  intros Harr Haction node r. subst r node.
  rewrite (HostUpdate_join_run _ _ _ _ _ _ Harr Haction). cbv zeta.
  set (node := HostUpdate_Node hu).
  set (pre := [slog Info "processing host update"; config_WriteNodeConfig;
               config_WriteServerConfig; slog Info "added node to network"]).
  destruct (WriteNetclientConfig_err w) as [e|] eqn:Hwrite;
    unfold config_of, calls_of, GetNode, GetServer, UpdateServer, UpdateNodeMap;
    cbn [fst snd Nodes Servers with_Nodes with_Servers];
    rewrite !lookup_insert_eq; cbn [default];
    (split; [reflexivity|]);
    (split; [apply map_size_non_empty_iff, insert_non_empty|]);
    (split; [intros network Hne; apply lookup_insert_ne; congruence|]);
    (split; [eexists; split; [reflexivity|]; repeat split|]).
  - split; [|split; [discriminate|]].
    + exists pre. eexists. subst pre. cbn [app]. reflexivity.
    + intros _.
      destruct (bool_decide (is_Some (PublishHostUpdate_err w serverName Acknowledgement)));
        cbn [app In]; intros H;
        repeat (destruct H as [H|H]; [discriminate H|]); exact H.
  - split; [|split; [|intros [? [=]]]].
    + exists pre. eexists. subst pre. cbn [app]. reflexivity.
    + intros _. eexists. eexists. reflexivity.
Qed.

(** A witness: the host joins the network [net2]. *)
Lemma join_host_witness :
  GetNode "net2" (config_of (HostUpdate (hostWorld JoinHostToNetwork node2)
                               examples.hostMsg examples.cfg0)) = node2.
Proof.
  exact (proj1 (join_host_to_network_stores_the_node_and_resets_the_interface
           (hostWorld JoinHostToNetwork node2) examples.hostMsg examples.cfg0
           "srv" examples.srv (hostUpdate2 JoinHostToNetwork node2)
           (example_hostUpdateArrives (hostWorld JoinHostToNetwork node2)
              (hostUpdate2 JoinHostToNetwork node2) eq_refl eq_refl) eq_refl)).
Defined.

(** ** The node handler *)

(** A node update that arrives, is no repeat and asks for no delete. *)
Lemma NodeUpdate_apply_run (w : World) (msg : Message) (c : Config)
    (network data : string) (newNode : Node) :
  nodeUpdateArrives w msg c network data newNode ->
  read (Network newNode) lastNodeUpdate c <> data ->
  Action newNode <> NODE_DELETE ->
  NodeUpdate w msg c =
    let stored := with_Action NODE_NOOP newNode in
    let c' := UpdateNodeMap network stored (insert (Network newNode) lastNodeUpdate data c) in
    let ifaceDelta :=
      match Action newNode with
      | NODE_FORCE_UPDATE => true
      | _ => IfaceDelta w (GetNode network c) newNode
      end in
    let pre :=
      [slog Info "processing node update for network"; slog Info "received node update";
       config_WriteNodeConfig]
      ++ (if bool_decide (is_Some (WriteNodeConfig_err w))
          then [slog Warn "failed to write node config"] else [])
      ++ [wireguard_NewNCIface (Nodes c'); nc_Configure] in
    match Configure_err w with
    | Some _ => (Stop Done, c', pre ++ [slog Error "could not configure netmaker interface"])
    | None =>
        (Next tt, c',
         pre ++ [time_Sleep Second]
         ++ (if ifaceDelta then
               [publishSignal stored;
                match publishSignal_err w with
                | Some _ =>
                    slog Warn "could not notify server to update peers after interface change"
                | None => slog Info "signalled finished interface update to server"
                end]
             else []))
    end.
Proof.
  intros (Htopic & Hdec & Hjson) Hmiss Haction.
  unfold NodeUpdate, parseNetworkFromTopic. run.
  rewrite Htopic. run. rewrite Hdec. run. rewrite Hjson. run.
  rewrite (bool_decide_eq_false_2 _ Hmiss). run.
  destruct (Action newNode) eqn:Ha; [congruence| | |];
    destruct (WriteNodeConfig_err w), (Configure_err w); run;
    try destruct (IfaceDelta w (GetNode network c) newNode); run;
    try destruct (publishSignal_err w); reflexivity.
Qed.

(** A node update that is applied: the node is stored under the
    network of the topic with its action reset to no-op, and its
    payload is cached under the network the node names.  The interface
    is configured from the nodes that hold the new node, also when the
    node configuration could not be written.  The server is signalled
    exactly when the interface was configured and either the update
    forces it or the interface changed; when the interface cannot be
    configured the node stays stored. *)
Theorem node_update_is_stored_then_configured_then_signalled
    (w : World) (msg : Message) (c : Config) (network data : string) (newNode : Node) :
  nodeUpdateArrives w msg c network data newNode ->
  read (Network newNode) lastNodeUpdate c <> data ->
  Action newNode <> NODE_DELETE ->
  let r := NodeUpdate w msg c in
  let stored := with_Action NODE_NOOP newNode in
  GetNode network (config_of r) = stored
  /\ read (Network newNode) lastNodeUpdate (config_of r) = data
  /\ (exists before after,
        calls_of r = before ++ [wireguard_NewNCIface (Nodes (config_of r)); nc_Configure]
                     ++ after)
  /\ (forall node, In (publishSignal node) (calls_of r)
                   <-> node = stored
                       /\ Configure_err w = None
                       /\ (Action newNode = NODE_FORCE_UPDATE
                           \/ IfaceDelta w (GetNode network c) newNode = true)).
Proof.
  intros Harr Hmiss Haction r stored. subst r stored.
  rewrite (NodeUpdate_apply_run _ _ _ _ _ _ Harr Hmiss Haction). cbv zeta.
  assert (GetNode network
            (UpdateNodeMap network (with_Action NODE_NOOP newNode)
               (insert (Network newNode) lastNodeUpdate data c))
          = with_Action NODE_NOOP newNode) as Hnode.
  { unfold GetNode, UpdateNodeMap. cbn [Nodes with_Nodes]. rewrite lookup_insert_eq.
    reflexivity. }
  assert (read (Network newNode) lastNodeUpdate
            (UpdateNodeMap network (with_Action NODE_NOOP newNode)
               (insert (Network newNode) lastNodeUpdate data c)) = data) as Hcache.
  { unfold read, UpdateNodeMap, insert. cbn [messageCache with_Nodes with_messageCache].
    rewrite lookup_insert_eq. reflexivity. }
  destruct (Configure_err w) as [e|] eqn:Hconf; unfold config_of, calls_of; cbn [fst snd];
    (split; [exact Hnode|]); (split; [exact Hcache|]);
    (split;
     [exists ([slog Info "processing node update for network";
               slog Info "received node update"; config_WriteNodeConfig]
              ++ (if bool_decide (is_Some (WriteNodeConfig_err w))
                  then [slog Warn "failed to write node config"] else []));
      eexists; rewrite <- !app_assoc; reflexivity|]).
  - intros node. split; [|intros (_ & [=] & _)].
    destruct (bool_decide (is_Some (WriteNodeConfig_err w))); cbn [app In]; intros H;
      repeat (destruct H as [H|H]; [discriminate H|]); destruct H.
  - intros node.
    destruct (bool_decide (is_Some (WriteNodeConfig_err w)));
      destruct (Action newNode) eqn:Ha; try congruence;
      try destruct (IfaceDelta w (GetNode network c) newNode);
      destruct (publishSignal_err w);
      cbn [app In]; (split; [intros H|intros (-> & _ & H)]);
      repeat match goal with
             | H : _ \/ _ |- _ => destruct H as [H|H]
             | H : False |- _ => destruct H
             | H : publishSignal _ = publishSignal _ |- _ => injection H as <-
             | H : _ = _ |- _ => discriminate H
             end;
      auto 12.
Qed.

(** A witness: the node update of [nodeMsg] reaches a client that has
    not seen it. *)
Lemma node_update_witness :
  GetNode "net1" (config_of (NodeUpdate examples.world0 examples.nodeMsg examples.cfg0))
  = examples.node1.
Proof.
  refine (proj1 (node_update_is_stored_then_configured_then_signalled
                   examples.world0 examples.nodeMsg examples.cfg0 "net1" "payload"
                   examples.node1 _ _ _)).
  - repeat split; reflexivity.
  - discriminate.
  - discriminate.
Defined.

(** A node update with the action [delete] is cached before the
    network is left, and the handler itself removes no node: when the
    leave fails, the node stays in the configuration, and the same
    payload delivered again is skipped as a repeat, so the leave is not
    tried again. *)
Theorem failed_node_delete_is_not_retried
    (w : World) (msg : Message) (c : Config) (network data : string) (newNode : Node) :
  nodeUpdateArrives w msg c network data newNode ->
  read (Network newNode) lastNodeUpdate c <> data ->
  Action newNode = NODE_DELETE ->
  let r := NodeUpdate w msg c in
  Nodes (config_of r) = Nodes c
  /\ Servers (config_of r) = Servers c
  /\ (forall w' : World,
        nodeUpdateArrives w' msg (config_of r) network data newNode ->
        NodeUpdate w' msg (config_of r)
        = (Stop Done, config_of r,
           [slog Info "processing node update for network";
            slog Info "cache hit on node update ... skipping"])).
Proof.
  intros Harr Hmiss Haction r. subst r.
  rewrite (NodeUpdate_delete_run _ _ _ _ _ _ Harr Hmiss Haction).
  unfold config_of. cbn [fst snd].
  split; [reflexivity|]. split; [reflexivity|].
  intros w' (Htopic & Hdec & Hjson).
  unfold NodeUpdate, parseNetworkFromTopic. run.
  rewrite Htopic. run. rewrite Hdec. run. rewrite Hjson. run.
  rewrite bool_decide_eq_true_2; [reflexivity|].
  unfold read, insert. cbn [messageCache with_messageCache].
  rewrite lookup_insert_eq. reflexivity.
Qed.

(** A witness: the leave of [net1] fails, and the delete delivered
    again is skipped. *)
Lemma failed_node_delete_witness :
  let w := examples.deleteWorld "rpc error: code = Unknown desc = node not found" in
  calls_of (NodeUpdate w examples.nodeMsg
              (config_of (NodeUpdate w examples.nodeMsg examples.cfg0)))
  = [slog Info "processing node update for network";
     slog Info "cache hit on node update ... skipping"].
Proof.
  intros w.
  rewrite (proj2 (proj2 (failed_node_delete_is_not_retried
                           w examples.nodeMsg examples.cfg0 "net1" "payload"
                           (with_Action NODE_DELETE examples.node1)
                           (conj eq_refl (conj eq_refl eq_refl))
                           ltac:(discriminate) eq_refl)) w).
  - reflexivity.
  - repeat split; reflexivity.
Defined.

(** ** The peer-list handler *)





(** A host update with the action [upgrade] upgrades to the version
    recorded for its server, and to no other; it does so exactly when
    the comparison of the versions does not answer that the client is
    up to date. *)
Theorem upgrade_targets_the_recorded_server_version
    (w : World) (msg : Message) (c : Config)
    (serverName : string) (server : Server) (hu : models.HostUpdate) :
  hostUpdateArrives w msg c serverName server hu ->
  HostUpdate_Action hu = Upgrade ->
  forall version rebootDaemon,
    In (UseVersion version rebootDaemon) (calls_of (HostUpdate w msg c))
    <-> version = Version server /\ rebootDaemon = false
        /\ versionLessThan w (ClientVersion c) (Version server) <> Ok false.
Proof.
  intros Harr Haction version rebootDaemon.
  rewrite (HostUpdate_upgrade_run _ _ _ _ _ _ Harr Haction). cbv zeta.
  destruct (versionLessThan w (ClientVersion c) (Version server)) as [[]|];
    try destruct (UseVersion_err w (Version server));
    try destruct (HardRestart w) as [|[|]];
    destruct (WriteNetclientConfig_err w);
    unfold calls_of; cbn [fst snd app In];
    (split; [intros H|intros (-> & -> & H)]);
    repeat match goal with
           | H : _ \/ _ |- _ => destruct H as [H|H]
           | H : False |- _ => destruct H
           | H : UseVersion _ _ = UseVersion _ _ |- _ => injection H as <- <-
           | H : ?x <> ?x |- _ => destruct (H eq_refl)
           | H : _ = _ |- _ => discriminate H
           end;
    first [ repeat split; discriminate | auto 12 ].
Qed.

(** A witness: the server of [cfg0] is recorded at v0.20.0, and an
    upgrade to v0.21.0 is not what the handler calls. *)
Lemma upgrade_target_witness :
  ~ In (UseVersion "v0.21.0" false)
       (calls_of (HostUpdate (examples.upgradeWorld (Back None)) examples.hostMsg
                    examples.cfg0)).
Proof.
  intros H.
  apply (proj1 (upgrade_targets_the_recorded_server_version
                  (examples.upgradeWorld (Back None)) examples.hostMsg examples.cfg0
                  "srv" examples.srv (examples.hostUpdate1 Upgrade)
                  (example_hostUpdateArrives (examples.upgradeWorld (Back None))
                     (examples.hostUpdate1 Upgrade) eq_refl eq_refl) eq_refl
                  "v0.21.0" false)) in H
    as [Hversion _].
  discriminate Hversion.
Defined.

(** ** The fallback reconciler *)

Lemma mqFallback_tick (w : World) (wakes : list (Wake * World)) (c : Config) :
  mqFallback ((mqFallbackTicker_C, w) :: wakes) c
  = match mqFallbackTick w c with
    | (Next _, c', t) | (Stop Done, c', t) =>
        let '(r, c'', t') := mqFallback wakes c' in (r, c'', t ++ t')
    | (Stop e, c', t) => (Stop e, c', t)
    end.
Proof.
  cbn [mqFallback]. rewrite run_bind, run_call.
  destruct (mqFallbackTick w c) as [[[[]|[| |]] c'] t]; reflexivity.
Qed.

Lemma mqFallbackTick_skip (w : World) (c : Config) :
  mqConnected w = true \/ CurrServer c = "" -> mqFallbackTick w c = (Stop Done, c, []).
Proof.
  intros Hskip. unfold mqFallbackTick. run.
  destruct Hskip as [->|Hnone]; [reflexivity|].
  rewrite (bool_decide_eq_true_2 _ Hnone). destruct (mqConnected w); reflexivity.
Qed.

Lemma mqFallbackTick_pulls_at_most_once (w : World) (c : Config) :
  (pulls (calls_of (mqFallbackTick w c)) <= 1)%nat.
Proof.
  destruct (mqConnected w) eqn:Hconn.
  { rewrite mqFallbackTick_skip by (left; exact Hconn). exact (le_S _ _ (le_n O)). }
  destruct (decide (CurrServer c = "")) as [Hnone|Hcurr].
  { rewrite mqFallbackTick_skip by (right; exact Hnone). exact (le_S _ _ (le_n O)). }
  rewrite (mqFallbackTick_pulls_once _ _ Hconn Hcurr). lia.
Qed.

(** Over any sequence of wake-ups, [mqFallback] pulls at most once per
    tick it sees before its context is done; what follows the wake-up
    of the done context is not looked at; and while every tick finds
    the control channel connected, no pull is made and the
    configuration stays as it was. *)
Theorem mqFallback_pulls_at_most_once_per_tick
    (wakes : list (Wake * World)) (c : Config) :
  (pulls (calls_of (mqFallback wakes c)) <= ticks wakes)%nat
  /\ (forall before w after,
        wakes = before ++ (ctx_Done, w) :: after ->
        mqFallback wakes c = mqFallback (before ++ [(ctx_Done, w)]) c)
  /\ ((forall w, In (mqFallbackTicker_C, w) wakes -> mqConnected w = true) ->
      pulls (calls_of (mqFallback wakes c)) = O
      /\ config_of (mqFallback wakes c) = c).
Proof.
  split; [|split].
  - revert c. induction wakes as [|[[] w] wakes IH]; intros c.
    + exact (le_n O).
    + exact (le_n O).
    + rewrite mqFallback_tick. cbn [ticks].
      pose proof (mqFallbackTick_pulls_at_most_once w c) as Hone.
      destruct (mqFallbackTick w c) as [[[[]|[| |]] c'] t]; unfold calls_of in *;
        cbn [fst snd] in *; try lia;
        specialize (IH c'); destruct (mqFallback wakes c') as [[r c''] t'];
        cbn [fst snd] in *; rewrite pulls_app; lia.
  - intros before w after ->. revert c.
    induction before as [|[[] w'] before IH]; intros c; [reflexivity|reflexivity|].
    cbn [app]. rewrite !mqFallback_tick.
    destruct (mqFallbackTick w' c) as [[[[]|[| |]] c'] t]; try reflexivity;
      rewrite IH; reflexivity.
  - revert c. induction wakes as [|[[] w] wakes IH]; intros c Hconn.
    + split; reflexivity.
    + split; reflexivity.
    + rewrite mqFallback_tick, mqFallbackTick_skip by (left; apply Hconn; left; reflexivity).
      destruct (IH c) as [Hp Hc]; [intros w' Hw'; apply Hconn; right; exact Hw'|].
      unfold calls_of, config_of in *.
      destruct (mqFallback wakes c) as [[r c''] t']. cbn [fst snd app] in *.
      split; assumption.
Qed.
